(** * library-manager: the book API and the browser client

    A shallow embedding of
    - [database_setup.sql]      (the [books] table),
    - [backend/routes/books.js] (the Express routes over that table),
    - [frontend/js/script.js]   (the page state, search, filter, rendering),
    followed by the properties the specification states about them.

    Conventions of the embedding.
    - A JavaScript value read from a request body is a [value]; numbers are
      integers, and arrays or nested objects do not occur in a body.
    - A row of [books] is a [Book] typed as the schema types its columns.
    - The connection module [config/database.js] is a mysql2 promise pool;
      [db.query] escapes [undefined] and [null] to the SQL literal NULL, and
      the engine runs in its default strict mode, so a value a column cannot
      hold fails the statement instead of being truncated.
    - The identifier in [/:id] is an integer.
    - JavaScript strings are Rocq strings, a character outside ASCII being
      written in UTF-8; [toLowerCase] is the engine's and is left open, see
      [Js.lower_cases_ascii]. *)

From Stdlib Require Import ZArith List String Ascii Bool Lia QArith DecimalString.
From Stdlib Require Import Permutation Sorted DecimalZ DecimalPos.
Import ListNotations.
Open Scope string_scope.
Open Scope Z_scope.

(* ================================================================== *)
(** * JavaScript values *)
(* ================================================================== *)

Module Js.

Inductive value :=
| undefined
| null
| boolean (b : bool)
| number (n : Z)
| str (s : string).

(** ToBoolean: what [if (v)], [!v] and [v || w] test. *)
Definition truthy (v : value) : bool :=
  match v with
  | undefined | null => false
  | boolean b => b
  | number n => negb (n =? 0)
  | str s => negb (s =? "")%string
  end.

(** Decimal rendering of an integer, as a template literal prints a number. *)
Definition decimal (n : Z) : string := NilZero.string_of_int (Z.to_int n).

(** [s.startsWith(p)] *)
Fixpoint startsWith (s p : string) {struct p} : bool :=
  match p with
  | EmptyString => true
  | String b p' =>
      match s with
      | EmptyString => false
      | String a s' => Ascii.eqb a b && startsWith s' p'
      end
  end.

(** [s.includes(p)]: [p] occurs in [s] at some position. *)
Fixpoint includes (s p : string) : bool :=
  startsWith s p ||
  match s with
  | EmptyString => false
  | String _ s' => includes s' p
  end.

(** [s.toLowerCase()] is the engine's own: it lower-cases by the Unicode
    case tables, and some of its rules look at the characters around the
    one converted. The tables are no part of the program, so the script is
    embedded over any function [toLowerCase : string -> string]. What is
    used of the engine's one is stated where it is used; the properties of
    the search rest on [lower_cases_ascii]: on text within ASCII it replaces
    the letters [A] to [Z] by [a] to [z] and keeps every other character. *)
Fixpoint ascii_text (s : string) : bool :=
  match s with
  | EmptyString => true
  | String c s' => (nat_of_ascii c <? 128)%nat && ascii_text s'
  end.

Definition lower (c : ascii) : ascii :=
  let n := nat_of_ascii c in
  if (Nat.leb 65 n && Nat.leb n 90)%bool then ascii_of_nat (n + 32) else c.

Fixpoint ascii_lower (s : string) : string :=
  match s with
  | EmptyString => EmptyString
  | String c s' => String (lower c) (ascii_lower s')
  end.

Definition lower_cases_ascii (toLowerCase : string -> string) : Prop :=
  forall s, ascii_text s = true -> toLowerCase s = ascii_lower s.

End Js.

(* ================================================================== *)
(** * The [books] table (database_setup.sql) *)
(* ================================================================== *)

Module Schema.

(** [ENUM('read', 'reading', 'to-read')] *)
Inductive Status := Read | Reading | ToRead.

Definition Status_eqb (a b : Status) : bool :=
  match a, b with
  | Read, Read | Reading, Reading | ToRead, ToRead => true
  | _, _ => false
  end.

Definition status_literal (s : Status) : string :=
  match s with
  | Read => "read"
  | Reading => "reading"
  | ToRead => "to-read"
  end.

(** One row. A nullable column is an [option]; [title] and [author] are
    NOT NULL. Timestamps are seconds. *)
Record Book := mkBook {
  id : Z;
  title : string;
  author : string;
  isbn : option string;
  genre : option string;
  year_published : option Z;
  status : option Status;
  rating : option Z;
  notes : option string;
  created_at : Z;
  updated_at : Z
}.

(** The row of [GET /stats/overview]. [average_rating] is NULL over a table
    without ratings, and otherwise the DECIMAL with four fractional digits
    that [AVG] yields over an INT column, as the rational it denotes. *)
Record Stats := mkStats {
  total_books : Z;
  books_read : Z;
  books_reading : Z;
  books_to_read : Z;
  average_rating : option Q
}.

End Schema.

(* ================================================================== *)
(** * The storage engine behind [db.query] *)
(* ================================================================== *)

Module Db.
Import Js Schema.

(** A statement either completes or raises; a raised statement changes
    nothing. *)
Inductive outcome (A : Type) :=
| Done (a : A)
| Thrown (message : string).
Arguments Done {A} a.
Arguments Thrown {A} message.

Definition and_then {A B} (o : outcome A) (k : A -> outcome B) : outcome B :=
  match o with
  | Done a => k a
  | Thrown m => Thrown m
  end.

Notation "'let?' x ':=' o 'in' k" := (and_then o (fun x => k))
  (at level 10, x name, o at level 100, k at level 200).

(** The table, its AUTO_INCREMENT counter, the engine's CURRENT_TIMESTAMP,
    and the connection to the server: [online n] tells whether the statement
    a request sends after [n] earlier ones reaches it. The connection can be
    lost between two statements of one request. *)
Record Database := mkDatabase {
  books : list Book;
  auto_increment : Z;
  clock : Z;
  online : nat -> bool
}.

(** [ResultSetHeader] of a data-changing statement. *)
Record Header := mkHeader {
  affectedRows : Z;
  insertId : Z
}.

(** ** Binding a JavaScript value to a column *)

Definition option_eqb {A} (eqb : A -> A -> bool) (a b : option A) : bool :=
  match a, b with
  | Some x, Some y => eqb x y
  | None, None => true
  | _, _ => false
  end.

(** The number of characters of a text. A character outside ASCII is
    written in UTF-8, as a first byte followed by continuation bytes (128 to
    191), which are not counted. *)
Fixpoint characters (s : string) : nat :=
  match s with
  | EmptyString => 0%nat
  | String c s' =>
      let n := nat_of_ascii c in
      if (Nat.leb 128 n && Nat.leb n 191)%bool then characters s'
      else S (characters s')
  end.

(** VARCHAR(n), which holds up to [n] characters, and TEXT, which holds up
    to 65535 bytes: [measure] is [characters] or [String.length]. *)
Definition as_text (column : string) (measure : string -> nat) (maxlen : Z)
    (v : value) : outcome (option string) :=
  let fit (s : string) :=
    if Z.of_nat (measure s) <=? maxlen then Done (Some s)
    else Thrown ("Data too long for column '" ++ column ++ "'") in
  match v with
  | undefined | null => Done None
  | boolean b => fit (if b then "1" else "0")
  | number n => fit (decimal n)
  | str s => fit s
  end.

(** INT. *)
Definition as_int (column : string) (v : value) : outcome (option Z) :=
  let fit (n : Z) :=
    if (-2147483648 <=? n) && (n <=? 2147483647) then Done (Some n)
    else Thrown ("Out of range value for column '" ++ column ++ "'") in
  match v with
  | undefined | null => Done None
  | boolean b => fit (if b then 1 else 0)
  | number n => fit n
  | str s =>
      match NilZero.int_of_string s with
      | Some d => fit (Z.of_int d)
      | None => Thrown ("Incorrect integer value for column '" ++ column ++ "'")
      end
  end.

(** ENUM('read', 'reading', 'to-read'): a member by its literal, or by its
    1-based index when a number is bound. *)
Definition as_status (column : string) (v : value) : outcome (option Status) :=
  let truncated := Thrown ("Data truncated for column '" ++ column ++ "'") in
  let by_index (n : Z) :=
    if n =? 1 then Done (Some Read)
    else if n =? 2 then Done (Some Reading)
    else if n =? 3 then Done (Some ToRead)
    else truncated in
  match v with
  | undefined | null => Done None
  | boolean b => by_index (if b then 1 else 0)
  | number n => by_index n
  | str s =>
      if (s =? "read")%string then Done (Some Read)
      else if (s =? "reading")%string then Done (Some Reading)
      else if (s =? "to-read")%string then Done (Some ToRead)
      else truncated
  end.

(** NOT NULL *)
Definition not_null {A} (column : string) (o : outcome (option A)) : outcome A :=
  let? v := o in
  match v with
  | Some a => Done a
  | None => Thrown ("Column '" ++ column ++ "' cannot be null")
  end.

(** CHECK (rating >= 1 AND rating <= 5); a NULL rating passes. *)
Definition check_rating (r : option Z) : outcome unit :=
  match r with
  | Some n =>
      if (1 <=? n) && (n <=? 5) then Done tt
      else Thrown "Check constraint 'books_chk_1' is violated."
  | None => Done tt
  end.

(** UNIQUE on [isbn]: a non-NULL value may not be held by one of [others]. *)
Definition check_unique_isbn (i : option string) (others : list Book) : outcome unit :=
  match i with
  | Some s =>
      if existsb (fun r => option_eqb String.eqb (isbn r) (Some s)) others
      then Thrown "Duplicate entry for key 'books.isbn'"
      else Done tt
  | None => Done tt
  end.

(** [DEFAULT d] is used for a column the statement does not name; a column
    the statement names takes the bound value, NULL included. *)
Definition column_default {A} (d : A) (named : option A) : A :=
  match named with
  | Some v => v
  | None => d
  end.

(** The eight columns both data-changing statements name, in the order of
    their placeholders. *)
Record Params := mkParams {
  p_title : value;
  p_author : value;
  p_isbn : value;
  p_genre : value;
  p_year_published : value;
  p_status : value;
  p_rating : value;
  p_notes : value
}.

Record Columns := mkColumns {
  c_title : string;
  c_author : string;
  c_isbn : option string;
  c_genre : option string;
  c_year_published : option Z;
  c_status : option Status;
  c_rating : option Z;
  c_notes : option string
}.

Definition bind_columns (p : Params) : outcome Columns :=
  let? t := not_null "title" (as_text "title" characters 255 (p_title p)) in
  let? a := not_null "author" (as_text "author" characters 255 (p_author p)) in
  let? i := as_text "isbn" characters 20 (p_isbn p) in
  let? g := as_text "genre" characters 100 (p_genre p) in
  let? y := as_int "year_published" (p_year_published p) in
  let? s := as_status "status" (p_status p) in
  let? r := as_int "rating" (p_rating p) in
  let? _ := check_rating r in
  let? n := as_text "notes" String.length 65535 (p_notes p) in
  Done (mkColumns t a i g y s r n).

(** [INSERT INTO books (title, author, isbn, genre, year_published, status,
    rating, notes) VALUES (?, ?, ?, ?, ?, ?, ?, ?)]. The statement names
    eight columns; [id], [created_at] and [updated_at] are left to their
    defaults. *)
Definition insert (db : Database) (p : Params) : outcome (Database * Header) :=
  let? c := bind_columns p in
  let? _ := check_unique_isbn (c_isbn c) (books db) in
  let row := {|
    id := column_default (auto_increment db) None;
    title := c_title c;
    author := c_author c;
    isbn := column_default None (Some (c_isbn c));
    genre := column_default None (Some (c_genre c));
    year_published := column_default None (Some (c_year_published c));
    status := column_default (Some ToRead) (Some (c_status c));
    rating := column_default None (Some (c_rating c));
    notes := column_default None (Some (c_notes c));
    created_at := column_default (clock db) None;
    updated_at := column_default (clock db) None |} in
  Done ({| books := books db ++ [row];
           auto_increment := auto_increment db + 1;
           clock := clock db;
           online := online db |},
        {| affectedRows := 1; insertId := id row |}).

Definition has_id (i : Z) (r : Book) : bool := id r =? i.

Definition same_columns (c : Columns) (r : Book) : bool :=
  (title r =? c_title c)%string && (author r =? c_author c)%string &&
  option_eqb String.eqb (isbn r) (c_isbn c) &&
  option_eqb String.eqb (genre r) (c_genre c) &&
  option_eqb Z.eqb (year_published r) (c_year_published c) &&
  option_eqb Status_eqb (status r) (c_status c) &&
  option_eqb Z.eqb (rating r) (c_rating c) &&
  option_eqb String.eqb (notes r) (c_notes c).

(** The row [r] after [SET title = ?, ..., notes = ?]: [id] and
    [created_at] stay, [updated_at] (ON UPDATE CURRENT_TIMESTAMP) moves when
    a column changes value. *)
Definition set_columns (now : Z) (c : Columns) (r : Book) : Book :=
  {| id := id r;
     title := c_title c;
     author := c_author c;
     isbn := c_isbn c;
     genre := c_genre c;
     year_published := c_year_published c;
     status := c_status c;
     rating := c_rating c;
     notes := c_notes c;
     created_at := created_at r;
     updated_at := if same_columns c r then updated_at r else now |}.

(** [UPDATE books SET title = ?, ..., notes = ? WHERE id = ?]. The
    assignments are evaluated for the rows the WHERE clause finds; with none
    the statement completes untouched. The connection reports the rows found
    as [affectedRows] (mysql2 sets the FOUND_ROWS flag). *)
Definition update (db : Database) (p : Params) (i : Z) : outcome (Database * Header) :=
  let found := filter (has_id i) (books db) in
  match found with
  | [] => Done (db, {| affectedRows := 0; insertId := 0 |})
  | _ :: more =>
      let? c := bind_columns p in
      let? _ := check_unique_isbn (c_isbn c)
                  (filter (fun r => negb (has_id i r)) (books db) ++ more) in
      Done ({| books := map (fun r => if has_id i r
                                      then set_columns (clock db) c r
                                      else r) (books db);
               auto_increment := auto_increment db;
               clock := clock db;
               online := online db |},
            {| affectedRows := Z.of_nat (List.length found); insertId := 0 |})
  end.

(** [SELECT * FROM books ORDER BY created_at DESC]; rows created in the same
    second are kept in table order. *)
Fixpoint newest_first (r : Book) (sorted : list Book) : list Book :=
  match sorted with
  | [] => [r]
  | x :: rest =>
      if created_at x <=? created_at r then r :: sorted
      else x :: newest_first r rest
  end.

Definition select_all (db : Database) : outcome (list Book) :=
  Done (fold_right newest_first [] (books db)).

(** [SELECT * FROM books WHERE id = ?] *)
Definition select_by_id (db : Database) (i : Z) : outcome (list Book) :=
  Done (filter (has_id i) (books db)).

(** [DELETE FROM books WHERE id = ?] *)
Definition delete (db : Database) (i : Z) : outcome (Database * Header) :=
  Done ({| books := filter (fun r => negb (has_id i r)) (books db);
           auto_increment := auto_increment db;
           clock := clock db;
           online := online db |},
        {| affectedRows := Z.of_nat (List.length (filter (has_id i) (books db)));
           insertId := 0 |}).

(** ** Aggregates *)

(** [COUNT( * )] *)
Definition count_star {A} (rows : list A) : Z :=
  fold_left (fun n _ => n + 1) rows 0.

(** [COUNT(e)]: the rows on which [e] is not NULL. *)
Definition count {A B} (e : A -> option B) (rows : list A) : Z :=
  fold_left (fun n r => match e r with Some _ => n + 1 | None => n end) rows 0.

(** [status = 'lit']: unknown on a NULL status. *)
Definition status_equals (lit : Status) (r : Book) : option bool :=
  option_map (fun s => Status_eqb s lit) (status r).

(** [CASE WHEN c THEN 1 END]: NULL unless [c] is true. *)
Definition case_when_then_1 (c : option bool) : option Z :=
  match c with
  | Some true => Some 1
  | _ => None
  end.

(** The integer nearest to [a / b] for a positive [b], a half rounded away
    from zero, as the engine rounds an exact value. *)
Definition round_half_away (a b : Z) : Z :=
  if 0 <=? a then (2 * a + b) / (2 * b) else - ((2 * (- a) + b) / (2 * b)).

(** [AVG(e)] over an INT expression: sum and number of the non-NULL values
    in one pass; NULL when there is none. The quotient is a DECIMAL whose
    scale is that of the argument plus [div_precision_increment], four
    fractional digits here, and is rounded to them. *)
Definition avg {A} (e : A -> option Z) (rows : list A) : option Q :=
  let '(sum, n) :=
    fold_left (fun acc r =>
                 match e r with
                 | Some v => (fst acc + v, snd acc + 1)
                 | None => acc
                 end) rows (0, 0) in
  if n =? 0 then None else Some (round_half_away (10000 * sum) n # 10000).

(** [SELECT COUNT( * ) as total_books, COUNT(CASE WHEN status = 'read' THEN 1
    END) as books_read, ..., AVG(rating) as average_rating FROM books]: one
    row, whatever the table holds. *)
Definition select_stats (db : Database) : outcome (list Stats) :=
  Done [ {| total_books := count_star (books db);
            books_read :=
              count (fun r => case_when_then_1 (status_equals Read r)) (books db);
            books_reading :=
              count (fun r => case_when_then_1 (status_equals Reading r)) (books db);
            books_to_read :=
              count (fun r => case_when_then_1 (status_equals ToRead r)) (books db);
            average_rating := avg rating (books db) |} ].

(** ** The connection *)

(** Modelled from the spec: [config/database.js], the connection every
    [db.query] goes through, is not among the sources. It is taken as the
    mysql2 promise pool the README installs, in front of the storage the
    specification describes: a statement that does not reach the server
    raises and is not run, any other runs against the one table. [sent] is
    the number of statements the request has sent before this one. *)
Definition connected {A} (db : Database) (sent : nat) (k : outcome A) : outcome A :=
  if online db sent then k else Thrown "connect ECONNREFUSED".

End Db.

(* ================================================================== *)
(** * HTTP payloads shared by the routes and the page *)
(* ================================================================== *)

Module Http.
Import Schema.

(** The bodies [res.json] sends and [response.json()] yields. *)
Inductive Json :=
| JsonBooks (rows : list Book)
| JsonBook (row : Book)
| JsonStats (row : Stats)
| JsonMessage (message : string)
| JsonError (error : string).

(** A response; [payload] is [None] after [res.json(undefined)], which
    sends no body. *)
Record Response := mkResponse {
  statusCode : Z;
  payload : option Json
}.

End Http.

(* ================================================================== *)
(** * backend/routes/books.js *)
(* ================================================================== *)

(** [req.body] as the routes destructure it: a property the request does
    not carry reads as [undefined]. *)
Module Body.
Record t := make {
  title : Js.value;
  author : Js.value;
  isbn : Js.value;
  genre : Js.value;
  year_published : Js.value;
  status : Js.value;
  rating : Js.value;
  notes : Js.value
}.
End Body.

Module Routes.
Import Js Schema Db Http.

(** The statements a handler hands to [db.query], in order. *)
Inductive Statement :=
| SelectAll
| SelectById (id : Z)
| Insert (p : Params)
| Update (p : Params) (id : Z)
| Delete (id : Z)
| SelectStats.

Record World := mkWorld {
  db : Database;
  queries : list Statement
}.

(** An [async] handler body: it may throw, and it acts on the database
    through [db.query] only. *)
Definition async (A : Type) := World -> outcome A * World.

Definition ret {A} (a : A) : async A := fun w => (Done a, w).

Definition bind {A B} (m : async A) (k : A -> async B) : async B :=
  fun w =>
    match m w with
    | (Done a, w') => k a w'
    | (Thrown e, w') => (Thrown e, w')
    end.

(** [try { body } catch (error) { handler }] *)
Definition try_catch {A} (body : async A) (handler : string -> async A) : async A :=
  fun w =>
    match body w with
    | (Done a, w') => (Done a, w')
    | (Thrown e, w') => handler e w'
    end.

Notation "x <- m ;; k" := (bind m (fun x => k))
  (at level 61, m at next level, right associativity).
Notation "'try' body 'catch' handler" := (try_catch body handler)
  (at level 62, body at next level, handler at next level).

(** [await db.query(statement)]: the statement is recorded and sent; when
    it reaches the server the engine runs it. *)
Definition query_changing (s : Statement)
    (run : Database -> outcome (Database * Header)) : async Header :=
  fun w =>
    let sent := (queries w ++ [s])%list in
    match connected (db w) (List.length (queries w)) (run (db w)) with
    | Done (db', h) => (Done h, {| db := db'; queries := sent |})
    | Thrown e => (Thrown e, {| db := db w; queries := sent |})
    end.

Definition query_reading {A} (s : Statement)
    (run : Database -> outcome A) : async A :=
  fun w =>
    (connected (db w) (List.length (queries w)) (run (db w)),
     {| db := db w; queries := (queries w ++ [s])%list |}).

Definition query_insert (p : Params) : async Header :=
  query_changing (Insert p) (fun d => insert d p).
Definition query_update (p : Params) (i : Z) : async Header :=
  query_changing (Update p i) (fun d => update d p i).
Definition query_delete (i : Z) : async Header :=
  query_changing (Delete i) (fun d => delete d i).
Definition query_select_all : async (list Book) :=
  query_reading SelectAll select_all.
Definition query_select_by_id (i : Z) : async (list Book) :=
  query_reading (SelectById i) (fun d => select_by_id d i).
Definition query_select_stats : async (list Stats) :=
  query_reading SelectStats select_stats.

(** [res.status(code).json(payload)] and [res.json(payload)] *)
Definition res_status_json (code : Z) (j : option Json) : async Response :=
  ret {| statusCode := code; payload := j |}.
Definition res_json (j : option Json) : async Response := res_status_json 200 j.

Definition server_error (error : string) : async Response :=
  res_status_json 500 (Some (JsonError error)).

(** [router.get('/')] *)
Definition router_get : async Response :=
  try (
    rows <- query_select_all ;;
    res_json (Some (JsonBooks rows))
  ) catch server_error.

(** [router.get('/:id')] *)
Definition router_get_id (params_id : Z) : async Response :=
  try (
    rows <- query_select_by_id params_id ;;
    if (List.length rows =? 0)%nat then
      res_status_json 404 (Some (JsonError "Book not found"))
    else
      res_json (option_map JsonBook (nth_error rows 0))
  ) catch server_error.

(** [router.post('/')] *)
Definition router_post (req_body : Body.t) : async Response :=
  try (
    let title := Body.title req_body in
    let author := Body.author req_body in
    let isbn := Body.isbn req_body in
    let genre := Body.genre req_body in
    let year_published := Body.year_published req_body in
    let status := Body.status req_body in
    let rating := Body.rating req_body in
    let notes := Body.notes req_body in
    if negb (truthy title) || negb (truthy author) then
      res_status_json 400 (Some (JsonError "Title and author are required"))
    else
      result <- query_insert
                  (mkParams title author isbn genre year_published status rating notes) ;;
      newBook <- query_select_by_id (insertId result) ;;
      res_status_json 201 (option_map JsonBook (nth_error newBook 0))
  ) catch server_error.

(** [router.put('/:id')] *)
Definition router_put (params_id : Z) (req_body : Body.t) : async Response :=
  try (
    let title := Body.title req_body in
    let author := Body.author req_body in
    let isbn := Body.isbn req_body in
    let genre := Body.genre req_body in
    let year_published := Body.year_published req_body in
    let status := Body.status req_body in
    let rating := Body.rating req_body in
    let notes := Body.notes req_body in
    result <- query_update
                (mkParams title author isbn genre year_published status rating notes)
                params_id ;;
    if affectedRows result =? 0 then
      res_status_json 404 (Some (JsonError "Book not found"))
    else
      updatedBook <- query_select_by_id params_id ;;
      res_json (option_map JsonBook (nth_error updatedBook 0))
  ) catch server_error.

(** [router.delete('/:id')] *)
Definition router_delete (params_id : Z) : async Response :=
  try (
    result <- query_delete params_id ;;
    if affectedRows result =? 0 then
      res_status_json 404 (Some (JsonError "Book not found"))
    else
      res_json (Some (JsonMessage "Book deleted successfully"))
  ) catch server_error.

(** [router.get('/stats/overview')] *)
Definition router_get_stats_overview : async Response :=
  try (
    stats <- query_select_stats ;;
    res_json (option_map JsonStats (nth_error stats 0))
  ) catch server_error.

(** One request against a database: the response, the database afterwards
    and the statements issued. *)
Definition serve (h : async Response) (d : Database)
  : outcome Response * Database * list Statement :=
  let '(r, w) := h {| db := d; queries := [] |} in
  (r, db w, queries w).

End Routes.

(* ================================================================== *)
(** * frontend/js/script.js *)
(* ================================================================== *)

Module Script.
Import Js Schema Http.

(** ** What the page sees of a book: the JSON of a row *)

Definition text (o : option string) : value :=
  match o with
  | Some s => str s
  | None => null
  end.

Definition int (o : option Z) : value :=
  match o with
  | Some n => number n
  | None => null
  end.

Definition status_value (o : option Status) : value :=
  text (option_map status_literal o).

(** A value placed in a template literal. *)
Definition interpolate (v : value) : string :=
  match v with
  | undefined => "undefined"
  | null => "null"
  | boolean b => if b then "true" else "false"
  | number n => decimal n
  | str s => s
  end.

(** ** [await fetch(...)] as the page experiences it *)

(** The promise rejects (no connection), or resolves to a response with a
    status and a body that [response.json()] parses or not. *)
Inductive Fetched :=
| Rejected (reason : string)
| Resolved (status : Z) (body : option Json).

(** [response.ok] *)
Definition ok (status : Z) : bool := (200 <=? status) && (status <=? 299).

(** ** Application state and the elements the script touches *)

Record Page := mkPage {
  books : Json;
  filteredBooks : list Book;
  searchInput : string;
  filterStatus : string;
  booksList : string;
  totalBooks : Z;
  booksRead : Z;
  booksReading : Z;
  booksToRead : Z;
  editModal : bool;
  alerts : list string
}.

(** [let books = []; let filteredBooks = [];] on a freshly parsed page. *)
Definition initial : Page :=
  mkPage (JsonBooks []) [] "" "" "" 0 0 0 0 false [].

Definition set_books (v : Json) (p : Page) : Page :=
  mkPage v (filteredBooks p) (searchInput p) (filterStatus p) (booksList p)
    (totalBooks p) (booksRead p) (booksReading p) (booksToRead p)
    (editModal p) (alerts p).

Definition set_filteredBooks (v : list Book) (p : Page) : Page :=
  mkPage (books p) v (searchInput p) (filterStatus p) (booksList p)
    (totalBooks p) (booksRead p) (booksReading p) (booksToRead p)
    (editModal p) (alerts p).

Definition set_searchInput (v : string) (p : Page) : Page :=
  mkPage (books p) (filteredBooks p) v (filterStatus p) (booksList p)
    (totalBooks p) (booksRead p) (booksReading p) (booksToRead p)
    (editModal p) (alerts p).

Definition set_filterStatus (v : string) (p : Page) : Page :=
  mkPage (books p) (filteredBooks p) (searchInput p) v (booksList p)
    (totalBooks p) (booksRead p) (booksReading p) (booksToRead p)
    (editModal p) (alerts p).

Definition set_booksList (v : string) (p : Page) : Page :=
  mkPage (books p) (filteredBooks p) (searchInput p) (filterStatus p) v
    (totalBooks p) (booksRead p) (booksReading p) (booksToRead p)
    (editModal p) (alerts p).

Definition set_statistics (total read reading to_read : Z) (p : Page) : Page :=
  mkPage (books p) (filteredBooks p) (searchInput p) (filterStatus p)
    (booksList p) total read reading to_read (editModal p) (alerts p).

Definition set_editModal (v : bool) (p : Page) : Page :=
  mkPage (books p) (filteredBooks p) (searchInput p) (filterStatus p)
    (booksList p) (totalBooks p) (booksRead p) (booksReading p)
    (booksToRead p) v (alerts p).

(** [alert(message)] *)
Definition alert (message : string) (p : Page) : Page :=
  mkPage (books p) (filteredBooks p) (searchInput p) (filterStatus p)
    (booksList p) (totalBooks p) (booksRead p) (booksReading p)
    (booksToRead p) (editModal p) (alerts p ++ [message]).

(** ** Utility functions *)

Definition dq : string := String (ascii_of_nat 34) "".
Definition nl : string := String (ascii_of_nat 10) "".

(** The [map] of [escapeHtml]: the entity of each of the five characters. *)
Definition map (m : ascii) : option string :=
  if Ascii.eqb m "&" then Some "&amp;"
  else if Ascii.eqb m "<" then Some "&lt;"
  else if Ascii.eqb m ">" then Some "&gt;"
  else if Ascii.eqb m (ascii_of_nat 34) then Some "&quot;"
  else if Ascii.eqb m "'" then Some "&#039;"
  else None.

(** [text.replace(re, m => map[m])] with the global character class of the
    five keys of [map]: each character of the class is replaced, every other
    one is kept. *)
Fixpoint replace (s : string) : string :=
  match s with
  | EmptyString => EmptyString
  | String c s' =>
      match map c with
      | Some entity => entity ++ replace s'
      | None => String c (replace s')
      end
  end.

Definition escapeHtml (t : option string) : string :=
  if negb (truthy (text t)) then ""
  else match t with
       | Some s => replace s
       | None => ""
       end.

Definition formatStatus (status : value) : value :=
  let statusMap (key : string) : value :=
    if (key =? "read")%string then str "Read"
    else if (key =? "reading")%string then str "Currently Reading"
    else if (key =? "to-read")%string then str "To Read"
    else undefined in
  let found := statusMap (interpolate status) in
  if truthy found then found else status.

Definition generateStars (rating : Z) : string :=
  fold_left
    (fun stars i =>
       if i <=? rating
       then stars ++ "<i class=" ++ dq ++ "fas fa-star" ++ dq ++ "></i>"
       else stars ++ "<i class=" ++ dq ++ "far fa-star" ++ dq ++ "></i>")
    [1; 2; 3; 4; 5] "".

Definition showLoading (p : Page) : Page :=
  set_booksList
    ("<div class=" ++ dq ++ "loading" ++ dq ++ "><div class=" ++ dq ++
     "spinner" ++ dq ++ "></div></div>") p.

Definition showSuccess (message : string) (p : Page) : Page := alert message p.
Definition showError (message : string) (p : Page) : Page := alert message p.

(** ** Rendering *)

(** A template literal is a sequence of fixed markup and interpolated book
    values; [innerHTML] receives their concatenation. *)
Inductive piece :=
| Markup (s : string)
| Data (s : string).

Definition piece_text (x : piece) : string :=
  match x with
  | Markup s => s
  | Data s => s
  end.

Definition concat (l : list string) : string := fold_right append "" l.

(** The card of one book, piece by piece. *)
Definition card_pieces (book : Book) : list piece :=
  ([Markup (nl ++
           "        <div class=" ++ dq ++ "book-card" ++ dq ++ ">" ++ nl ++
           "            <!-- Book title (escaped for security) -->" ++ nl ++
           "            <h3>");
    Data (escapeHtml (Some (title book)));
    Markup ("</h3>" ++ nl ++
           "            " ++ nl ++
           "            <!-- Author name -->" ++ nl ++
           "            <p class=" ++ dq ++ "author" ++ dq ++ ">by ");
    Data (escapeHtml (Some (author book)));
    Markup ("</p>" ++ nl ++
           "            " ++ nl ++
           "            <!-- Book metadata (genre, year, ISBN) -->" ++ nl ++
           "            <div class=" ++ dq ++ "metadata" ++ dq ++ ">" ++ nl ++
           "                <!-- Only show genre if it exists -->" ++ nl ++
           "                ")] ++
   (if truthy (text (genre book))
    then [Markup ("<span><i class=" ++ dq ++ "fas fa-tag" ++ dq ++ "></i> ");
          Data (escapeHtml (genre book));
          Markup "</span>"]
    else []) ++
   [Markup (nl ++
           "                " ++ nl ++
           "                <!-- Only show year if it exists -->" ++ nl ++
           "                ")] ++
   (if truthy (int (year_published book))
    then [Markup ("<span><i class=" ++ dq ++ "fas fa-calendar" ++ dq ++ "></i> ");
          Data (interpolate (int (year_published book)));
          Markup "</span>"]
    else []) ++
   [Markup (nl ++
           "                " ++ nl ++
           "                <!-- Only show ISBN if it exists -->" ++ nl ++
           "                ")] ++
   (if truthy (text (isbn book))
    then [Markup ("<span><i class=" ++ dq ++ "fas fa-barcode" ++ dq ++ "></i> ");
          Data (escapeHtml (isbn book));
          Markup "</span>"]
    else []) ++
   [Markup (nl ++
           "            </div>" ++ nl ++
           "            " ++ nl ++
           "            <!-- Status badge and rating -->" ++ nl ++
           "            <div>" ++ nl ++
           "                <!-- Reading status with color coding -->" ++ nl ++
           "                <span class=" ++ dq ++ "status-badge status-");
    Data (interpolate (status_value (status book)));
    Markup (dq ++ ">" ++ nl ++
           "                    ");
    Data (interpolate (formatStatus (status_value (status book))));
    Markup (nl ++
           "                </span>" ++ nl ++
           "                " ++ nl ++
           "                <!-- Show star rating if exists -->" ++ nl ++
           "                ")] ++
   (if truthy (int (rating book))
    then [Markup ("<span class=" ++ dq ++ "rating" ++ dq ++ ">");
          Markup (match rating book with
                  | Some r => generateStars r
                  | None => ""
                  end);
          Markup "</span>"]
    else []) ++
   [Markup (nl ++
           "            </div>" ++ nl ++
           "            " ++ nl ++
           "            <!-- Notes if they exist -->" ++ nl ++
           "            ")] ++
   (if truthy (text (notes book))
    then [Markup ("<p class=" ++ dq ++ "notes" ++ dq ++ ">");
          Data (escapeHtml (notes book));
          Markup "</p>"]
    else []) ++
   [Markup (nl ++
           "            " ++ nl ++
           "            <!-- Action buttons -->" ++ nl ++
           "            <div class=" ++ dq ++ "book-actions" ++ dq ++ ">" ++ nl ++
           "                <!-- Edit button with onclick handler -->" ++ nl ++
           "                <button class=" ++ dq ++ "btn btn-edit" ++ dq ++ " onclick=" ++ dq ++ "openEditModal(");
    Data (interpolate (number (id book)));
    Markup (")" ++ dq ++ ">" ++ nl ++
           "                    <i class=" ++ dq ++ "fas fa-edit" ++ dq ++ "></i> Edit" ++ nl ++
           "                </button>" ++ nl ++
           "                " ++ nl ++
           "                <!-- Delete button with onclick handler -->" ++ nl ++
           "                <button class=" ++ dq ++ "btn btn-delete" ++ dq ++ " onclick=" ++ dq ++ "deleteBook(");
    Data (interpolate (number (id book)));
    Markup (")" ++ dq ++ ">" ++ nl ++
           "                    <i class=" ++ dq ++ "fas fa-trash" ++ dq ++ "></i> Delete" ++ nl ++
           "                </button>" ++ nl ++
           "            </div>" ++ nl ++
           "        </div>" ++ nl ++
           "    ")])%list.

Definition card (book : Book) : string :=
  concat (List.map piece_text (card_pieces book)).

(** [renderBooks()] *)
Definition renderBooks (p : Page) : Page :=
  if (List.length (filteredBooks p) =? 0)%nat then
    set_booksList
      (nl ++
       "            <div class=" ++ dq ++ "empty-state" ++ dq ++ ">" ++ nl ++
       "                <i class=" ++ dq ++ "fas fa-book" ++ dq ++ "></i>" ++ nl ++
       "                <h3>No books found</h3>" ++ nl ++
       "                <p>Add your first book to get started!</p>" ++ nl ++
       "            </div>" ++ nl ++
       "        ") p
  else
    set_booksList (concat (List.map card (filteredBooks p))) p.

(** ** Loading *)

(** [loadBooks()], given what the fetch of [/books] brings. The response
    status is not looked at; the parsed body is stored in [books] before it
    is spread into [filteredBooks], and spreading anything but an array
    throws into the [catch]. *)
Definition loadBooks (response : Fetched) (p : Page) : Page :=
  let p := showLoading p in
  match response with
  | Rejected _ => showError "Failed to load books" p
  | Resolved _ None => showError "Failed to load books" p
  | Resolved _ (Some data) =>
      let p := set_books data p in
      match books p with
      | JsonBooks rows =>
          let p := set_filteredBooks rows p in
          renderBooks p
      | _ => showError "Failed to load books" p
      end
  end.

(** [loadStatistics()]: a missing figure shows as 0, a failure is only
    logged. *)
Definition loadStatistics (response : Fetched) (p : Page) : Page :=
  match response with
  | Rejected _ => p
  | Resolved _ None => p
  | Resolved _ (Some (JsonStats stats)) =>
      let or0 (n : Z) := if truthy (number n) then n else 0 in
      set_statistics (or0 (total_books stats)) (or0 (books_read stats))
        (or0 (books_reading stats)) (or0 (books_to_read stats)) p
  | Resolved _ (Some _) => set_statistics 0 0 0 0 p
  end.

(** ** Search and filter *)

(** [applyStatusFilter()] *)
Definition applyStatusFilter (p : Page) : Page :=
  let statusValue := filterStatus p in
  if truthy (str statusValue) then
    set_filteredBooks
      (filter (fun book =>
                 match status_value (status book) with
                 | str s => (s =? statusValue)%string
                 | _ => false
                 end)
              (filteredBooks p)) p
  else p.

(** [handleSearch()]. With [books] not an array, [books.filter] is not a
    function and the handler stops there. *)
Definition handleSearch (toLowerCase : string -> string) (p : Page) : Page :=
  let searchTerm := toLowerCase (searchInput p) in
  match books p with
  | JsonBooks rows =>
      let p :=
        set_filteredBooks
          (filter (fun book =>
                     includes (toLowerCase (title book)) searchTerm ||
                     includes (toLowerCase (author book)) searchTerm)
                  rows) p in
      let p := applyStatusFilter p in
      renderBooks p
  | _ => p
  end.

(** [handleFilter()] *)
Definition handleFilter (p : Page) : Page :=
  let p := applyStatusFilter p in
  renderBooks p.

(** The [input] event of the search box and the [change] event of the
    status dropdown, with the value the user left in the element. *)
Definition on_search_input (toLowerCase : string -> string) (typed : string)
    (p : Page) : Page :=
  handleSearch toLowerCase (set_searchInput typed p).

Definition on_filter_change (selected : string) (p : Page) : Page :=
  handleFilter (set_filterStatus selected p).

(** ** Mutations *)

(** The three flows send one request and, when [response.ok], reload the
    list and the statistics. The request body has no bearing on the page
    state and is left out. *)

(** [handleAddBook(e)] *)
Definition handleAddBook (response reload stats : Fetched) (p : Page) : Page :=
  match response with
  | Rejected _ => showError "Failed to add book" p
  | Resolved status _ =>
      if negb (ok status) then showError "Failed to add book" p
      else
        let p := loadBooks reload p in
        let p := loadStatistics stats p in
        showSuccess "Book added successfully!" p
  end.

(** [handleEditBook(e)] *)
Definition handleEditBook (response reload stats : Fetched) (p : Page) : Page :=
  match response with
  | Rejected _ => showError "Failed to update book" p
  | Resolved status _ =>
      if negb (ok status) then showError "Failed to update book" p
      else
        let p := loadBooks reload p in
        let p := loadStatistics stats p in
        let p := set_editModal false p in
        showSuccess "Book updated successfully!" p
  end.

(** [deleteBook(bookId)]; [confirmed] is the answer to the dialog. *)
Definition deleteBook (confirmed : bool) (response reload stats : Fetched)
    (p : Page) : Page :=
  if negb confirmed then p
  else
    match response with
    | Rejected _ => showError "Failed to delete book" p
    | Resolved status _ =>
        if negb (ok status) then showError "Failed to delete book" p
        else
          let p := loadBooks reload p in
          let p := loadStatistics stats p in
          showSuccess "Book deleted successfully!" p
    end.

End Script.

(* ================================================================== *)
(** * The specification's vocabulary *)
(* ================================================================== *)

Module Spec.
Import Js Schema Db Http Script.

(** A request property is _missing_ when the body does not carry it, and
    _blank_ when it is missing, null, the empty string, 0 or false. *)
Definition missing (v : value) : Prop := v = undefined.
Definition blank (v : value) : Prop := truthy v = false.

(** The rows whose status is a given member of the enumeration. *)
Definition with_status (s : Status) (rows : list Book) : list Book :=
  filter (fun r => match status r with
                   | Some s' => Status_eqb s' s
                   | None => false
                   end) rows.

(** The ratings that are not NULL, in table order. *)
Definition ratings (rows : list Book) : list Z :=
  flat_map (fun r => match rating r with
                     | Some n => [n]
                     | None => []
                     end) rows.

Definition sum (l : list Z) : Z := fold_right Z.add 0 l.

(** Arithmetic mean of a non-empty list of integers. *)
Definition mean (l : list Z) : Q :=
  (inject_Z (sum l) / inject_Z (Z.of_nat (List.length l)))%Q.

(** Two characters are the same letter when they are equal, or one is a
    capital letter [A] to [Z] and the other the small letter 32 places
    further. Two texts are the same ignoring case when they are so letter
    by letter. *)
Definition capital (c : ascii) : Prop :=
  (65 <= nat_of_ascii c <= 90)%nat.

Definition same_letter (a b : ascii) : Prop :=
  a = b \/
  (capital a /\ nat_of_ascii b = (nat_of_ascii a + 32)%nat) \/
  (capital b /\ nat_of_ascii a = (nat_of_ascii b + 32)%nat).

Fixpoint same_ignoring_case (a b : string) : Prop :=
  match a, b with
  | EmptyString, EmptyString => True
  | String x a', String y b' => same_letter x y /\ same_ignoring_case a' b'
  | _, _ => False
  end.

(** [q] occurs in [s] when the case of letters is ignored. *)
Definition contains_ignoring_case (s q : string) : Prop :=
  exists before found after,
    s = before ++ found ++ after /\ same_ignoring_case found q.

(** A book matches a query when its title or its author contains it. *)
Definition matches_search (q : string) (b : Book) : Prop :=
  contains_ignoring_case (title b) q \/ contains_ignoring_case (author b) q.

(** A book passes the status selection when all statuses are selected (the
    option whose value is empty) or its status is the selected one. *)
Definition has_selected_status (selected : string) (b : Book) : Prop :=
  selected = "" \/ option_map status_literal (status b) = Some selected.

(** The set last fetched, as far as [books] holds one. *)
Definition fetched (j : Json) : list Book :=
  match j with
  | JsonBooks rows => rows
  | _ => []
  end.

(** A request fails when the network does, or when the response is not a
    success. *)
Definition failing (r : Fetched) : Prop :=
  match r with
  | Rejected _ => True
  | Resolved status _ => ok status = false
  end.

(** The five characters with a meaning in markup. *)
Definition significant (c : ascii) : Prop :=
  c = "&"%char \/ c = "<"%char \/ c = ">"%char \/
  c = ascii_of_nat 34 \/ c = "'"%char.

(** Text is _escaped_ when none of [<], [>], the double quote and the
    apostrophe occurs in it, and every [&] in it opens one of the five
    entities. *)
Fixpoint escaped (s : string) : bool :=
  match s with
  | EmptyString => true
  | String c rest =>
      (if Ascii.eqb c "&"
       then startsWith rest "amp;" || startsWith rest "lt;" ||
            startsWith rest "gt;" || startsWith rest "quot;" ||
            startsWith rest "#039;"
       else negb (Ascii.eqb c "<" || Ascii.eqb c ">" ||
                  Ascii.eqb c (ascii_of_nat 34) || Ascii.eqb c "'"))
      && escaped rest
  end.

End Spec.


(* ================================================================== *)
(** * frontend/js/script.js: the forms *)
(* ================================================================== *)

Module Forms.
Import Js Schema Http Script.

(** [a || b] *)
Definition or (a b : value) : value := if truthy a then a else b.

(** The [value] of each field of the edit form. Assigning to [value] stores
    the string form of what is assigned; the fields are taken to hold any
    string, as [index.html] is not among the sources. *)
Record EditForm := mkEditForm {
  editBookId : string;
  editTitle : string;
  editAuthor : string;
  editIsbn : string;
  editGenre : string;
  editYear : string;
  editStatus : string;
  editRating : string;
  editNotes : string
}.

(** [openEditModal(bookId)]. With [books] not an array, [books.find] is not
    a function and nothing is filled in. *)
Definition openEditModal (bookId : Z) (p : Page) (f : EditForm)
  : Page * EditForm :=
  match books p with
  | JsonBooks rows =>
      match find (fun b => id b =? bookId) rows with
      | None => (p, f)
      | Some book =>
          let f :=
            {| editBookId := interpolate (number (id book));
               editTitle := interpolate (or (str (title book)) (str ""));
               editAuthor := interpolate (or (str (author book)) (str ""));
               editIsbn := interpolate (or (text (isbn book)) (str ""));
               editGenre := interpolate (or (text (genre book)) (str ""));
               editYear := interpolate (or (int (year_published book)) (str ""));
               editStatus :=
                 interpolate (or (status_value (status book)) (str "to-read"));
               editRating := interpolate (or (int (rating book)) (str ""));
               editNotes := interpolate (or (text (notes book)) (str "")) |} in
          (set_editModal true p, f)
      end
  | _ => (p, f)
  end.

(** The [bookData] that [handleEditBook] sends as the body of its PUT. *)
Definition edit_bookData (f : EditForm) : Body.t :=
  Body.make
    (str (editTitle f))
    (str (editAuthor f))
    (or (str (editIsbn f)) null)
    (or (str (editGenre f)) null)
    (or (str (editYear f)) null)
    (str (editStatus f))
    (or (str (editRating f)) null)
    (or (str (editNotes f)) null).

(** The identifier [handleEditBook] puts in the path of its PUT, read as the
    integer it denotes. *)
Definition edit_bookId (f : EditForm) : option Z :=
  option_map Z.of_int (NilZero.int_of_string (editBookId f)).

(** An object with string keys, in insertion order. *)
Definition object := list (string * value).

(** [o[k] = v] *)
Fixpoint set (k : string) (v : value) (o : object) : object :=
  match o with
  | [] => [(k, v)]
  | (k', v') :: rest =>
      if (k' =? k)%string then (k, v) :: rest else (k', v') :: set k v rest
  end.

(** [o[k]], and what destructuring [k] out of [o] gives. *)
Fixpoint get (k : string) (o : object) : value :=
  match o with
  | [] => undefined
  | (k', v) :: rest => if (k' =? k)%string then v else get k rest
  end.

(** [Object.fromEntries(formData.entries())]: of two entries with one name
    the later one wins. *)
Definition fromEntries (entries : list (string * string)) : object :=
  fold_left (fun o e => set (fst e) (str (snd e)) o) entries [].

(** The loop of [handleAddBook] over the keys of [bookData]: an empty string
    becomes [null]. *)
Definition clean (o : object) : object :=
  List.map (fun kv => match snd kv with
                      | str EmptyString => (fst kv, null)
                      | _ => kv
                      end) o.

(** The [bookData] that [handleAddBook] sends as the body of its POST, for
    the entries of the add form. *)
Definition add_bookData (entries : list (string * string)) : object :=
  clean (fromEntries entries).

(** [req.body] of that POST as the route destructures it. *)
Definition body_of (o : object) : Body.t :=
  Body.make (get "title" o) (get "author" o) (get "isbn" o) (get "genre" o)
    (get "year_published" o) (get "status" o) (get "rating" o) (get "notes" o).

End Forms.

(* ================================================================== *)
(** * Requests, sample data and devices used in the statements *)
(* ================================================================== *)

Section RouteVocabulary.
Import Js Schema Db Http Routes.

(** The placeholders a handler fills from a request body. *)
Definition params_of (body : Body.t) : Params :=
  mkParams (Body.title body) (Body.author body) (Body.isbn body)
    (Body.genre body) (Body.year_published body) (Body.status body)
    (Body.rating body) (Body.notes body).

Definition validation_error : Response :=
  {| statusCode := 400;
     payload := Some (JsonError "Title and author are required") |}.

Definition not_found : Response :=
  {| statusCode := 404; payload := Some (JsonError "Book not found") |}.

(** Sample data: the three rows [database_setup.sql] inserts. *)
Definition gatsby : Book :=
  mkBook 1 "The Great Gatsby" "F. Scott Fitzgerald" (Some "9780743273565")
    (Some "Fiction") (Some 1925) (Some Read) (Some 5)
    (Some "A classic American novel") 0 0.

Definition nineteen_eighty_four : Book :=
  mkBook 2 "1984" "George Orwell" (Some "9780451524935") (Some "Dystopian")
    (Some 1949) (Some Read) (Some 5)
    (Some "Thought-provoking dystopian masterpiece") 0 0.

Definition mockingbird : Book :=
  mkBook 3 "To Kill a Mockingbird" "Harper Lee" (Some "9780061120084")
    (Some "Fiction") (Some 1960) (Some Reading) None
    (Some "Currently reading") 0 0.

(** The database is _reachable_ when every statement of a request reaches
    the server, and _unreachable_ when the first one does not. *)
Definition reachable (d : Database) : Prop := forall sent, online d sent = true.
Definition unreachable (d : Database) : Prop := online d 0%nat = false.

Definition always : nat -> bool := fun _ => true.
Definition never : nat -> bool := fun _ => false.

(** A connection lost after the first statement of a request. *)
Definition lost_after_first : nat -> bool := fun sent => (sent =? 0)%nat.

Definition empty_library : Database := mkDatabase [] 1 1000 always.

Definition sample_library : Database :=
  mkDatabase [gatsby; nineteen_eighty_four; mockingbird] 4 1000 always.

(** The same table while the database server is down. *)
Definition unreachable_library : Database :=
  mkDatabase [gatsby; nineteen_eighty_four; mockingbird] 4 1000 never.

(** The same table behind a connection that is lost after one statement. *)
Definition flaky_library : Database :=
  mkDatabase [gatsby; nineteen_eighty_four; mockingbird] 4 1000 lost_after_first.

(** A body with a title and an author and nothing else. *)
Definition title_and_author (t a : string) : Body.t :=
  Body.make (str t) (str a) undefined undefined undefined undefined
    undefined undefined.

(** A body whose title is present and empty. *)
Definition empty_title : Body.t := title_and_author "" "George Orwell".

Definition retitled_1984 : Body.t :=
  Body.make (str "Nineteen Eighty-Four") (str "George Orwell")
    (str "9780451524935") (str "Dystopian") (number 1949) (str "read")
    (number 4) null.

Definition dune : Book :=
  mkBook 1 "Dune" "Frank Herbert" None None None None None None 1000 1000.

(** Identifiers handed out so far lie below the AUTO_INCREMENT counter. *)
Definition ids_below_counter (d : Database) : Prop :=
  forall r, In r (books d) -> id r < auto_increment d.

Definition is_some {B} (o : option B) : bool :=
  match o with
  | Some _ => true
  | None => false
  end.

(** Four create requests with the statuses read, read, reading, to-read;
    two of them carry a rating. *)
Definition four_requests : list Body.t :=
  [ Body.make (str "The Great Gatsby") (str "F. Scott Fitzgerald") null null
      null (str "read") (number 5) null;
    Body.make (str "1984") (str "George Orwell") null null
      null (str "read") (number 4) null;
    Body.make (str "To Kill a Mockingbird") (str "Harper Lee") null null
      null (str "reading") null null;
    Body.make (str "Dune") (str "Frank Herbert") null null
      null (str "to-read") null null ].

Definition after_creating (bodies : list Body.t) (d : Database) : Database :=
  fold_left (fun d body => snd (fst (serve (router_post body) d))) bodies d.

(** The three sample rows with the ratings 5, 4 and 4. *)
Definition rated (n : Z) (b : Book) : Book :=
  mkBook (id b) (title b) (author b) (isbn b) (genre b) (year_published b)
    (status b) (Some n) (notes b) (created_at b) (updated_at b).

Definition rated_library : Database :=
  mkDatabase [gatsby; rated 4 nineteen_eighty_four; rated 4 mockingbird]
    4 1000 always.

End RouteVocabulary.

Section PageVocabulary.
Import Js Schema Http Script.

(** The test [applyStatusFilter] applies to a book, for a selection. *)
Definition status_test (selected : string) (book : Book) : bool :=
  match status_value (status book) with
  | str s => (s =? selected)%string
  | _ => false
  end.

(** The test [handleSearch] applies to a book, for a search text. *)
Definition search_test (toLowerCase : string -> string) (typed : string)
    (book : Book) : bool :=
  includes (toLowerCase (title book)) (toLowerCase typed) ||
  includes (toLowerCase (author book)) (toLowerCase typed).

(** The page after the first load of the three sample rows. *)
Definition sample_page : Page :=
  loadBooks (Resolved 200 (Some (JsonBooks [gatsby; nineteen_eighty_four; mockingbird])))
    initial.

(** A response of the API as [fetch] hands it to the page. *)
Definition delivered (r : Response) : Fetched :=
  Resolved (statusCode r) (payload r).

(** The answer of [router.get('/')] when the database cannot be reached. *)
Definition storage_failure : Fetched :=
  Resolved 500 (Some (JsonError "connect ECONNREFUSED")).

(** A scanner for the text [<script]: the state is the number of its
    characters just read, and 7 once it has been read in full. *)
Definition script_tag : string := "<script".

Definition step (st : nat) (c : ascii) : nat :=
  if (st =? 7)%nat then 7%nat
  else if Ascii.eqb c (nth st (list_ascii_of_string script_tag) "000"%char)
       then S st
       else if Ascii.eqb c "<" then 1%nat else 0%nat.

Fixpoint scan (st : nat) (s : string) : nat :=
  match s with
  | EmptyString => st
  | String c s' => scan (step st c) s'
  end.

(** A text is _tagless_ when the scanner leaves it as it entered it, with
    nothing read. *)
Definition tagless (s : string) : Prop := scan 0 s = 0%nat.

(** The sample page after 'read' was selected, and after a further change
    of the selection to 'reading' or to all statuses. *)
Definition read_selected : Page := on_filter_change "read" sample_page.
Definition then_reading_selected : Page := on_filter_change "reading" read_selected.
Definition then_all_selected : Page := on_filter_change "" read_selected.

(** The sample page after a reload that the server answered with its error
    object, and after 'read' was selected on that page. *)
Definition failed_reload : Page := loadBooks storage_failure sample_page.
Definition read_selected_after_failure : Page :=
  on_filter_change "read" failed_reload.

Definition hostile : Book :=
  mkBook 9 "<script>alert('x')</script>" "Q & A" None None None (Some ToRead)
    None None 0 0.






End PageVocabulary.

(* ================================================================== *)
(** * Further vocabulary: table constraints and orderings *)
(* ================================================================== *)

Section TableVocabulary.
Import Js Schema Db Http Routes.

(** PRIMARY KEY with AUTO_INCREMENT: identifiers are pairwise different and
    lie below the counter. *)
Definition keys_consistent (d : Database) : Prop :=
  NoDup (List.map id (books d)) /\ ids_below_counter d.

Definition text_fits (measure : string -> nat) (maxlen : Z)
    (o : option string) : Prop :=
  forall s, o = Some s -> Z.of_nat (measure s) <= maxlen.

Definition int_fits (o : option Z) : Prop :=
  forall n, o = Some n -> -2147483648 <= n <= 2147483647.

(** What the column types and the CHECK of [database_setup.sql] ask of one
    row. *)
Definition row_valid (r : Book) : Prop :=
  text_fits characters 255 (Some (title r)) /\
  text_fits characters 255 (Some (author r)) /\
  text_fits characters 20 (isbn r) /\ text_fits characters 100 (genre r) /\
  int_fits (year_published r) /\ int_fits (rating r) /\
  (forall n, rating r = Some n -> 1 <= n <= 5) /\
  text_fits String.length 65535 (notes r).

(** UNIQUE on [isbn]: two rows holding the same ISBN are the same record. *)
Definition isbn_unique (d : Database) : Prop :=
  forall r1 r2 s,
    In r1 (books d) -> In r2 (books d) ->
    isbn r1 = Some s -> isbn r2 = Some s -> id r1 = id r2.

Definition constraints_hold (d : Database) : Prop :=
  (forall r, In r (books d) -> row_valid r) /\ isbn_unique d.

(** ORDER BY created_at DESC *)
Definition newest_to_oldest (rows : list Book) : Prop :=
  StronglySorted (fun a b => created_at b <= created_at a) rows.

(** The rows whose status is NULL. *)
Definition without_status (rows : list Book) : list Book :=
  filter (fun r => match status r with
                   | Some _ => false
                   | None => true
                   end) rows.

(** The answer of every route while the database cannot be reached. *)
Definition server_down : Response :=
  {| statusCode := 500; payload := Some (JsonError "connect ECONNREFUSED") |}.

(** The row an INSERT adds for the bound columns [c]. *)
Definition new_row (d : Database) (c : Columns) : Book :=
  mkBook (auto_increment d) (c_title c) (c_author c) (c_isbn c) (c_genre c)
    (c_year_published c) (c_status c) (c_rating c) (c_notes c)
    (clock d) (clock d).

Definition with_row (d : Database) (r : Book) : Database :=
  {| books := books d ++ [r];
     auto_increment := auto_increment d + 1;
     clock := clock d;
     online := online d |}.

(** The table after [UPDATE ... WHERE id = i] set the columns [c]. *)
Definition with_columns (d : Database) (i : Z) (c : Columns) : Database :=
  {| books := List.map (fun r => if has_id i r
                                 then set_columns (clock d) c r
                                 else r) (books d);
     auto_increment := auto_increment d;
     clock := clock d;
     online := online d |}.

(** The table after [DELETE ... WHERE id = i]. *)
Definition without_id (d : Database) (i : Z) : Database :=
  {| books := filter (fun r => negb (has_id i r)) (books d);
     auto_increment := auto_increment d;
     clock := clock d;
     online := online d |}.

Definition error_response (e : string) : Response :=
  {| statusCode := 500; payload := Some (JsonError e) |}.

(** The database when the engine's clock has moved to [now]. *)
Definition at_time (now : Z) (d : Database) : Database :=
  {| books := books d;
     auto_increment := auto_increment d;
     clock := now;
     online := online d |}.

End TableVocabulary.

(* ================================================================== *)
(** * Further vocabulary: rendered pieces and plain text *)
(* ================================================================== *)

Section PageCoverageVocabulary.
Import Js Schema Http Script.

Definition filled_star : string :=
  "<i class=" ++ dq ++ "fas fa-star" ++ dq ++ "></i>".

Definition empty_star : string :=
  "<i class=" ++ dq ++ "far fa-star" ++ dq ++ "></i>".

Fixpoint times (n : nat) (s : string) : string :=
  match n with
  | O => ""
  | S n' => s ++ times n' s
  end.

(** The rating cut to the range of the five stars. *)
Definition stars_filled (rating : Z) : nat := Z.to_nat (Z.max 0 (Z.min rating 5)).

(** Text in which none of the five significant characters occurs. *)
Definition plain (s : string) : Prop :=
  forall c, In c (list_ascii_of_string s) -> ~ Spec.significant c.

(** What the edit form makes of the optional columns: an empty text and a
    zero are sent as [null], and a missing status as 'to-read'. *)
Definition nonempty (o : option string) : option string :=
  match o with
  | Some EmptyString => None
  | _ => o
  end.

Definition nonzero (o : option Z) : option Z :=
  match o with
  | Some 0 => None
  | _ => o
  end.

Definition as_edited (b : Book) : Db.Columns :=
  Db.mkColumns (title b) (author b) (nonempty (isbn b)) (nonempty (genre b))
    (nonzero (year_published b))
    (Some (match status b with
           | Some st => st
           | None => ToRead
           end))
    (nonzero (rating b)) (nonempty (notes b)).

(** A book the edit form shows in full: a status, and no empty text or
    zero in an optional column. *)
Definition shown_in_full (b : Book) : Prop :=
  status b <> None /\ isbn b <> Some "" /\ genre b <> Some "" /\
  notes b <> Some "" /\ year_published b <> Some 0 /\ rating b <> Some 0.

(** The edit form before it is first opened. *)
Definition blank_form : Forms.EditForm :=
  Forms.mkEditForm "" "" "" "" "" "" "" "" "".

(** The last entry of a form with a given name. *)
Definition last_entry (k : string) (entries : list (string * string))
  : option (string * string) :=
  find (fun e => (fst e =? k)%string) (rev entries).

(** The add flow against the API: the POST, and after it the two GETs of the
    reload, whose answers reach the page only when the POST succeeded. *)
Definition add_flow (body : Body.t) (d : Db.Database) (p : Page)
  : Page * Db.Database :=
  let '(posted, d1, _) := Routes.serve (Routes.router_post body) d in
  let '(listed, _, _) := Routes.serve Routes.router_get d1 in
  let '(counted, _, _) := Routes.serve Routes.router_get_stats_overview d1 in
  match posted, listed, counted with
  | Db.Done r1, Db.Done r2, Db.Done r3 =>
      (handleAddBook (delivered r1) (delivered r2) (delivered r3) p, d1)
  | _, _, _ => (p, d1)
  end.

(** The delete flow against the API, after the user confirmed. *)
Definition delete_flow (bookId : Z) (d : Db.Database) (p : Page)
  : Page * Db.Database :=
  let '(deleted, d1, _) := Routes.serve (Routes.router_delete bookId) d in
  let '(listed, _, _) := Routes.serve Routes.router_get d1 in
  let '(counted, _, _) := Routes.serve Routes.router_get_stats_overview d1 in
  match deleted, listed, counted with
  | Db.Done r1, Db.Done r2, Db.Done r3 =>
      (deleteBook true (delivered r1) (delivered r2) (delivered r3) p, d1)
  | _, _, _ => (p, d1)
  end.

End PageCoverageVocabulary.

(* ================================================================== *)
(** * Properties of the routes *)
(* ================================================================== *)

Section RouteProperties.
Import Js Schema Db Http Routes.

Ltac run_route :=
  unfold serve, router_post, router_put, router_get_stats_overview,
    server_error, res_json, res_status_json,
    query_insert, query_update, query_select_by_id, query_select_stats,
    query_changing, query_reading, try_catch, bind, ret;
  cbn [db queries app List.length].

Ltac tidy := cbn [db queries app List.length negb orb andb].

(** ** The connection *)

Lemma connected_reachable {A} d sent (k : outcome A) :
  reachable d -> connected d sent k = k.
Proof. intros H. unfold connected. now rewrite H. Qed.

Lemma connected_done {A} d sent (k : outcome A) x :
  connected d sent k = Done x -> online d sent = true /\ k = Done x.
Proof. unfold connected. destruct (online d sent); [now split | discriminate]. Qed.

Lemma connected_lost {A} d sent (k : outcome A) :
  online d sent = false -> connected d sent k = Thrown "connect ECONNREFUSED".
Proof. intros H. unfold connected. now rewrite H. Qed.

(** ** Reads by identifier *)

Lemma has_id_set_columns now c i r :
  has_id i (set_columns now c r) = has_id i r.
Proof. reflexivity. Qed.

Lemma filter_has_id_updated now c i rows :
  filter (has_id i)
    (List.map (fun r => if has_id i r then set_columns now c r else r) rows)
  = List.map (set_columns now c) (filter (has_id i) rows).
Proof.
  induction rows as [|r rows IH]; cbn [List.map filter]; [reflexivity|].
  destruct (has_id i r) eqn:E.
  - rewrite has_id_set_columns, E. cbn [List.map]. now rewrite IH.
  - rewrite E. exact IH.
Qed.

Lemma filter_has_id_none i rows :
  (forall r, In r rows -> id r <> i) -> filter (has_id i) rows = [].
Proof.
  induction rows as [|r rows IH]; intros H; cbn [filter]; [reflexivity|].
  unfold has_id at 1.
  destruct (Z.eqb_spec (id r) i) as [E|_].
  - exfalso. apply (H r); [now left | exact E].
  - apply IH. intros r' Hr'. apply H. now right.
Qed.

(** ** Create: validation *)

(** C7 as stated, at a body that contains a title and an author: the title
    is present and empty, and the guard of [router.post('/')] answers 400. *)
Lemma create_empty_title_is_rejected :
  ~ Spec.missing (Body.title empty_title) /\
  ~ Spec.missing (Body.author empty_title) /\
  serve (router_post empty_title) sample_library
  = (Done validation_error, sample_library, []).
Proof.
  repeat split; try discriminate.
Qed.

(** C7 (amended). A create request whose title or author is blank (missing,
    null, empty, 0 or false) is answered 400 with no statement sent to the
    database and the database as it was; a request missing one of the two is
    such a request. A create request whose title and author are both
    non-blank is never answered 400. *)
Theorem create_validates_title_and_author (d : Database) (body : Body.t) :
  (Spec.missing (Body.title body) \/ Spec.missing (Body.author body) ->
   Spec.blank (Body.title body) \/ Spec.blank (Body.author body)) /\
  (Spec.blank (Body.title body) \/ Spec.blank (Body.author body) ->
   serve (router_post body) d = (Done validation_error, d, [])) /\
  (~ Spec.blank (Body.title body) -> ~ Spec.blank (Body.author body) ->
   exists response d' sent,
     serve (router_post body) d = (Done response, d', sent) /\
     statusCode response <> 400 /\ sent <> []).
Proof.
  unfold Spec.missing, Spec.blank. split; [|split].
  - intros [-> | ->]; [left | right]; reflexivity.
  - intros H. run_route.
    assert (G : negb (truthy (Body.title body)) || negb (truthy (Body.author body)) = true)
      by (destruct H as [-> | ->]; [reflexivity | apply orb_true_r]).
    rewrite G. reflexivity.
  - intros Ht Ha. run_route.
    apply not_false_is_true in Ht, Ha. rewrite Ht, Ha. tidy.
    fold (params_of body).
    destruct (connected d 0 (insert d (params_of body))) as [[d1 h]|e]; tidy.
    + destruct (connected d1 1 (select_by_id d1 (insertId h))) as [rows|e].
      * eexists _, _, _. split; [reflexivity|]. split; cbn; discriminate.
      * eexists _, _, _. split; [reflexivity|]. split; cbn; discriminate.
    + eexists _, _, _. split; [reflexivity|]. split; cbn; discriminate.
Qed.

Lemma create_validates_title_and_author_witness :
  serve (router_post (title_and_author "1984" "")) sample_library
  = (Done validation_error, sample_library, []) /\
  exists response d' sent,
    serve (router_post (title_and_author "Dune" "Frank Herbert")) sample_library
    = (Done response, d', sent) /\
    statusCode response <> 400 /\ sent <> [].
Proof.
  split.
  - apply (create_validates_title_and_author sample_library
             (title_and_author "1984" "")).
    right. reflexivity.
  - apply (create_validates_title_and_author sample_library
             (title_and_author "Dune" "Frank Herbert")); discriminate.
Defined.

(** ** Update: no validation *)

(** C8. Whatever the body of an update request holds, and so also when the
    title or the author is missing, the handler's first act is the UPDATE
    statement carrying all eight columns of the body, and its answer is
    200, 404 or 500, never the 400 of a validation failure. *)
Theorem update_performs_no_validation (d : Database) (i : Z) (body : Body.t) :
  exists response d' later,
    serve (router_put i body) d
    = (Done response, d', Update (params_of body) i :: later) /\
    statusCode response <> 400 /\
    (statusCode response = 200 \/ statusCode response = 404 \/
     statusCode response = 500).
Proof.
  run_route. fold (params_of body).
  destruct (connected d 0 (update d (params_of body) i)) as [[d1 h]|e]; tidy.
  - destruct (affectedRows h =? 0).
    + eexists _, _, _. split; [reflexivity|]. cbn. split; [discriminate|tauto].
    + tidy.
      destruct (connected d1 1 (select_by_id d1 i)) as [rows|e];
        (eexists _, _, _; split; [reflexivity|]; cbn; split; [discriminate|tauto]).
  - eexists _, _, _. split; [reflexivity|]. cbn. split; [discriminate|tauto].
Qed.

(** ** Update: unknown identifier, known identifier *)

Lemma update_unknown_id d p i :
  (forall r, In r (books d) -> id r <> i) ->
  update d p i = Done (d, {| affectedRows := 0; insertId := 0 |}).
Proof.
  intros Hnone. unfold update.
  now rewrite (filter_has_id_none i (books d) Hnone).
Qed.

(** What a completed UPDATE that found a row did. *)
Lemma update_found d p i d' h :
  update d p i = Done (d', h) ->
  affectedRows h <> 0 ->
  exists c r0 more,
    filter (has_id i) (books d) = r0 :: more /\
    bind_columns p = Done c /\
    d' = {| books := List.map (fun r => if has_id i r
                                        then set_columns (clock d) c r
                                        else r) (books d);
            auto_increment := auto_increment d;
            clock := clock d;
            online := online d |} /\
    h = {| affectedRows := Z.of_nat (List.length (r0 :: more)); insertId := 0 |}.
Proof.
  unfold update. intros H Hrows.
  destruct (filter (has_id i) (books d)) as [|r0 more] eqn:Ef.
  - injection H as _ <-. now contradiction Hrows.
  - destruct (bind_columns p) as [c|e]; cbn [and_then] in H; [|discriminate].
    destruct (check_unique_isbn _ _); cbn [and_then] in H; [|discriminate].
    injection H as <- <-. now exists c, r0, more.
Qed.

(** C6. With the database reachable, an update request whose identifier no
    stored row has makes the UPDATE statement affect zero rows: the answer
    is 404 and the database is as it was. An update request whose UPDATE
    statement affects a row is followed by a read of that identifier and
    answered 200 with the row read, which is a row of the table after the
    update, keeps the identifier, and holds the request's values in its
    eight columns. *)
Theorem update_unknown_id_is_not_found_else_returns_row
    (d : Database) (i : Z) (body : Body.t) :
  reachable d ->
  ((forall r, In r (books d) -> id r <> i) ->
   serve (router_put i body) d
   = (Done not_found, d, [Update (params_of body) i])) /\
  (forall d' h,
     update d (params_of body) i = Done (d', h) ->
     affectedRows h <> 0 ->
     exists row c,
       serve (router_put i body) d
       = (Done {| statusCode := 200; payload := Some (JsonBook row) |},
          d', [Update (params_of body) i; SelectById i]) /\
       In row (books d') /\
       id row = i /\
       bind_columns (params_of body) = Done c /\
       title row = c_title c /\ author row = c_author c /\
       isbn row = c_isbn c /\ genre row = c_genre c /\
       year_published row = c_year_published c /\ status row = c_status c /\
       rating row = c_rating c /\ notes row = c_notes c).
Proof.
  intros Hon. split.
  - intros Hnone. run_route. fold (params_of body).
    rewrite (connected_reachable d _ _ Hon).
    now rewrite (update_unknown_id d (params_of body) i Hnone).
  - intros d' h Hupd Hrows.
    destruct (update_found d _ i d' h Hupd Hrows)
      as (c & r0 & more & Ef & Hc & Hd' & Hh).
    assert (Hon' : reachable d') by (rewrite Hd'; exact Hon).
    assert (Hr0 : In r0 (books d) /\ has_id i r0 = true).
    { apply filter_In. rewrite Ef. now left. }
    destruct Hr0 as [Hin Hid].
    exists (set_columns (clock d) c r0), c.
    split; [|split; [|split; [|repeat split]]].
    + run_route. fold (params_of body).
      rewrite (connected_reachable d _ _ Hon), Hupd. tidy.
      replace (affectedRows h =? 0) with false
        by (symmetry; now apply Z.eqb_neq).
      tidy. rewrite (connected_reachable d' _ _ Hon'). unfold select_by_id.
      rewrite Hd'. cbn [books].
      rewrite filter_has_id_updated, Ef. reflexivity.
    + rewrite Hd'. cbn [books].
      apply in_map_iff. exists r0. now rewrite Hid.
    + cbn [set_columns id]. unfold has_id in Hid. now apply Z.eqb_eq.
    + exact Hc.
Qed.

Lemma update_unknown_id_is_not_found_else_returns_row_witness :
  serve (router_put 7 retitled_1984) sample_library
  = (Done not_found, sample_library, [Update (params_of retitled_1984) 7]) /\
  exists row d',
    serve (router_put 2 retitled_1984) sample_library
    = (Done {| statusCode := 200; payload := Some (JsonBook row) |},
       d', [Update (params_of retitled_1984) 2; SelectById 2]) /\
    In row (books d') /\ id row = 2 /\
    title row = "Nineteen Eighty-Four" /\ rating row = Some 4.
Proof.
  split.
  - apply (update_unknown_id_is_not_found_else_returns_row
             sample_library 7 retitled_1984); [intros sent; reflexivity|].
    intros r [<- | [<- | [<- | []]]]; discriminate.
  - destruct (update sample_library (params_of retitled_1984) 2)
      as [[d' h]|e] eqn:E; [|discriminate E].
    destruct (proj2 (update_unknown_id_is_not_found_else_returns_row
                       sample_library 2 retitled_1984 (fun _ => eq_refl)) d' h E)
      as (row & c & Hs & Hin & Hid & Hc & Ht & _ & _ & _ & _ & _ & Hr & _).
    + vm_compute in E. injection E as _ <-. discriminate.
    + exists row, d'. repeat split; try assumption.
      * rewrite Ht. vm_compute in Hc. injection Hc as <-. reflexivity.
      * rewrite Hr. vm_compute in Hc. injection Hc as <-. reflexivity.
Defined.

(** ** Create: the stored record *)

(** C1, at a request carrying a title and an author only. The INSERT names
    the [status] column and binds the absent property as NULL, so the
    column's DEFAULT 'to-read' is not applied: the row stored and returned
    has a NULL status. The other five optional columns are NULL. *)
Theorem create_with_title_and_author_only_stores_null_status :
  serve (router_post (title_and_author "Dune" "Frank Herbert")) empty_library
  = (Done {| statusCode := 201; payload := Some (JsonBook dune) |},
     {| books := [dune]; auto_increment := 2; clock := 1000; online := always |},
     [Insert (params_of (title_and_author "Dune" "Frank Herbert"));
      SelectById 1]) /\
  status dune = None /\
  status dune <> Some ToRead /\
  isbn dune = None /\ genre dune = None /\ year_published dune = None /\
  rating dune = None /\ notes dune = None.
Proof.
  repeat split. discriminate.
Qed.

Lemma filter_has_id_fresh i rows row :
  (forall r, In r rows -> id r < i) -> id row = i ->
  filter (has_id i) (rows ++ [row]) = [row].
Proof.
  intros Hlt Hid. rewrite filter_app, filter_has_id_none.
  - cbn [filter app]. unfold has_id. now rewrite Hid, Z.eqb_refl.
  - intros r Hr. specialize (Hlt r Hr). lia.
Qed.

(** The same at every such request: whenever the row is created, it is the
    last row of the table, and its status is NULL. *)
Lemma create_with_title_and_author_only (d : Database) (t a : string)
    (response : Response) (d' : Database) (sent : list Statement) :
  ids_below_counter d ->
  serve (router_post (title_and_author t a)) d = (Done response, d', sent) ->
  statusCode response = 201 ->
  exists row,
    payload response = Some (JsonBook row) /\
    books d' = (books d ++ [row])%list /\
    title row = t /\ author row = a /\
    status row = None /\ isbn row = None /\ genre row = None /\
    year_published row = None /\ rating row = None /\ notes row = None.
Proof.
  intros Hids. run_route. cbn [Body.title Body.author title_and_author].
  destruct (negb (truthy (str t)) || negb (truthy (str a))).
  { intros H. injection H as <- _ _. discriminate. }
  unfold connected at 1. tidy.
  destruct (online d 0%nat) eqn:Hon; tidy.
  2:{ intros H. injection H as <- _ _. discriminate. }
  unfold insert, bind_columns, not_null, as_text.
  cbn [Body.title Body.author Body.isbn Body.genre Body.year_published
       Body.status Body.rating Body.notes title_and_author
       p_title p_author p_isbn p_genre p_year_published p_status p_rating
       p_notes as_int as_status check_rating and_then].
  destruct (Z.of_nat (characters t) <=? 255); cbn [and_then].
  2:{ intros H. injection H as <- _ _. discriminate. }
  destruct (Z.of_nat (characters a) <=? 255); cbn [and_then].
  2:{ intros H. injection H as <- _ _. discriminate. }
  cbn [check_unique_isbn c_isbn and_then column_default]. tidy.
  unfold connected, select_by_id. cbn [online insertId id books].
  destruct (online d 1%nat).
  2:{ intros H. injection H as <- _ _. discriminate. }
  rewrite (filter_has_id_fresh (auto_increment d) (books d));
    [|exact Hids|reflexivity].
  cbn [nth_error]. intros H _. injection H as <- <- _.
  eexists. repeat split.
Qed.

(** ** Statistics *)

Lemma count_star_from {A} (rows : list A) (n : Z) :
  fold_left (fun n _ => n + 1) rows n = n + Z.of_nat (List.length rows).
Proof.
  revert n. induction rows as [|r rows IH]; intros n; cbn [fold_left List.length].
  - lia.
  - rewrite IH. lia.
Qed.

Lemma count_star_length {A} (rows : list A) :
  count_star rows = Z.of_nat (List.length rows).
Proof. unfold count_star. now rewrite count_star_from. Qed.

Lemma count_from {A B} (e : A -> option B) (rows : list A) (n : Z) :
  fold_left (fun n r => match e r with Some _ => n + 1 | None => n end) rows n
  = n + Z.of_nat (List.length (filter (fun r => is_some (e r)) rows)).
Proof.
  revert n. induction rows as [|r rows IH]; intros n; cbn [fold_left filter].
  - cbn. lia.
  - rewrite IH. destruct (e r); cbn [is_some List.length]; lia.
Qed.

Lemma count_status (s : Status) (rows : list Book) :
  count (fun r => case_when_then_1 (status_equals s r)) rows
  = Z.of_nat (List.length (Spec.with_status s rows)).
Proof.
  unfold count. rewrite count_from. cbn [Z.add]. do 2 f_equal.
  unfold Spec.with_status. apply filter_ext. intros r.
  unfold status_equals. destruct (status r) as [s'|]; cbn; [|reflexivity].
  now destruct (Status_eqb s' s).
Qed.

Lemma avg_from (rows : list Book) (acc : Z * Z) :
  fold_left (fun acc r =>
               match rating r with
               | Some v => (fst acc + v, snd acc + 1)
               | None => acc
               end) rows acc
  = (fst acc + Spec.sum (Spec.ratings rows),
     snd acc + Z.of_nat (List.length (Spec.ratings rows))).
Proof.
  revert acc. induction rows as [|r rows IH]; intros [s n]; cbn [fold_left].
  - cbn. f_equal; lia.
  - rewrite IH. cbn [Spec.ratings flat_map].
    destruct (rating r) as [v|]; cbn [fst snd app Spec.sum fold_right List.length].
    + fold (Spec.ratings rows). fold (Spec.sum (Spec.ratings rows)).
      f_equal; lia.
    + reflexivity.
Qed.

Lemma avg_rating_rounded (rows : list Book) :
  avg rating rows =
  match Spec.ratings rows with
  | [] => None
  | _ :: _ =>
      Some (round_half_away (10000 * Spec.sum (Spec.ratings rows))
              (Z.of_nat (List.length (Spec.ratings rows))) # 10000)
  end.
Proof.
  unfold avg. rewrite avg_from. cbn [fst snd Z.add].
  destruct (Spec.ratings rows) as [|v l] eqn:E.
  - reflexivity.
  - replace (Z.of_nat (List.length (v :: l)) =? 0) with false; [reflexivity|].
    symmetry. apply Z.eqb_neq. cbn [List.length]. lia.
Qed.

Lemma round_half_away_near a b :
  0 < b -> - b <= 2 * (b * round_half_away a b - a) <= b.
Proof.
  intros Hb. unfold round_half_away.
  destruct (Z.leb_spec 0 a) as [Ha|Ha].
  - pose proof (Z.div_mod (2 * a + b) (2 * b) ltac:(lia)) as E.
    pose proof (Z.mod_pos_bound (2 * a + b) (2 * b) ltac:(lia)) as M.
    nia.
  - pose proof (Z.div_mod (2 * (- a) + b) (2 * b) ltac:(lia)) as E.
    pose proof (Z.mod_pos_bound (2 * (- a) + b) (2 * b) ltac:(lia)) as M.
    nia.
Qed.

(** The rounded quotient is within half a ten-thousandth of the mean. *)
Lemma rounded_near_mean (l : list Z) :
  l <> [] ->
  (Spec.mean l - (1 # 20000)
   <= round_half_away (10000 * Spec.sum l) (Z.of_nat (List.length l)) # 10000)%Q /\
  (round_half_away (10000 * Spec.sum l) (Z.of_nat (List.length l)) # 10000
   <= Spec.mean l + (1 # 20000))%Q.
Proof.
  intros Hl.
  assert (Hn : 0 < Z.of_nat (List.length l)) by (destruct l; [contradiction | cbn; lia]).
  pose proof (round_half_away_near (10000 * Spec.sum l) _ Hn) as H.
  set (k := round_half_away (10000 * Spec.sum l) (Z.of_nat (List.length l))) in *.
  unfold Spec.mean. destruct (Z.of_nat (List.length l)) as [|p|p]; try lia.
  unfold Qle, Qminus, Qplus, Qopp, Qdiv, Qmult, Qinv, inject_Z. cbn.
  split; nia.
Qed.

(** C9 as stated, at a table whose ratings are 5, 4 and 4. The mean is
    13/3; [AVG(rating)] over the INT column is a DECIMAL with four
    fractional digits, and the statistics carry 4.3333. *)
Lemma average_of_5_4_4_is_rounded :
  Spec.ratings (books rated_library) = [5; 4; 4] /\
  serve router_get_stats_overview rated_library
  = (Done {| statusCode := 200;
             payload := Some (JsonStats (mkStats 3 2 1 0 (Some (43333 # 10000)))) |},
     rated_library, [SelectStats]) /\
  (Spec.mean [5; 4; 4]%Z == 13 # 3)%Q /\
  ~ (43333 # 10000 == Spec.mean [5; 4; 4]%Z)%Q.
Proof.
  repeat split. intros H. discriminate H.
Qed.

(** C9 (amended). Over any table, the statistics request is answered with
    one row in which [total_books] is the number of rows, [books_read],
    [books_reading] and [books_to_read] are the numbers of rows whose status
    is 'read', 'reading' and 'to-read', and [average_rating] is NULL when no
    rating is stored and otherwise a number of ten-thousandths within half
    a ten-thousandth of the arithmetic mean of the ratings that are not
    NULL: the mean rounded to four fractional digits. The table is left as
    it was. *)
Theorem statistics_count_rows_and_average_ratings (d : Database) :
  reachable d ->
  exists s,
    serve router_get_stats_overview d
    = (Done {| statusCode := 200; payload := Some (JsonStats s) |},
       d, [SelectStats]) /\
    total_books s = Z.of_nat (List.length (books d)) /\
    books_read s = Z.of_nat (List.length (Spec.with_status Read (books d))) /\
    books_reading s = Z.of_nat (List.length (Spec.with_status Reading (books d))) /\
    books_to_read s = Z.of_nat (List.length (Spec.with_status ToRead (books d))) /\
    match Spec.ratings (books d) with
    | [] => average_rating s = None
    | _ :: _ =>
        exists k : Z,
          average_rating s = Some (k # 10000) /\
          (Spec.mean (Spec.ratings (books d)) - (1 # 20000) <= k # 10000)%Q /\
          (k # 10000 <= Spec.mean (Spec.ratings (books d)) + (1 # 20000))%Q
    end.
Proof.
  intros Hon. eexists. split.
  - run_route. rewrite (connected_reachable d _ _ Hon). reflexivity.
  - cbn [total_books books_read books_reading books_to_read average_rating].
    rewrite count_star_length, !count_status, avg_rating_rounded.
    repeat (split; [reflexivity|]).
    destruct (Spec.ratings (books d)) as [|v l] eqn:E; [reflexivity|].
    eexists. split; [reflexivity|].
    apply rounded_near_mean. discriminate.
Qed.

Lemma statistics_count_rows_and_average_ratings_witness :
  exists s,
    serve router_get_stats_overview (after_creating four_requests empty_library)
    = (Done {| statusCode := 200; payload := Some (JsonStats s) |},
       after_creating four_requests empty_library, [SelectStats]) /\
    total_books s = 4 /\ books_read s = 2 /\ books_reading s = 1 /\
    books_to_read s = 1 /\
    average_rating s = Some (45000 # 10000) /\
    (45000 # 10000 == Spec.mean [5; 4]%Z)%Q.
Proof.
  destruct (statistics_count_rows_and_average_ratings
              (after_creating four_requests empty_library) (fun _ => eq_refl))
    as (s & Hs & Ht & Hr & Hg & Ho & Ha).
  exists s. split; [exact Hs|].
  rewrite Ht, Hr, Hg, Ho. repeat (split; [reflexivity|]).
  vm_compute in Hs. injection Hs as <-. split; reflexivity.
Defined.

End RouteProperties.

(* ================================================================== *)
(** * Properties of the page script *)
(* ================================================================== *)

Section PageProperties.
Import Js Schema Http Script.

(** ** Strings *)

Lemma startsWith_prefix (s p : string) :
  startsWith s p = true <-> exists rest, s = p ++ rest.
Proof.
  revert s. induction p as [|b p IH]; intros s.
  - split; [intros _; now exists s | intros _; now destruct s].
  - destruct s as [|a s]; cbn [startsWith].
    + split; [discriminate | intros [rest H]; discriminate H].
    + rewrite andb_true_iff, IH. split.
      * intros [Hab [rest ->]]. apply Ascii.eqb_eq in Hab. subst b.
        now exists rest.
      * intros [rest H]. cbn in H. injection H as -> ->.
        split; [apply Ascii.eqb_refl | now exists rest].
Qed.

Lemma includes_occurs (s p : string) :
  includes s p = true <-> exists before after, s = before ++ p ++ after.
Proof.
  induction s as [|a s IH]; cbn [includes]; rewrite orb_true_iff, startsWith_prefix.
  - split.
    + intros [[rest H] | H]; [|discriminate]. now exists "", rest.
    + intros [before [after H]]. left.
      destruct before; cbn in H; [now exists after | discriminate].
  - rewrite IH. split.
    + intros [[rest H] | [before [after H]]].
      * now exists "", rest.
      * exists (String a before), after. cbn. now rewrite H.
    + intros [before [after H]]. destruct before as [|b before]; cbn in H.
      * left. now exists after.
      * right. injection H as _ ->. now exists before, after.
Qed.

(** ** Letter case *)

Lemma ascii_lower_append (a b : string) :
  ascii_lower (a ++ b) = ascii_lower a ++ ascii_lower b.
Proof.
  induction a as [|c a IH]; cbn; [reflexivity | now rewrite IH].
Qed.

Lemma ascii_lower_split (s x y : string) :
  ascii_lower s = x ++ y ->
  exists a b, s = a ++ b /\ ascii_lower a = x /\ ascii_lower b = y.
Proof.
  revert s. induction x as [|c x IH]; intros s H.
  - now exists "", s.
  - destruct s as [|d s]; cbn in H; [discriminate|].
    injection H as Hc H. destruct (IH s H) as (a & b & -> & Ha & Hb).
    exists (String d a), b. cbn. now rewrite Hc, Ha.
Qed.

Lemma ascii_text_append (a b : string) :
  ascii_text (a ++ b) = ascii_text a && ascii_text b.
Proof.
  induction a as [|c a IH]; cbn [append ascii_text]; [reflexivity|].
  now rewrite IH, andb_assoc.
Qed.

Lemma nat_of_ascii_injective (x y : ascii) :
  nat_of_ascii x = nat_of_ascii y -> x = y.
Proof.
  intros E. rewrite <- (ascii_nat_embedding x), <- (ascii_nat_embedding y).
  now rewrite E.
Qed.

Lemma nat_of_lower (c : ascii) :
  nat_of_ascii (lower c)
  = if (Nat.leb 65 (nat_of_ascii c) && Nat.leb (nat_of_ascii c) 90)%bool
    then (nat_of_ascii c + 32)%nat else nat_of_ascii c.
Proof.
  unfold lower.
  destruct (Nat.leb_spec 65 (nat_of_ascii c)); cbn [andb]; [|reflexivity].
  destruct (Nat.leb_spec (nat_of_ascii c) 90); [|reflexivity].
  apply nat_ascii_embedding. lia.
Qed.

(** [lower] sends two characters to the same one exactly when they are
    the same letter. *)
Lemma lower_same_letter (a b : ascii) :
  lower a = lower b <-> Spec.same_letter a b.
Proof.
  unfold Spec.same_letter, Spec.capital. split.
  - intros E. apply (f_equal nat_of_ascii) in E. rewrite !nat_of_lower in E.
    destruct (Nat.leb_spec 65 (nat_of_ascii a));
      destruct (Nat.leb_spec (nat_of_ascii a) 90);
      destruct (Nat.leb_spec 65 (nat_of_ascii b));
      destruct (Nat.leb_spec (nat_of_ascii b) 90); cbn [andb] in E;
      first [ left; apply nat_of_ascii_injective; lia
            | right; left; lia
            | right; right; lia ].
  - intros H. apply nat_of_ascii_injective. rewrite !nat_of_lower.
    assert (E : nat_of_ascii a = nat_of_ascii b \/
                ((65 <= nat_of_ascii a <= 90)%nat /\
                 nat_of_ascii b = (nat_of_ascii a + 32)%nat) \/
                ((65 <= nat_of_ascii b <= 90)%nat /\
                 nat_of_ascii a = (nat_of_ascii b + 32)%nat)).
    { destruct H as [-> | H]; [now left | now right]. }
    clear H.
    destruct (Nat.leb_spec 65 (nat_of_ascii a));
      destruct (Nat.leb_spec (nat_of_ascii a) 90);
      destruct (Nat.leb_spec 65 (nat_of_ascii b));
      destruct (Nat.leb_spec (nat_of_ascii b) 90); cbn [andb]; lia.
Qed.

Lemma ascii_lower_same (a b : string) :
  ascii_lower a = ascii_lower b <-> Spec.same_ignoring_case a b.
Proof.
  revert b. induction a as [|x a IH]; intros [|y b];
    cbn [ascii_lower Spec.same_ignoring_case].
  - tauto.
  - split; [discriminate | contradiction].
  - split; [discriminate | contradiction].
  - rewrite <- lower_same_letter, <- IH. split.
    + intros H. injection H as H1 H2. now split.
    + intros [-> ->]. reflexivity.
Qed.

(** The test of [handleSearch] on one string decides occurrence up to
    letter case, for text within ASCII. *)
Lemma includes_ignoring_case toLowerCase (s q : string) :
  lower_cases_ascii toLowerCase ->
  ascii_text s = true -> ascii_text q = true ->
  (includes (toLowerCase s) (toLowerCase q) = true
   <-> Spec.contains_ignoring_case s q).
Proof.
  intros Hl Hs Hq. rewrite (Hl s Hs), (Hl q Hq).
  rewrite includes_occurs. unfold Spec.contains_ignoring_case.
  split.
  - intros (x & z & H).
    destruct (ascii_lower_split _ _ _ H) as (a & rest & -> & Ha & Hrest).
    destruct (ascii_lower_split _ _ _ Hrest) as (b & c & -> & Hb & Hc).
    exists a, b, c. split; [reflexivity|]. now apply ascii_lower_same.
  - intros (a & b & c & -> & Hb). apply ascii_lower_same in Hb.
    exists (ascii_lower a), (ascii_lower c).
    now rewrite !ascii_lower_append, Hb.
Qed.

(** ** What the operations leave alone *)

Lemma renderBooks_state p :
  books (renderBooks p) = books p /\
  filteredBooks (renderBooks p) = filteredBooks p /\
  filterStatus (renderBooks p) = filterStatus p.
Proof. unfold renderBooks. now destruct (List.length (filteredBooks p) =? 0)%nat. Qed.

Lemma applyStatusFilter_books p :
  books (applyStatusFilter p) = books p.
Proof. unfold applyStatusFilter. now destruct (truthy (str (filterStatus p))). Qed.

Lemma applyStatusFilter_filteredBooks p :
  filteredBooks (applyStatusFilter p) =
  if (filterStatus p =? "")%string then filteredBooks p
  else filter (status_test (filterStatus p)) (filteredBooks p).
Proof.
  unfold applyStatusFilter. cbn [truthy].
  now destruct (filterStatus p =? "")%string.
Qed.

Lemma status_test_selected selected book :
  selected <> "" ->
  (status_test selected book = true <-> Spec.has_selected_status selected book).
Proof.
  intros Hsel. unfold status_test, Spec.has_selected_status, status_value.
  destruct (status book) as [s|]; cbn [option_map text].
  - rewrite String.eqb_eq. split.
    + intros ->. now right.
    + intros [H | H]; [contradiction | now injection H].
  - split; [discriminate | intros [H | H]; [contradiction | discriminate]].
Qed.

Lemma search_test_matches toLowerCase typed book :
  lower_cases_ascii toLowerCase ->
  ascii_text typed = true ->
  ascii_text (title book) = true -> ascii_text (author book) = true ->
  (search_test toLowerCase typed book = true <-> Spec.matches_search typed book).
Proof.
  intros Hl Hq Ht Ha. unfold search_test, Spec.matches_search.
  now rewrite orb_true_iff, !(includes_ignoring_case toLowerCase) by assumption.
Qed.

Lemma filter_both {A} (f g : A -> bool) (l : list A) :
  filter g (filter f l) = filter (fun x => f x && g x) l.
Proof.
  induction l as [|x l IH]; cbn [filter]; [reflexivity|].
  destruct (f x); cbn [filter andb]; [|exact IH].
  destruct (g x); now rewrite IH.
Qed.

(** ** Search *)

Lemma handleSearch_array toLowerCase p rows :
  books p = JsonBooks rows ->
  handleSearch toLowerCase p
  = renderBooks
      (applyStatusFilter
         (set_filteredBooks
            (filter (search_test toLowerCase (searchInput p)) rows) p)).
Proof. intros H. unfold handleSearch. now rewrite H. Qed.

Lemma on_search_input_array toLowerCase typed p rows :
  books p = JsonBooks rows ->
  filteredBooks (on_search_input toLowerCase typed p)
  = (if (filterStatus p =? "")%string
     then filter (search_test toLowerCase typed) rows
     else filter (status_test (filterStatus p))
            (filter (search_test toLowerCase typed) rows))
  /\ books (on_search_input toLowerCase typed p) = JsonBooks rows.
Proof.
  intros H. unfold on_search_input.
  rewrite (handleSearch_array toLowerCase (set_searchInput typed p) rows H).
  destruct (renderBooks_state
              (applyStatusFilter
                 (set_filteredBooks
                    (filter (search_test toLowerCase
                               (searchInput (set_searchInput typed p))) rows)
                    (set_searchInput typed p)))) as (-> & -> & _).
  rewrite applyStatusFilter_filteredBooks, applyStatusFilter_books.
  split; [reflexivity | exact H].
Qed.




(** ** Status filter *)

Lemma on_filter_change_state selected p :
  filteredBooks (on_filter_change selected p)
  = (if (selected =? "")%string then filteredBooks p
     else filter (status_test selected) (filteredBooks p)) /\
  books (on_filter_change selected p) = books p.
Proof.
  unfold on_filter_change, handleFilter.
  destruct (renderBooks_state (applyStatusFilter (set_filterStatus selected p)))
    as (-> & -> & _).
  rewrite applyStatusFilter_filteredBooks, applyStatusFilter_books.
  split; reflexivity.
Qed.

Lemma empty_query_matches (b : Book) : Spec.matches_search "" b.
Proof. left. exists "", "", (title b). now split. Qed.

(** C2, at the three sample books with an empty search field. After 'read'
    was selected, selecting 'reading' filters the two books left by the
    earlier selection and shows nothing, although the third book is in
    [books], matches the search and is being read; selecting all statuses
    leaves the two books, although all three match the search. The handler
    filters [filteredBooks] as the previous selection left it; it does not
    start again from the search result, as [handleSearch] does. *)
Theorem filter_change_filters_the_previous_selection :
  filteredBooks read_selected = [gatsby; nineteen_eighty_four] /\
  filteredBooks then_reading_selected = [] /\
  (In mockingbird (Spec.fetched (books then_reading_selected)) /\
   Spec.matches_search (searchInput then_reading_selected) mockingbird /\
   Spec.has_selected_status (filterStatus then_reading_selected) mockingbird) /\
  filteredBooks then_all_selected = [gatsby; nineteen_eighty_four] /\
  (In mockingbird (Spec.fetched (books then_all_selected)) /\
   Spec.matches_search (searchInput then_all_selected) mockingbird /\
   Spec.has_selected_status (filterStatus then_all_selected) mockingbird).
Proof.
  repeat split.
  - cbn. tauto.
  - apply empty_query_matches.
  - now right.
  - cbn. tauto.
  - apply empty_query_matches.
  - now left.
Qed.

(** ** Failures *)

Lemma loadBooks_without_body response p :
  (match response with
   | Rejected _ | Resolved _ None => True
   | Resolved _ (Some _) => False
   end) ->
  books (loadBooks response p) = books p /\
  filteredBooks (loadBooks response p) = filteredBooks p.
Proof.
  destruct response as [reason | status [data|]]; intros H;
    [|contradiction|]; now split.
Qed.

Lemma handleAddBook_failing response reload stats p :
  Spec.failing response ->
  books (handleAddBook response reload stats p) = books p /\
  filteredBooks (handleAddBook response reload stats p) = filteredBooks p.
Proof.
  unfold handleAddBook. destruct response as [reason | status body]; cbn.
  - now split.
  - intros ->. now split.
Qed.

Lemma handleEditBook_failing response reload stats p :
  Spec.failing response ->
  books (handleEditBook response reload stats p) = books p /\
  filteredBooks (handleEditBook response reload stats p) = filteredBooks p.
Proof.
  unfold handleEditBook. destruct response as [reason | status body]; cbn.
  - now split.
  - intros ->. now split.
Qed.

Lemma deleteBook_failing confirmed response reload stats p :
  Spec.failing response ->
  books (deleteBook confirmed response reload stats p) = books p /\
  filteredBooks (deleteBook confirmed response reload stats p) = filteredBooks p.
Proof.
  unfold deleteBook. destruct confirmed; cbn [negb]; [|now split].
  destruct response as [reason | status body]; cbn.
  - now split.
  - intros ->. now split.
Qed.

(** C3, at a reload answered 500 with the server's error object, which is
    what [router.get('/')] sends while the database is down. The load
    does not look at the response status: it stores the parsed body in
    [books] and fails only afterwards, when the object cannot be spread into
    [filteredBooks]. [books] is then the error object, no longer the list it
    held before the failure; [filteredBooks] is as before. *)
Theorem failed_reload_overwrites_books :
  (exists response,
     Routes.serve Routes.router_get unreachable_library
     = (Db.Done response, unreachable_library, [Routes.SelectAll]) /\
     delivered response = storage_failure) /\
  Spec.failing storage_failure /\
  books sample_page = JsonBooks [gatsby; nineteen_eighty_four; mockingbird] /\
  books failed_reload = JsonError "connect ECONNREFUSED" /\
  books failed_reload <> books sample_page /\
  filteredBooks failed_reload = filteredBooks sample_page /\
  alerts failed_reload = ["Failed to load books"].
Proof.
  split; [eexists; split; reflexivity|].
  repeat split. discriminate.
Qed.

(** ** The displayed books and the fetched books *)

Lemma loadBooks_array status rows p :
  books (loadBooks (Resolved status (Some (JsonBooks rows))) p) = JsonBooks rows /\
  filteredBooks (loadBooks (Resolved status (Some (JsonBooks rows))) p) = rows.
Proof.
  unfold loadBooks. cbn [books set_books showLoading set_booksList].
  destruct (renderBooks_state
              (set_filteredBooks rows
                 (set_books (JsonBooks rows) (showLoading p)))) as (-> & -> & _).
  now split.
Qed.

Lemma search_shows_fetched toLowerCase typed p rows :
  books p = JsonBooks rows ->
  incl (filteredBooks (on_search_input toLowerCase typed p))
       (Spec.fetched (books (on_search_input toLowerCase typed p))).
Proof.
  intros H. destruct (on_search_input_array toLowerCase typed p rows H) as [-> ->].
  cbn [Spec.fetched]. intros b Hb.
  destruct (filterStatus p =? "")%string;
    repeat (apply filter_In in Hb; destruct Hb as [Hb _]); exact Hb.
Qed.

Lemma filter_change_keeps_shown_fetched selected p :
  incl (filteredBooks p) (Spec.fetched (books p)) ->
  incl (filteredBooks (on_filter_change selected p))
       (Spec.fetched (books (on_filter_change selected p))).
Proof.
  intros H. destruct (on_filter_change_state selected p) as [-> ->].
  intros b Hb. apply H.
  destruct (selected =? "")%string; [exact Hb|].
  now apply filter_In in Hb.
Qed.

(** C10, after a reload answered 500 with the server's error object. The
    failed load leaves the error object in [books] and the earlier list in
    [filteredBooks]; the next change of the status selection assigns
    [filteredBooks] from that earlier list, and the books it shows are not
    elements of [books]. *)
Theorem filter_after_failed_reload_shows_books_not_in_books :
  books read_selected_after_failure = JsonError "connect ECONNREFUSED" /\
  filteredBooks read_selected_after_failure = [gatsby; nineteen_eighty_four] /\
  In gatsby (filteredBooks read_selected_after_failure) /\
  ~ In gatsby (Spec.fetched (books read_selected_after_failure)).
Proof.
  repeat split.
  - now left.
  - intros [].
Qed.

(** ** Escaping *)

Lemma escapeHtml_Some (s : string) : escapeHtml (Some s) = replace s.
Proof. unfold escapeHtml. cbn [text truthy]. now destruct s. Qed.

Lemma append_assoc (a b c : string) : (a ++ b) ++ c = a ++ (b ++ c).
Proof. induction a as [|x a IH]; cbn; [reflexivity | now rewrite IH]. Qed.

Lemma replace_append (a b : string) : replace (a ++ b) = replace a ++ replace b.
Proof.
  induction a as [|c a IH]; cbn [append replace]; [reflexivity|].
  rewrite IH. destruct (map c); [now rewrite append_assoc | reflexivity].
Qed.

Lemma map_significant (c : ascii) :
  Spec.significant c -> exists entity, map c = Some entity.
Proof.
  intros [-> | [-> | [-> | [-> | ->]]]]; eexists; reflexivity.
Qed.

Lemma map_entity (c : ascii) (entity : string) :
  map c = Some entity -> forall rest, Spec.escaped (entity ++ rest) = Spec.escaped rest.
Proof.
  unfold map. intros H rest.
  repeat match type of H with
         | (if ?b then _ else _) = _ => destruct b
         end;
    try discriminate; injection H as <-; reflexivity.
Qed.

Lemma escaped_replace (s : string) : Spec.escaped (replace s) = true.
Proof.
  induction s as [|c s IH]; cbn [replace]; [reflexivity|].
  destruct (map c) as [entity|] eqn:E.
  - now rewrite (map_entity c entity E).
  - cbn [Spec.escaped]. rewrite IH, andb_true_r.
    unfold map in E.
    destruct (Ascii.eqb c "&"); [discriminate|].
    destruct (Ascii.eqb c "<"); [discriminate|].
    destruct (Ascii.eqb c ">"); [discriminate|].
    destruct (Ascii.eqb c (ascii_of_nat 34)); [discriminate|].
    destruct (Ascii.eqb c "'"); [discriminate|].
    reflexivity.
Qed.

Lemma escaped_escapeHtml (t : option string) : Spec.escaped (escapeHtml t) = true.
Proof.
  destruct t as [s|]; [|reflexivity].
  rewrite escapeHtml_Some. apply escaped_replace.
Qed.

(** Digits and the minus sign. *)
Lemma escaped_uint (d : Decimal.uint) :
  Spec.escaped (NilEmpty.string_of_uint d) = true.
Proof. induction d; cbn; assumption || reflexivity. Qed.

Lemma escaped_decimal (n : Z) : Spec.escaped (decimal n) = true.
Proof.
  unfold decimal, NilZero.string_of_int, NilZero.string_of_uint.
  destruct (Z.to_int n) as [d|d]; destruct d; cbn [Spec.escaped];
    try reflexivity; cbn; apply escaped_uint.
Qed.

Lemma escaped_status (o : option Status) :
  Spec.escaped (interpolate (status_value o)) = true /\
  Spec.escaped (interpolate (formatStatus (status_value o))) = true.
Proof. destruct o as [[]|]; split; reflexivity. Qed.

(** ** Looking for an opening script tag *)

Lemma scan_append (st : nat) (a b : string) :
  scan st (a ++ b) = scan (scan st a) b.
Proof. revert st. induction a as [|c a IH]; intros st; cbn; [reflexivity | apply IH]. Qed.

Lemma scan_done (s : string) : scan 7 s = 7%nat.
Proof. induction s as [|c s IH]; cbn [scan]; [reflexivity | exact IH]. Qed.

Lemma scan_tag (st : nat) (rest : string) :
  scan st (script_tag ++ rest) = 7%nat.
Proof.
  do 8 (destruct st as [|st]; [apply scan_done || (cbn; apply scan_done)|]).
  cbn. apply scan_done.
Qed.

Lemma scan_includes (s : string) (st : nat) :
  includes s script_tag = true -> scan st s = 7%nat.
Proof.
  revert st. induction s as [|c s IH]; intros st; cbn [includes].
  - discriminate.
  - rewrite orb_true_iff. intros [H | H].
    + apply startsWith_prefix in H. destruct H as [rest ->]. apply scan_tag.
    + cbn [scan]. now apply IH.
Qed.

Lemma tagless_no_script (s : string) :
  tagless s -> includes s script_tag = false.
Proof.
  intros H. destruct (includes s script_tag) eqn:E; [|reflexivity].
  apply (scan_includes s 0) in E. unfold tagless in H. congruence.
Qed.

Lemma tagless_append (a b : string) : tagless a -> tagless b -> tagless (a ++ b).
Proof. unfold tagless. intros Ha Hb. now rewrite scan_append, Ha. Qed.

Lemma tagless_escaped (s : string) : Spec.escaped s = true -> tagless s.
Proof.
  unfold tagless. induction s as [|c s IH]; [reflexivity|].
  cbn [Spec.escaped scan]. rewrite andb_true_iff. intros [Hc Hs].
  replace (step 0 c) with 0%nat; [now apply IH|].
  unfold step. cbn [Nat.eqb nth list_ascii_of_string script_tag].
  destruct (Ascii.eqb c "&") eqn:E.
  - apply Ascii.eqb_eq in E. now subst c.
  - destruct (Ascii.eqb c "<"); [discriminate | reflexivity].
Qed.

Lemma tagless_concat (l : list string) :
  Forall tagless l -> tagless (concat l).
Proof.
  induction 1 as [|s l Hs _ IH]; cbn [concat fold_right]; [reflexivity|].
  now apply tagless_append.
Qed.

Lemma tagless_stars (r : Z) : tagless (generateStars r).
Proof.
  unfold generateStars. cbn [fold_left].
  destruct (1 <=? r), (2 <=? r), (3 <=? r), (4 <=? r), (5 <=? r); reflexivity.
Qed.

(** ** Cards *)

Lemma card_data_escaped (book : Book) (x : string) :
  In (Data x) (card_pieces book) -> Spec.escaped x = true.
Proof.
  unfold card_pieces. intros H.
  repeat (apply in_app_or in H; destruct H as [H | H]);
    repeat match goal with
           | H : In _ (if ?b then _ else _) |- _ => destruct b
           end;
    cbn [In] in H;
    repeat match goal with
           | H : _ \/ _ |- _ => destruct H as [H | H]
           | H : False |- _ => contradiction
           | H : Markup _ = Data _ |- _ => discriminate H
           | H : Data _ = Data _ |- _ => injection H as <-
           end;
    first [ apply escaped_escapeHtml
          | apply escaped_decimal
          | apply escaped_status
          | destruct (year_published book); [apply escaped_decimal | reflexivity] ].
Qed.

Lemma card_pieces_tagless (book : Book) :
  Forall (fun x => tagless (piece_text x)) (card_pieces book).
Proof.
  unfold card_pieces.
  repeat (apply Forall_app; split);
    repeat match goal with
           | |- Forall _ (if ?b then _ else _) => destruct b
           end;
    repeat (apply Forall_cons || apply Forall_nil);
    cbn [piece_text];
    first [ reflexivity
          | apply tagless_escaped;
            first [ apply escaped_escapeHtml
                  | apply escaped_decimal
                  | apply escaped_status
                  | destruct (year_published book);
                    [apply escaped_decimal | reflexivity] ]
          | destruct (rating book); [apply tagless_stars | reflexivity] ].
Qed.

Lemma card_tagless (book : Book) : tagless (card book).
Proof.
  unfold card. apply tagless_concat. apply Forall_map. apply card_pieces_tagless.
Qed.

Lemma renderBooks_tagless (p : Page) : tagless (booksList (renderBooks p)).
Proof.
  unfold renderBooks.
  destruct (List.length (filteredBooks p) =? 0)%nat; cbn [booksList set_booksList].
  - reflexivity.
  - apply tagless_concat. apply Forall_map. apply Forall_forall.
    intros book _. apply card_tagless.
Qed.

Lemma concat_app (l1 l2 : list string) :
  concat (l1 ++ l2) = concat l1 ++ concat l2.
Proof.
  induction l1 as [|s l1 IH]; cbn [app concat fold_right]; [reflexivity|].
  fold (concat (l1 ++ l2)). fold (concat l1). now rewrite IH, append_assoc.
Qed.

Lemma includes_inside (before s after q : string) :
  includes s q = true -> includes (before ++ s ++ after) q = true.
Proof.
  rewrite !includes_occurs. intros (x & y & ->).
  exists (before ++ x), (y ++ after). now rewrite !append_assoc.
Qed.

Lemma card_shows_title (book : Book) :
  exists before after, card book = before ++ escapeHtml (Some (title book)) ++ after.
Proof.
  unfold card, card_pieces. cbn [app].
  match goal with
  | |- exists before after,
         concat (List.map piece_text (Markup ?m :: Data _ :: ?rest)) = _ =>
      exists m, (concat (List.map piece_text rest))
  end.
  reflexivity.
Qed.

(** C4. [escapeHtml] replaces every occurrence of each of the five
    characters by its entity and keeps the text around it, so that its
    result is escaped text. In the card of a book the title and the author
    are inserted through [escapeHtml], and every book value inserted, the
    unescaped status, year and identifier included, is escaped text. The
    markup rendered for any list of books holds no opening script tag, and
    for a displayed book whose title contains one it holds the tag with its
    angle brackets replaced by entities. *)
Theorem rendered_book_text_is_escaped :
  (map "&" = Some "&amp;" /\ map "<" = Some "&lt;" /\ map ">" = Some "&gt;" /\
   map (ascii_of_nat 34) = Some "&quot;" /\ map "'" = Some "&#039;") /\
  (forall (a b : string) (c : ascii),
     Spec.significant c ->
     exists entity,
       map c = Some entity /\
       escapeHtml (Some (a ++ String c b))
       = escapeHtml (Some a) ++ entity ++ escapeHtml (Some b)) /\
  (forall t, Spec.escaped (escapeHtml t) = true) /\
  (forall book,
     In (Data (escapeHtml (Some (title book)))) (card_pieces book) /\
     In (Data (escapeHtml (Some (author book)))) (card_pieces book)) /\
  (forall book x, In (Data x) (card_pieces book) -> Spec.escaped x = true) /\
  (forall p, includes (booksList (renderBooks p)) "<script" = false) /\
  (forall p book a b,
     In book (filteredBooks p) ->
     title book = a ++ "<script>" ++ b ->
     includes (booksList (renderBooks p)) "&lt;script&gt;" = true).
Proof.
  split; [repeat split|]. split; [|split; [|split; [|split; [|split]]]].
  - intros a b c Hc. destruct (map_significant c Hc) as [entity E].
    exists entity. split; [exact E|].
    rewrite !escapeHtml_Some, replace_append. cbn [replace]. now rewrite E.
  - exact escaped_escapeHtml.
  - intros book. unfold card_pieces. split.
    + apply in_or_app. left. cbn. tauto.
    + apply in_or_app. left. cbn. tauto.
  - exact card_data_escaped.
  - intros p. apply tagless_no_script, renderBooks_tagless.
  - intros p book a b Hin Htitle. unfold renderBooks.
    destruct (filteredBooks p) as [|b0 l] eqn:El; [contradiction|].
    cbn [List.length Nat.eqb booksList set_booksList].
    destruct (in_split _ _ Hin) as (l1 & l2 & ->).
    rewrite map_app, concat_app. cbn [List.map concat fold_right].
    apply includes_inside.
    destruct (card_shows_title book) as (before & after & ->).
    apply includes_inside.
    rewrite escapeHtml_Some, Htitle, !replace_append.
    apply includes_inside. reflexivity.
Qed.

Lemma rendered_book_text_is_escaped_witness :
  (exists entity,
     map "<" = Some entity /\
     escapeHtml (Some ("a" ++ String "<" "b"))
     = escapeHtml (Some "a") ++ entity ++ escapeHtml (Some "b")) /\
  Spec.escaped (escapeHtml (Some (title hostile))) = true /\
  includes (booksList (renderBooks (set_filteredBooks [hostile] initial)))
    "&lt;script&gt;" = true /\
  includes (booksList (renderBooks (set_filteredBooks [hostile] initial)))
    "<script" = false.
Proof.
  destruct rendered_book_text_is_escaped
    as (_ & Hocc & _ & Hins & Hdata & Hnone & Hshown).
  split; [|split; [|split]].
  - apply (Hocc "a" "b" "<"%char). right. now left.
  - apply (Hdata hostile). apply Hins.
  - apply (Hshown (set_filteredBooks [hostile] initial) hostile
             "" "alert('x')</script>"); [now left | reflexivity].
  - apply Hnone.
Defined.

End PageProperties.

(* ================================================================== *)
(** * Further properties of the routes *)
(* ================================================================== *)

Section RouteCoverage.
Import Js Schema Db Http Routes.

Ltac run_route :=
  unfold serve, router_get, router_get_id, router_post, router_put,
    router_delete, router_get_stats_overview,
    server_error, res_json, res_status_json,
    query_insert, query_update, query_delete, query_select_all,
    query_select_by_id, query_select_stats,
    query_changing, query_reading, try_catch, bind, ret;
  cbn [db queries app List.length].

Ltac tidy := cbn [db queries app List.length negb orb andb].

(** ** The routes as equations *)

Lemma router_post_run d body :
  serve (router_post body) d =
  if negb (truthy (Body.title body)) || negb (truthy (Body.author body))
  then (Done validation_error, d, [])
  else match connected d 0 (insert d (params_of body)) with
       | Thrown e => (Done (error_response e), d, [Insert (params_of body)])
       | Done (d1, h) =>
           match connected d1 1 (select_by_id d1 (insertId h)) with
           | Done rows =>
               (Done {| statusCode := 201;
                        payload := option_map JsonBook (nth_error rows 0) |},
                d1, [Insert (params_of body); SelectById (insertId h)])
           | Thrown e =>
               (Done (error_response e), d1,
                [Insert (params_of body); SelectById (insertId h)])
           end
       end.
Proof.
  run_route.
  destruct (negb (truthy (Body.title body)) || negb (truthy (Body.author body)));
    [reflexivity|].
  tidy. fold (params_of body).
  destruct (connected d 0 (insert d (params_of body))) as [[d1 h]|e]; tidy;
    [|reflexivity].
  now destruct (connected d1 1 (select_by_id d1 (insertId h))).
Qed.

Lemma router_put_run d i body :
  serve (router_put i body) d =
  match connected d 0 (update d (params_of body) i) with
  | Thrown e => (Done (error_response e), d, [Update (params_of body) i])
  | Done (d1, h) =>
      if affectedRows h =? 0
      then (Done not_found, d1, [Update (params_of body) i])
      else match connected d1 1 (select_by_id d1 i) with
           | Done rows =>
               (Done {| statusCode := 200;
                        payload := option_map JsonBook (nth_error rows 0) |},
                d1, [Update (params_of body) i; SelectById i])
           | Thrown e =>
               (Done (error_response e), d1,
                [Update (params_of body) i; SelectById i])
           end
  end.
Proof.
  run_route. fold (params_of body).
  destruct (connected d 0 (update d (params_of body) i)) as [[d1 h]|e]; tidy;
    [|reflexivity].
  destruct (affectedRows h =? 0); tidy; [reflexivity|].
  now destruct (connected d1 1 (select_by_id d1 i)).
Qed.

Lemma router_delete_run d i :
  serve (router_delete i) d =
  match connected d 0 (delete d i) with
  | Thrown e => (Done (error_response e), d, [Delete i])
  | Done (d1, h) =>
      if affectedRows h =? 0
      then (Done not_found, d1, [Delete i])
      else (Done {| statusCode := 200;
                    payload := Some (JsonMessage "Book deleted successfully") |},
            d1, [Delete i])
  end.
Proof.
  run_route. destruct (connected d 0 (delete d i)) as [[d1 h]|e]; tidy;
    [|reflexivity].
  now destruct (affectedRows h =? 0).
Qed.

Lemma router_get_id_run d i :
  serve (router_get_id i) d =
  match connected d 0 (select_by_id d i) with
  | Thrown e => (Done (error_response e), d, [SelectById i])
  | Done rows =>
      if (List.length rows =? 0)%nat
      then (Done not_found, d, [SelectById i])
      else (Done {| statusCode := 200;
                    payload := option_map JsonBook (nth_error rows 0) |},
            d, [SelectById i])
  end.
Proof.
  run_route. destruct (connected d 0 (select_by_id d i)) as [rows|e]; tidy;
    [|reflexivity].
  now destruct (List.length rows =? 0)%nat.
Qed.

Lemma router_get_run d :
  serve router_get d =
  match connected d 0 (select_all d) with
  | Thrown e => (Done (error_response e), d, [SelectAll])
  | Done rows =>
      (Done {| statusCode := 200; payload := Some (JsonBooks rows) |},
       d, [SelectAll])
  end.
Proof. run_route. now destruct (connected d 0 (select_all d)). Qed.

Lemma router_get_stats_overview_run d :
  serve router_get_stats_overview d =
  match connected d 0 (select_stats d) with
  | Thrown e => (Done (error_response e), d, [SelectStats])
  | Done rows =>
      (Done {| statusCode := 200;
               payload := option_map JsonStats (nth_error rows 0) |},
       d, [SelectStats])
  end.
Proof. run_route. now destruct (connected d 0 (select_stats d)). Qed.

(** ** The statements, inverted *)

Lemma database_eta (d : Database) :
  {| books := books d; auto_increment := auto_increment d;
     clock := clock d; online := online d |} = d.
Proof. now destruct d. Qed.

Lemma insert_done d p d1 h :
  insert d p = Done (d1, h) ->
  exists c,
    bind_columns p = Done c /\
    check_unique_isbn (c_isbn c) (books d) = Done tt /\
    d1 = with_row d (new_row d c) /\
    h = {| affectedRows := 1; insertId := auto_increment d |}.
Proof.
  unfold insert, with_row, new_row.
  destruct (bind_columns p) as [c|e]; cbn [and_then]; [|discriminate].
  destruct (check_unique_isbn (c_isbn c) (books d)) as [[]|e] eqn:E;
    cbn [and_then]; [|discriminate].
  intros H. injection H as <- <-.
  exists c. split; [reflexivity|]. split; [exact E|]. split; reflexivity.
Qed.

Lemma update_done d p i d1 h :
  update d p i = Done (d1, h) ->
  ((filter (has_id i) (books d) = [] /\ d1 = d /\ affectedRows h = 0) \/
   (exists c r0 more,
      filter (has_id i) (books d) = r0 :: more /\
      bind_columns p = Done c /\
      check_unique_isbn (c_isbn c)
        (filter (fun r => negb (has_id i r)) (books d) ++ more) = Done tt /\
      d1 = with_columns d i c /\
      affectedRows h = Z.of_nat (List.length (r0 :: more)))).
Proof.
  unfold update, with_columns.
  destruct (filter (has_id i) (books d)) as [|r0 more] eqn:Ef.
  - intros H. injection H as <- <-. left. now repeat split.
  - destruct (bind_columns p) as [c|e]; cbn [and_then]; [|discriminate].
    destruct (check_unique_isbn _ _) as [[]|e] eqn:E; cbn [and_then]; [|discriminate].
    intros H. injection H as <- <-. right.
    exists c, r0, more. now repeat split.
Qed.

Lemma delete_done d i d1 h :
  delete d i = Done (d1, h) ->
  d1 = without_id d i /\
  affectedRows h = Z.of_nat (List.length (filter (has_id i) (books d))).
Proof.
  unfold delete, without_id.
  intros H. injection H as <- <-. now split.
Qed.

Lemma filter_not_has_id_none i rows :
  filter (has_id i) rows = [] ->
  filter (fun r => negb (has_id i r)) rows = rows.
Proof.
  induction rows as [|r rows IH]; cbn [filter]; [reflexivity|].
  destruct (has_id i r); [discriminate|]. cbn [negb]. intros H. now rewrite IH.
Qed.

Lemma filter_has_id_In i rows :
  filter (has_id i) rows = [] <-> (forall r, In r rows -> id r <> i).
Proof.
  split.
  - intros H r Hr E.
    assert (Hin : In r (filter (has_id i) rows)).
    { apply filter_In. split; [exact Hr|]. unfold has_id. now apply Z.eqb_eq. }
    rewrite H in Hin. contradiction.
  - apply filter_has_id_none.
Qed.

Lemma filter_has_id_unique rows r :
  NoDup (List.map id rows) -> In r rows ->
  filter (has_id (id r)) rows = [r].
Proof.
  induction rows as [|a rows IH]; cbn [List.map filter In]; [contradiction|].
  intros Hnd Hin. inversion Hnd as [|x l Hnotin Hnd' E]; subst.
  unfold has_id at 1. destruct Hin as [-> | Hin].
  - rewrite Z.eqb_refl. f_equal. apply filter_has_id_none.
    intros r' Hr' E. apply Hnotin. rewrite <- E. now apply in_map.
  - destruct (Z.eqb_spec (id a) (id r)) as [E|_].
    + exfalso. apply Hnotin. rewrite E. now apply in_map.
    + now apply IH.
Qed.

Lemma select_by_id_online d i sent :
  online d sent = true ->
  connected d sent (select_by_id d i) = Done (filter (has_id i) (books d)).
Proof. unfold select_by_id, connected. now intros ->. Qed.

(** ** Read by identifier *)

(** X1. With the database reachable, [GET /:id] answers 404 when no row has
    the identifier and otherwise 200 with a row of the table that has it,
    which is the requested record when identifiers are unique. It sends one
    SELECT and leaves the database as it was. *)
Theorem get_by_id_finds_the_row_or_says_not_found (d : Database) (i : Z) :
  reachable d ->
  ((forall r, In r (books d) -> id r <> i) ->
   serve (router_get_id i) d = (Done not_found, d, [SelectById i])) /\
  (forall r, In r (books d) -> id r = i ->
   exists row,
     serve (router_get_id i) d
     = (Done {| statusCode := 200; payload := Some (JsonBook row) |},
        d, [SelectById i]) /\
     In row (books d) /\ id row = i /\
     (keys_consistent d -> row = r)).
Proof.
  intros Hon. rewrite router_get_id_run, (select_by_id_online d i _ (Hon _)). split.
  - intros Hnone. now rewrite (filter_has_id_none i (books d) Hnone).
  - intros r Hr Hid.
    destruct (filter (has_id i) (books d)) as [|row rest] eqn:Ef.
    + exfalso. apply (proj1 (filter_has_id_In i (books d)) Ef r Hr Hid).
    + exists row. split; [reflexivity|].
      assert (Hrow : In row (books d) /\ has_id i row = true).
      { apply filter_In. rewrite Ef. now left. }
      destruct Hrow as [Hin Hh]. split; [exact Hin|].
      split; [now apply Z.eqb_eq|].
      intros [Hnd _]. subst i.
      rewrite (filter_has_id_unique (books d) r Hnd Hr) in Ef.
      now injection Ef.
Qed.

Lemma get_by_id_finds_the_row_or_says_not_found_witness :
  serve (router_get_id 9) sample_library
  = (Done not_found, sample_library, [SelectById 9]) /\
  exists row,
    serve (router_get_id 3) sample_library
    = (Done {| statusCode := 200; payload := Some (JsonBook row) |},
       sample_library, [SelectById 3]) /\
    In row (books sample_library) /\ id row = 3.
Proof.
  split.
  - apply (get_by_id_finds_the_row_or_says_not_found sample_library 9
             (fun _ => eq_refl)).
    intros r [<- | [<- | [<- | []]]]; discriminate.
  - destruct (proj2 (get_by_id_finds_the_row_or_says_not_found
                       sample_library 3 (fun _ => eq_refl)) mockingbird)
      as (row & Hs & Hin & Hid & _).
    + cbn. tauto.
    + reflexivity.
    + now exists row.
Defined.

(** ** Delete *)

Lemma filter_other_id i j rows :
  j <> i ->
  filter (has_id j) (filter (fun r => negb (has_id i r)) rows)
  = filter (has_id j) rows.
Proof.
  intros Hji. induction rows as [|r rows IH]; cbn [filter]; [reflexivity|].
  destruct (has_id i r) eqn:Ei; cbn [negb filter].
  - replace (has_id j r) with false; [exact IH|].
    symmetry. unfold has_id in *. apply Z.eqb_eq in Ei. apply Z.eqb_neq. lia.
  - now rewrite IH.
Qed.

Lemma filter_own_id i rows :
  filter (has_id i) (filter (fun r => negb (has_id i r)) rows) = [].
Proof.
  induction rows as [|r rows IH]; cbn [filter]; [reflexivity|].
  destruct (has_id i r) eqn:Ei; cbn [negb filter]; [exact IH|].
  now rewrite Ei.
Qed.

Lemma delete_removes_rows (d : Database) (i : Z) :
  reachable d ->
  ((forall r, In r (books d) -> id r <> i) ->
   serve (router_delete i) d = (Done not_found, d, [Delete i])) /\
  (forall r, In r (books d) -> id r = i ->
   exists d',
     serve (router_delete i) d
     = (Done {| statusCode := 200;
                payload := Some (JsonMessage "Book deleted successfully") |},
        d', [Delete i]) /\
     books d' = filter (fun x => negb (id x =? i)) (books d) /\
     reachable d').
Proof.
  intros Hon. rewrite router_delete_run, (connected_reachable d _ _ Hon).
  unfold delete. split.
  - intros Hnone.
    rewrite (filter_has_id_none i (books d) Hnone),
      (filter_not_has_id_none i (books d) (filter_has_id_none i _ Hnone)).
    cbn [List.length Z.of_nat affectedRows Z.eqb].
    now rewrite database_eta.
  - intros r Hr Hid.
    assert (Hin : In r (filter (has_id i) (books d))).
    { apply filter_In. split; [exact Hr|]. unfold has_id. now apply Z.eqb_eq. }
    destruct (filter (has_id i) (books d)) as [|r0 more]; [contradiction|].
    cbn [affectedRows]. eexists. split; [reflexivity|]. now split.
Qed.

(** X2. With the database reachable, [DELETE /:id] answers 404 and leaves
    the database as it was when no row has the identifier; otherwise it
    answers 200 and the table keeps, in their order, exactly the rows with
    another identifier. It sends one DELETE in both cases. *)
Theorem delete_removes_the_rows_of_that_id (d : Database) (i : Z) :
  reachable d ->
  ((forall r, In r (books d) -> id r <> i) ->
   serve (router_delete i) d = (Done not_found, d, [Delete i])) /\
  (forall r, In r (books d) -> id r = i ->
   exists d',
     serve (router_delete i) d
     = (Done {| statusCode := 200;
                payload := Some (JsonMessage "Book deleted successfully") |},
        d', [Delete i]) /\
     books d' = filter (fun x => negb (id x =? i)) (books d) /\
     (forall x, In x (books d') <-> In x (books d) /\ id x <> i) /\
     auto_increment d' = auto_increment d).
Proof.
  intros Hon. rewrite router_delete_run, (connected_reachable d _ _ Hon).
  unfold delete. split.
  - intros Hnone.
    rewrite (filter_has_id_none i (books d) Hnone),
      (filter_not_has_id_none i (books d) (filter_has_id_none i _ Hnone)).
    cbn [List.length Z.of_nat affectedRows Z.eqb].
    now rewrite database_eta.
  - intros r Hr Hid.
    assert (Hin : In r (filter (has_id i) (books d))).
    { apply filter_In. split; [exact Hr|]. unfold has_id. now apply Z.eqb_eq. }
    destruct (filter (has_id i) (books d)) as [|r0 more]; [contradiction|].
    cbn [affectedRows]. eexists. split; [reflexivity|]. cbn [books auto_increment].
    split; [reflexivity|]. split; [|reflexivity].
    intros x. rewrite filter_In. unfold has_id.
    rewrite negb_true_iff, Z.eqb_neq. reflexivity.
Qed.

Lemma delete_removes_the_rows_of_that_id_witness :
  serve (router_delete 9) sample_library
  = (Done not_found, sample_library, [Delete 9]) /\
  exists d',
    serve (router_delete 2) sample_library
    = (Done {| statusCode := 200;
               payload := Some (JsonMessage "Book deleted successfully") |},
       d', [Delete 2]) /\
    books d' = [gatsby; mockingbird].
Proof.
  split.
  - apply (delete_removes_the_rows_of_that_id sample_library 9 (fun _ => eq_refl)).
    intros r [<- | [<- | [<- | []]]]; discriminate.
  - destruct (proj2 (delete_removes_the_rows_of_that_id sample_library 2
                       (fun _ => eq_refl))
                nineteen_eighty_four) as (d' & Hs & Hb & _).
    + cbn. tauto.
    + reflexivity.
    + exists d'. split; [exact Hs|]. rewrite Hb. reflexivity.
Defined.

(** X3. After a delete request answered 200, the deleted identifier is not
    found any more, and a read of any other identifier is answered as it
    was before the delete. *)
Theorem deleted_book_is_not_found_afterwards
    (d d' : Database) (i : Z) (response : Response) (sent : list Statement) :
  serve (router_delete i) d = (Done response, d', sent) ->
  statusCode response = 200 ->
  serve (router_get_id i) d' = (Done not_found, d', [SelectById i]) /\
  (forall j, j <> i ->
   fst (fst (serve (router_get_id j) d')) = fst (fst (serve (router_get_id j) d))).
Proof.
  rewrite router_delete_run.
  destruct (connected d 0 (delete d i)) as [[d1 h]|e] eqn:E.
  2:{ intros H. injection H as <- _ _. discriminate. }
  destruct (connected_done _ _ _ _ E) as [Hon E'].
  destruct (delete_done d i d1 h E') as (-> & _).
  destruct (affectedRows h =? 0).
  { intros H. injection H as <- _ _. discriminate. }
  intros H _. injection H as _ <- _.
  assert (Hon' : online (without_id d i) 0%nat = true) by exact Hon.
  split.
  - rewrite router_get_id_run, (select_by_id_online _ i _ Hon').
    cbn [books without_id]. now rewrite filter_own_id.
  - intros j Hj. rewrite !router_get_id_run.
    rewrite (select_by_id_online _ j _ Hon'), (select_by_id_online _ j _ Hon).
    cbn [books without_id]. rewrite (filter_other_id i j (books d) Hj).
    now destruct (List.length (filter (has_id j) (books d)) =? 0)%nat.
Qed.

Lemma deleted_book_is_not_found_afterwards_witness :
  exists d',
    snd (fst (serve (router_delete 2) sample_library)) = d' /\
    serve (router_get_id 2) d' = (Done not_found, d', [SelectById 2]).
Proof.
  destruct (serve (router_delete 2) sample_library) as [[r d'] sent] eqn:E.
  exists d'. split; [reflexivity|].
  vm_compute in E. injection E as <- <- <-.
  apply (deleted_book_is_not_found_afterwards sample_library _ 2
           {| statusCode := 200;
              payload := Some (JsonMessage "Book deleted successfully") |}
           [Delete 2]); reflexivity.
Defined.

(** ** Create *)

Lemma bind_columns_done p c :
  bind_columns p = Done c ->
  as_text "title" characters 255 (p_title p) = Done (Some (c_title c)) /\
  as_text "author" characters 255 (p_author p) = Done (Some (c_author c)) /\
  as_text "isbn" characters 20 (p_isbn p) = Done (c_isbn c) /\
  as_text "genre" characters 100 (p_genre p) = Done (c_genre c) /\
  as_int "year_published" (p_year_published p) = Done (c_year_published c) /\
  as_status "status" (p_status p) = Done (c_status c) /\
  as_int "rating" (p_rating p) = Done (c_rating c) /\
  check_rating (c_rating c) = Done tt /\
  as_text "notes" String.length 65535 (p_notes p) = Done (c_notes c).
Proof.
  unfold bind_columns, not_null.
  destruct (as_text "title" characters 255 (p_title p)) as [[t|]|]; cbn [and_then]; try discriminate.
  destruct (as_text "author" characters 255 (p_author p)) as [[a|]|]; cbn [and_then]; try discriminate.
  destruct (as_text "isbn" characters 20 (p_isbn p)) as [i|]; cbn [and_then]; try discriminate.
  destruct (as_text "genre" characters 100 (p_genre p)) as [g|]; cbn [and_then]; try discriminate.
  destruct (as_int "year_published" (p_year_published p)) as [y|]; cbn [and_then]; try discriminate.
  destruct (as_status "status" (p_status p)) as [st|]; cbn [and_then]; try discriminate.
  destruct (as_int "rating" (p_rating p)) as [r|]; cbn [and_then]; try discriminate.
  destruct (check_rating r) as [[]|] eqn:Er; cbn [and_then]; try discriminate.
  destruct (as_text "notes" String.length 65535 (p_notes p)) as [n|]; cbn [and_then]; try discriminate.
  intros H. injection H as <-. now repeat split.
Qed.

Lemma bind_columns_intro p c :
  as_text "title" characters 255 (p_title p) = Done (Some (c_title c)) ->
  as_text "author" characters 255 (p_author p) = Done (Some (c_author c)) ->
  as_text "isbn" characters 20 (p_isbn p) = Done (c_isbn c) ->
  as_text "genre" characters 100 (p_genre p) = Done (c_genre c) ->
  as_int "year_published" (p_year_published p) = Done (c_year_published c) ->
  as_status "status" (p_status p) = Done (c_status c) ->
  as_int "rating" (p_rating p) = Done (c_rating c) ->
  check_rating (c_rating c) = Done tt ->
  as_text "notes" String.length 65535 (p_notes p) = Done (c_notes c) ->
  bind_columns p = Done c.
Proof.
  intros Ht Ha Hi Hg Hy Hs Hr Hc Hn. unfold bind_columns, not_null.
  rewrite Ht, Ha, Hi, Hg, Hy, Hs, Hr. cbn [and_then].
  rewrite Hc, Hn. cbn [and_then]. now destruct c.
Qed.

Lemma filter_has_id_last i rows row :
  (forall r, In r rows -> id r < i) -> id row = i ->
  filter (has_id i) (rows ++ [row]) = [row].
Proof.
  intros Hlt Hid. rewrite filter_app, filter_has_id_none.
  - cbn [filter app]. unfold has_id. now rewrite Hid, Z.eqb_refl.
  - intros r Hr. specialize (Hlt r Hr). lia.
Qed.

(** What a create request answered 201 did. *)
Lemma router_post_created d body response d' sent :
  serve (router_post body) d = (Done response, d', sent) ->
  statusCode response = 201 ->
  (online d 0%nat = true /\ online d 1%nat = true) /\
  exists c,
    bind_columns (params_of body) = Done c /\
    check_unique_isbn (c_isbn c) (books d) = Done tt /\
    d' = with_row d (new_row d c) /\
    (ids_below_counter d -> payload response = Some (JsonBook (new_row d c))).
Proof.
  rewrite router_post_run.
  destruct (negb (truthy (Body.title body)) || negb (truthy (Body.author body))).
  { intros H. injection H as <- _ _. discriminate. }
  destruct (connected d 0 (insert d (params_of body))) as [[d1 h]|e] eqn:E.
  2:{ intros H. injection H as <- _ _. discriminate. }
  destruct (connected_done _ _ _ _ E) as [Hon E'].
  destruct (insert_done d _ d1 h E') as (c & Hc & Hu & -> & ->).
  unfold connected at 1. cbn [online with_row].
  destruct (online d 1%nat) eqn:Hon1.
  2:{ intros H. injection H as <- _ _. discriminate. }
  unfold select_by_id.
  cbn [insertId]. intros H _. injection H as <- <- _.
  split; [now split|]. exists c. repeat split; try assumption.
  intros Hids. cbn [payload books with_row].
  now rewrite (filter_has_id_last (auto_increment d) (books d) (new_row d c) Hids eq_refl).
Qed.

(** X4. A create request answered 201 returns a record whose identifier is
    the AUTO_INCREMENT counter, used by no earlier row; the record is
    appended to the table with both timestamps at the current time, the
    other rows stay, and a read of that identifier right afterwards returns
    the same record. *)
Theorem created_book_is_read_back
    (d d' : Database) (body : Body.t) (response : Response)
    (sent : list Statement) :
  ids_below_counter d ->
  serve (router_post body) d = (Done response, d', sent) ->
  statusCode response = 201 ->
  exists row,
    payload response = Some (JsonBook row) /\
    id row = auto_increment d /\
    (forall r, In r (books d) -> id r <> id row) /\
    books d' = (books d ++ [row])%list /\
    created_at row = clock d /\ updated_at row = clock d /\
    serve (router_get_id (id row)) d'
    = (Done {| statusCode := 200; payload := Some (JsonBook row) |},
       d', [SelectById (id row)]).
Proof.
  intros Hids Hs H201.
  destruct (router_post_created d body response d' sent Hs H201)
    as ([Hon _] & c & _ & _ & -> & Hp).
  exists (new_row d c). split; [now apply Hp|]. split; [reflexivity|].
  split; [intros r Hr; specialize (Hids r Hr); cbn [id new_row]; lia|].
  split; [reflexivity|]. split; [reflexivity|]. split; [reflexivity|].
  rewrite router_get_id_run,
    (select_by_id_online (with_row d (new_row d c)) _ _ Hon).
  cbn [books with_row id new_row].
  now rewrite (filter_has_id_last (auto_increment d) (books d) (new_row d c) Hids eq_refl).
Qed.

Lemma sample_ids_below_counter : ids_below_counter sample_library.
Proof. intros r [<- | [<- | [<- | []]]]; reflexivity. Qed.

Lemma created_book_is_read_back_witness :
  exists row d',
    snd (fst (serve (router_post (title_and_author "Dune" "Frank Herbert"))
                sample_library)) = d' /\
    id row = 4 /\ title row = "Dune" /\
    serve (router_get_id 4) d'
    = (Done {| statusCode := 200; payload := Some (JsonBook row) |},
       d', [SelectById 4]).
Proof.
  destruct (serve (router_post (title_and_author "Dune" "Frank Herbert"))
              sample_library) as [[r d'] sent] eqn:E.
  assert (Hr : r = Done {| statusCode := 201;
                           payload := Some (JsonBook
                             (mkBook 4 "Dune" "Frank Herbert" None None None
                                None None None 1000 1000)) |}).
  { vm_compute in E. now injection E as <- _ _. }
  subst r.
  destruct (created_book_is_read_back sample_library d' _ _ sent
              sample_ids_below_counter E eq_refl)
    as (row & Hp & Hid & _ & _ & _ & _ & Hget).
  cbn [payload] in Hp. injection Hp as <-.
  exists (mkBook 4 "Dune" "Frank Herbert" None None None None None None
            1000 1000), d'.
  split; [reflexivity|]. split; [reflexivity|].
  split; [reflexivity|]. exact Hget.
Defined.

(** X5. A create request whose ISBN is already held by a stored row is
    answered 500 after its INSERT was sent, and the database is as it was:
    the UNIQUE constraint rejects the second record. *)
Theorem second_book_with_same_isbn_is_rejected
    (d : Database) (body : Body.t) (s : string) (r : Book) :
  truthy (Body.title body) = true ->
  truthy (Body.author body) = true ->
  Body.isbn body = str s ->
  In r (books d) -> isbn r = Some s ->
  exists e,
    serve (router_post body) d
    = (Done (error_response e), d, [Insert (params_of body)]).
Proof.
  intros Ht Ha Hi Hr Hs. rewrite router_post_run, Ht, Ha. cbn [negb orb].
  destruct (connected d 0 (insert d (params_of body))) as [[d1 h]|e] eqn:E;
    [|now exists e].
  exfalso. apply connected_done in E. destruct E as [_ E].
  destruct (insert_done d _ d1 h E) as (c & Hc & Hu & _).
  destruct (bind_columns_done _ c Hc) as (_ & _ & Hisbn & _).
  cbn [p_isbn params_of] in Hisbn. rewrite Hi in Hisbn. cbn [as_text] in Hisbn.
  destruct (Z.of_nat (characters s) <=? 20); [|discriminate].
  injection Hisbn as Hisbn. rewrite <- Hisbn in Hu.
  cbn [check_unique_isbn] in Hu.
  assert (Hex : existsb (fun r => option_eqb String.eqb (isbn r) (Some s)) (books d) = true).
  { apply existsb_exists. exists r. split; [exact Hr|].
    rewrite Hs. cbn [option_eqb]. apply String.eqb_refl. }
  rewrite Hex in Hu. discriminate.
Qed.

Lemma second_book_with_same_isbn_is_rejected_witness :
  exists e,
    serve (router_post
             (Body.make (str "Animal Farm") (str "George Orwell")
                (str "9780451524935") null null null null null))
      sample_library
    = (Done (error_response e), sample_library,
       [Insert (params_of
                  (Body.make (str "Animal Farm") (str "George Orwell")
                     (str "9780451524935") null null null null null))]).
Proof.
  apply (second_book_with_same_isbn_is_rejected sample_library _
           "9780451524935" nineteen_eighty_four);
    try reflexivity.
  cbn. tauto.
Defined.

(** ** Requests that fail *)

(** The three endings of an update request: answered 200 after the UPDATE
    and the re-read; not answered 200 with nothing changed; answered 500
    after the UPDATE, when the re-read does not reach the server. *)
Lemma router_put_outcome d i body response d' sent :
  serve (router_put i body) d = (Done response, d', sent) ->
  (statusCode response = 200 /\
   exists c r0 more,
     (online d 0%nat = true /\ online d 1%nat = true) /\
     filter (has_id i) (books d) = r0 :: more /\
     bind_columns (params_of body) = Done c /\
     check_unique_isbn (c_isbn c)
       (filter (fun r => negb (has_id i r)) (books d) ++ more) = Done tt /\
     d' = with_columns d i c /\
     payload response = Some (JsonBook (set_columns (clock d) c r0))) \/
  (statusCode response <> 200 /\ d' = d) \/
  (response = server_down /\
   sent = [Update (params_of body) i; SelectById i] /\
   exists c r0 more,
     (online d 0%nat = true /\ online d 1%nat = false) /\
     filter (has_id i) (books d) = r0 :: more /\
     bind_columns (params_of body) = Done c /\
     check_unique_isbn (c_isbn c)
       (filter (fun r => negb (has_id i r)) (books d) ++ more) = Done tt /\
     d' = with_columns d i c).
Proof.
  rewrite router_put_run.
  destruct (connected d 0 (update d (params_of body) i)) as [[d1 h]|e] eqn:E.
  2:{ intros H. injection H as <- <- _. right. left.
      split; [discriminate|reflexivity]. }
  destruct (connected_done _ _ _ _ E) as [Hon E'].
  destruct (update_done d _ i d1 h E')
    as [(Hf & -> & ->) | (c & r0 & more & Hf & Hc & Hu & -> & ->)].
  - cbn [Z.eqb]. intros H. injection H as <- <- _.
    right. left. split; [discriminate|reflexivity].
  - replace (Z.of_nat (List.length (r0 :: more)) =? 0) with false
      by (symmetry; apply Z.eqb_neq; cbn [List.length]; lia).
    unfold connected at 1. cbn [online with_columns].
    destruct (online d 1%nat) eqn:Hon1.
    + unfold select_by_id.
      cbn [books with_columns]. rewrite filter_has_id_updated, Hf.
      cbn [List.map nth_error option_map].
      intros H. injection H as <- <- _. left. split; [reflexivity|].
      exists c, r0, more. now repeat split.
    + intros H. injection H as <- <- <-. right. right.
      split; [reflexivity|]. split; [reflexivity|].
      exists c, r0, more. now repeat split.
Qed.

Lemma router_delete_outcome d i response d' sent :
  serve (router_delete i) d = (Done response, d', sent) ->
  (statusCode response = 200 /\ online d 0%nat = true /\ d' = without_id d i /\
   filter (has_id i) (books d) <> []) \/
  (statusCode response <> 200 /\ d' = d).
Proof.
  rewrite router_delete_run.
  destruct (connected d 0 (delete d i)) as [[d1 h]|e] eqn:E.
  2:{ intros H. injection H as <- <- _. right. split; [discriminate|reflexivity]. }
  destruct (connected_done _ _ _ _ E) as [Hon E'].
  destruct (delete_done d i d1 h E') as (-> & ->).
  destruct (filter (has_id i) (books d)) as [|r0 more] eqn:Ef.
  - cbn [List.length Z.of_nat Z.eqb]. intros H. injection H as <- <- _.
    right. split; [discriminate|].
    unfold without_id. rewrite (filter_not_has_id_none i (books d) Ef).
    apply database_eta.
  - replace (Z.of_nat (List.length (r0 :: more)) =? 0) with false
      by (symmetry; apply Z.eqb_neq; cbn [List.length]; lia).
    intros H. injection H as <- <- _. left. now repeat split.
Qed.

(** The three endings of a create request, as for an update. *)
Lemma router_post_outcome d body response d' sent :
  serve (router_post body) d = (Done response, d', sent) ->
  statusCode response = 201 \/
  (statusCode response <> 201 /\ d' = d) \/
  (response = server_down /\
   sent = [Insert (params_of body); SelectById (auto_increment d)] /\
   exists c,
     (online d 0%nat = true /\ online d 1%nat = false) /\
     bind_columns (params_of body) = Done c /\
     check_unique_isbn (c_isbn c) (books d) = Done tt /\
     d' = with_row d (new_row d c)).
Proof.
  rewrite router_post_run.
  destruct (negb (truthy (Body.title body)) || negb (truthy (Body.author body))).
  { intros H. injection H as <- <- _. right. left.
    split; [discriminate|reflexivity]. }
  destruct (connected d 0 (insert d (params_of body))) as [[d1 h]|e] eqn:E.
  2:{ intros H. injection H as <- <- _. right. left.
      split; [discriminate|reflexivity]. }
  destruct (connected_done _ _ _ _ E) as [Hon E'].
  destruct (insert_done d _ d1 h E') as (c & Hc & Hu & -> & ->).
  unfold connected at 1. cbn [online with_row insertId].
  destruct (online d 1%nat) eqn:Hon1.
  - intros H. injection H as <- _ _. now left.
  - intros H. injection H as <- <- <-. right. right.
    split; [reflexivity|]. split; [reflexivity|].
    exists c. now repeat split.
Qed.

(** What a create or an update request can have done to the database,
    whatever it is answered. *)
Lemma router_post_effect d body response d' sent :
  serve (router_post body) d = (Done response, d', sent) ->
  d' = d \/
  exists c,
    bind_columns (params_of body) = Done c /\
    check_unique_isbn (c_isbn c) (books d) = Done tt /\
    d' = with_row d (new_row d c).
Proof.
  intros H.
  destruct (router_post_outcome _ _ _ _ _ H)
    as [H201 | [[_ ->] | (_ & _ & c & _ & Hc & Hu & ->)]].
  - destruct (router_post_created _ _ _ _ _ H H201) as (_ & c & Hc & Hu & -> & _).
    right. now exists c.
  - now left.
  - right. now exists c.
Qed.

Lemma router_put_effect d i body response d' sent :
  serve (router_put i body) d = (Done response, d', sent) ->
  d' = d \/
  exists c r0 more,
    filter (has_id i) (books d) = r0 :: more /\
    bind_columns (params_of body) = Done c /\
    check_unique_isbn (c_isbn c)
      (filter (fun r => negb (has_id i r)) (books d) ++ more) = Done tt /\
    d' = with_columns d i c.
Proof.
  intros H.
  destruct (router_put_outcome _ _ _ _ _ _ H)
    as [(_ & c & r0 & more & _ & Hf & Hc & Hu & -> & _)
       | [(_ & ->) | (_ & _ & c & r0 & more & _ & Hf & Hc & Hu & ->)]].
  - right. now exists c, r0, more.
  - now left.
  - right. now exists c, r0, more.
Qed.

(** X6. A request that is not answered with its success status (201, 200,
    200) has changed nothing, with one exception. A create or update sends
    two statements without a transaction: when the INSERT or UPDATE was
    carried out and the read that follows does not reach the server, the
    answer is 500 although the row is stored or changed. A delete and the
    three reading routes send one statement and leave the database as it was
    whenever they do not succeed, the reading routes also when they do. *)
Theorem unsuccessful_request_changed_nothing_unless_reread_failed
    (d d' : Database) (i : Z) (body : Body.t) (response : Response)
    (sent : list Statement) :
  (serve (router_post body) d = (Done response, d', sent) ->
   statusCode response <> 201 ->
   d' = d \/
   (response = server_down /\
    sent = [Insert (params_of body); SelectById (auto_increment d)] /\
    online d 0%nat = true /\ online d 1%nat = false /\
    exists row, books d' = (books d ++ [row])%list /\ id row = auto_increment d)) /\
  (serve (router_put i body) d = (Done response, d', sent) ->
   statusCode response <> 200 ->
   d' = d \/
   (response = server_down /\
    sent = [Update (params_of body) i; SelectById i] /\
    online d 0%nat = true /\ online d 1%nat = false /\
    exists c, bind_columns (params_of body) = Done c /\ d' = with_columns d i c)) /\
  (forall d1 h,
     truthy (Body.title body) = true -> truthy (Body.author body) = true ->
     insert d (params_of body) = Done (d1, h) ->
     online d 0%nat = true -> online d 1%nat = false ->
     serve (router_post body) d
     = (Done server_down, d1, [Insert (params_of body); SelectById (insertId h)])) /\
  (forall d1 h,
     update d (params_of body) i = Done (d1, h) -> affectedRows h <> 0 ->
     online d 0%nat = true -> online d 1%nat = false ->
     serve (router_put i body) d
     = (Done server_down, d1, [Update (params_of body) i; SelectById i])) /\
  (serve (router_delete i) d = (Done response, d', sent) ->
   statusCode response <> 200 -> d' = d) /\
  (serve router_get d = (Done response, d', sent) -> d' = d) /\
  (serve (router_get_id i) d = (Done response, d', sent) -> d' = d) /\
  (serve router_get_stats_overview d = (Done response, d', sent) -> d' = d).
Proof.
  repeat apply conj.
  - intros H Hn.
    destruct (router_post_outcome _ _ _ _ _ H)
      as [E | [[_ E] | (Hr & Hs & c & [H0 H1] & _ & _ & Hd)]];
      [contradiction | now left | right].
    repeat (split; [assumption|]).
    exists (new_row d c). rewrite Hd. now split.
  - intros H Hn.
    destruct (router_put_outcome _ _ _ _ _ _ H)
      as [[E _] | [[_ E] | (Hr & Hs & c & r0 & more & [H0 H1] & _ & Hc & _ & Hd)]];
      [contradiction | now left | right].
    repeat (split; [assumption|]).
    now exists c.
  - intros d1 h Ht Ha Hi H0 H1. rewrite router_post_run, Ht, Ha. cbn [negb orb].
    unfold connected at 1. rewrite H0, Hi.
    destruct (insert_done d _ d1 h Hi) as (c & _ & _ & -> & _).
    unfold connected. cbn [online with_row]. now rewrite H1.
  - intros d1 h Hu Hrows H0 H1. rewrite router_put_run.
    unfold connected at 1. rewrite H0, Hu.
    replace (affectedRows h =? 0) with false by (symmetry; now apply Z.eqb_neq).
    destruct (update_done d _ i d1 h Hu)
      as [(_ & _ & E) | (c & r0 & more & _ & _ & _ & -> & _)];
      [contradiction|].
    unfold connected. cbn [online with_columns]. now rewrite H1.
  - intros H Hn. destruct (router_delete_outcome _ _ _ _ _ H) as [[E _] | [_ E]];
      [contradiction | exact E].
  - rewrite router_get_run. destruct (connected d 0 (select_all d));
      intros H; now injection H.
  - rewrite router_get_id_run.
    destruct (connected d 0 (select_by_id d i)) as [rows|e];
      [destruct (List.length rows =? 0)%nat|]; intros H; now injection H.
  - rewrite router_get_stats_overview_run.
    destruct (connected d 0 (select_stats d)); intros H; now injection H.
Qed.

Lemma unsuccessful_request_changed_nothing_unless_reread_failed_witness :
  (exists response d' sent,
     serve (router_put 2 (Body.make null (str "George Orwell") null null null
                            null null null)) sample_library
     = (Done response, d', sent) /\
     statusCode response <> 200 /\
     d' = sample_library) /\
  (exists d',
     serve (router_post (title_and_author "Dune" "Frank Herbert")) flaky_library
     = (Done server_down, d',
        [Insert (params_of (title_and_author "Dune" "Frank Herbert"));
         SelectById 4]) /\
     books d'
     = [gatsby; nineteen_eighty_four; mockingbird;
        mkBook 4 "Dune" "Frank Herbert" None None None None None None
          1000 1000]).
Proof.
  split.
  - exists (error_response "Column 'title' cannot be null"), sample_library,
      [Update (params_of (Body.make null (str "George Orwell") null null null
                            null null null)) 2].
    split; [reflexivity|]. split; [cbn; discriminate|].
    destruct (proj1 (proj2 (unsuccessful_request_changed_nothing_unless_reread_failed
                              sample_library sample_library 2
                              (Body.make null (str "George Orwell") null null null
                                 null null null)
                              (error_response "Column 'title' cannot be null")
                              [Update (params_of (Body.make null (str "George Orwell")
                                                    null null null null null null)) 2]))
                eq_refl) as [E | (_ & _ & _ & E & _)].
    + cbn. discriminate.
    + exact E.
    + discriminate E.
  - exists (mkDatabase
              [gatsby; nineteen_eighty_four; mockingbird;
               mkBook 4 "Dune" "Frank Herbert" None None None None None None
                 1000 1000] 5 1000 lost_after_first).
    split; [|reflexivity].
    apply (proj1 (proj2 (proj2 (unsuccessful_request_changed_nothing_unless_reread_failed
                                  flaky_library flaky_library 2
                                  (title_and_author "Dune" "Frank Herbert")
                                  server_down [])))
             _ {| affectedRows := 1; insertId := 4 |});
      reflexivity.
Defined.

(** X7. While the database cannot be reached, every route answers 500 with
    the driver's message and the database is untouched; only a create
    request with a blank title or author is answered 400, before the
    database is asked. *)
Theorem unreachable_database_is_a_server_error
    (d : Database) (i : Z) (body : Body.t) :
  unreachable d ->
  serve router_get d = (Done server_down, d, [SelectAll]) /\
  serve (router_get_id i) d = (Done server_down, d, [SelectById i]) /\
  serve (router_put i body) d
  = (Done server_down, d, [Update (params_of body) i]) /\
  serve (router_delete i) d = (Done server_down, d, [Delete i]) /\
  serve router_get_stats_overview d = (Done server_down, d, [SelectStats]) /\
  serve (router_post body) d
  = (if truthy (Body.title body) && truthy (Body.author body)
     then (Done server_down, d, [Insert (params_of body)])
     else (Done validation_error, d, [])).
Proof.
  intros Hoff.
  rewrite router_get_run, router_get_id_run, router_put_run, router_delete_run,
    router_get_stats_overview_run, router_post_run.
  unfold connected, unreachable in *.
  rewrite Hoff. repeat split.
  now destruct (truthy (Body.title body)), (truthy (Body.author body)).
Qed.

Lemma unreachable_database_is_a_server_error_witness :
  serve router_get unreachable_library
  = (Done server_down, unreachable_library, [SelectAll]) /\
  serve (router_delete 2) unreachable_library
  = (Done server_down, unreachable_library, [Delete 2]).
Proof.
  destruct (unreachable_database_is_a_server_error unreachable_library 2
              empty_title eq_refl) as (Hg & _ & _ & Hd & _).
  split; [exact Hg | exact Hd].
Defined.

(** ** The list *)

Lemma newest_first_permutation r l :
  Permutation (newest_first r l) (r :: l).
Proof.
  induction l as [|x l IH]; cbn [newest_first]; [reflexivity|].
  destruct (created_at x <=? created_at r); [reflexivity|].
  rewrite IH. apply perm_swap.
Qed.

Lemma newest_first_sorted r l :
  newest_to_oldest l -> newest_to_oldest (newest_first r l).
Proof.
  unfold newest_to_oldest.
  induction l as [|x l IH]; cbn [newest_first]; intros Hs.
  - constructor; constructor.
  - inversion Hs as [|y l' Hs' Hall]; subst.
    destruct (Z.leb_spec (created_at x) (created_at r)) as [Hle|Hlt].
    + constructor; [exact Hs|]. constructor; [exact Hle|].
      eapply Forall_impl; [|exact Hall]. cbn. intros b Hb. lia.
    + constructor; [now apply IH|].
      rewrite newest_first_permutation.
      constructor; [lia | exact Hall].
Qed.

Lemma select_all_rows rows :
  Permutation (fold_right newest_first [] rows) rows /\
  newest_to_oldest (fold_right newest_first [] rows).
Proof.
  induction rows as [|r rows [IHp IHs]]; cbn [fold_right].
  - split; [reflexivity | constructor].
  - split.
    + rewrite newest_first_permutation. now constructor.
    + now apply newest_first_sorted.
Qed.

(** X8. With the database reachable, [GET /] answers 200 with every row of
    the table, each as often as it is stored, ordered from the newest
    [created_at] to the oldest; it sends one SELECT and leaves the database
    as it was. *)
Theorem list_returns_all_rows_newest_first (d : Database) :
  reachable d ->
  exists rows,
    serve router_get d
    = (Done {| statusCode := 200; payload := Some (JsonBooks rows) |},
       d, [SelectAll]) /\
    Permutation rows (books d) /\
    newest_to_oldest rows.
Proof.
  intros Hon. rewrite router_get_run, (connected_reachable d _ _ Hon).
  unfold select_all.
  eexists. split; [reflexivity|]. apply select_all_rows.
Qed.

Lemma list_returns_all_rows_newest_first_witness :
  exists rows,
    serve router_get (after_creating four_requests empty_library)
    = (Done {| statusCode := 200; payload := Some (JsonBooks rows) |},
       after_creating four_requests empty_library, [SelectAll]) /\
    List.length rows = 4%nat /\
    newest_to_oldest rows.
Proof.
  destruct (list_returns_all_rows_newest_first
              (after_creating four_requests empty_library) (fun _ => eq_refl))
    as (rows & Hs & Hp & Hsorted).
  exists rows. split; [exact Hs|]. split; [|exact Hsorted].
  now rewrite (Permutation_length Hp).
Defined.

(** ** Update *)

Lemma updated_ids i now c rows :
  List.map id (List.map (fun r => if has_id i r then set_columns now c r else r) rows)
  = List.map id rows.
Proof.
  rewrite map_map. apply map_ext. intros r. now destruct (has_id i r).
Qed.

Lemma updated_created_at i now c rows :
  List.map created_at
    (List.map (fun r => if has_id i r then set_columns now c r else r) rows)
  = List.map created_at rows.
Proof.
  rewrite map_map. apply map_ext. intros r. now destruct (has_id i r).
Qed.

(** X9. Whatever an update request is answered, the table afterwards has
    the same identifiers and creation times in the same positions and the
    same AUTO_INCREMENT counter, and every row with another identifier is
    the row it was: an update neither adds, removes, reorders nor touches
    other records. *)
Theorem update_touches_only_that_record
    (d d' : Database) (i : Z) (body : Body.t) (response : Response)
    (sent : list Statement) :
  serve (router_put i body) d = (Done response, d', sent) ->
  List.map id (books d') = List.map id (books d) /\
  List.map created_at (books d') = List.map created_at (books d) /\
  auto_increment d' = auto_increment d /\
  (forall n r, nth_error (books d) n = Some r -> id r <> i ->
               nth_error (books d') n = Some r).
Proof.
  intros H.
  destruct (router_put_effect _ _ _ _ _ _ H)
    as [-> | (c & r0 & more & _ & _ & _ & ->)]; [now repeat split|].
  cbn [books auto_increment with_columns].
  rewrite updated_ids, updated_created_at. repeat split.
  intros n r Hn Hid. rewrite nth_error_map, Hn. cbn [option_map].
  replace (has_id i r) with false; [reflexivity|].
  symmetry. unfold has_id. now apply Z.eqb_neq.
Qed.

Lemma update_touches_only_that_record_witness :
  exists response d' sent,
    serve (router_put 2 retitled_1984) sample_library
    = (Done response, d', sent) /\
    List.map id (books d') = [1; 2; 3] /\
    nth_error (books d') 0 = Some gatsby /\
    nth_error (books d') 2 = Some mockingbird.
Proof.
  destruct (serve (router_put 2 retitled_1984) sample_library)
    as [[[response|e] d'] sent] eqn:E; [|vm_compute in E; discriminate E].
  destruct (update_touches_only_that_record sample_library d' 2 retitled_1984
              response sent E) as (Hids & _ & _ & Hrows).
  exists response, d', sent. split; [reflexivity|]. split; [exact Hids|].
  split; apply Hrows; (reflexivity || discriminate).
Defined.

Lemma option_eqb_refl {A} (eqb : A -> A -> bool) (o : option A) :
  (forall a, eqb a a = true) -> option_eqb eqb o o = true.
Proof. intros H. destruct o; [apply H | reflexivity]. Qed.

Lemma Status_eqb_refl (s : Status) : Status_eqb s s = true.
Proof. now destruct s. Qed.

Lemma same_columns_set now c r : same_columns c (set_columns now c r) = true.
Proof.
  unfold same_columns, set_columns.
  cbn [title author isbn genre year_published status rating notes].
  rewrite !String.eqb_refl.
  rewrite !(option_eqb_refl String.eqb _ String.eqb_refl).
  rewrite !(option_eqb_refl Z.eqb _ Z.eqb_refl).
  now rewrite (option_eqb_refl Status_eqb _ Status_eqb_refl).
Qed.

Lemma set_columns_twice now later c r :
  set_columns later c (set_columns now c r) = set_columns now c r.
Proof.
  unfold set_columns at 1. rewrite same_columns_set. reflexivity.
Qed.

Lemma updated_twice i now later c rows :
  List.map (fun r => if has_id i r then set_columns later c r else r)
    (List.map (fun r => if has_id i r then set_columns now c r else r) rows)
  = List.map (fun r => if has_id i r then set_columns now c r else r) rows.
Proof.
  rewrite map_map. apply map_ext. intros r.
  destruct (has_id i r) eqn:E.
  - rewrite has_id_set_columns, E. apply set_columns_twice.
  - now rewrite E.
Qed.

Lemma updated_others i now c rows :
  filter (fun r => negb (has_id i r))
    (List.map (fun r => if has_id i r then set_columns now c r else r) rows)
  = filter (fun r => negb (has_id i r)) rows.
Proof.
  induction rows as [|r rows IH]; cbn [List.map filter]; [reflexivity|].
  destruct (has_id i r) eqn:E.
  - rewrite has_id_set_columns, E. exact IH.
  - rewrite E. cbn [negb]. now rewrite IH.
Qed.

Lemma found_is_unique i rows r0 more :
  NoDup (List.map id rows) ->
  filter (has_id i) rows = r0 :: more -> more = [].
Proof.
  intros Hnd Hf.
  assert (H0 : In r0 rows /\ has_id i r0 = true).
  { apply filter_In. rewrite Hf. now left. }
  destruct H0 as [Hin Hid]. unfold has_id in Hid. apply Z.eqb_eq in Hid. subst i.
  rewrite (filter_has_id_unique rows r0 Hnd Hin) in Hf. now injection Hf.
Qed.

Lemma update_online d p i d1 h :
  update d p i = Done (d1, h) -> online d1 = online d.
Proof.
  intros H.
  destruct (update_done d p i d1 h H)
    as [(_ & -> & _) | (c & r0 & more & _ & _ & _ & -> & _)]; reflexivity.
Qed.

(** The same UPDATE run again, at whatever time, finds the columns equal to
    its values and leaves every row as the first run left it. *)
Lemma update_twice d p i d1 h later :
  NoDup (List.map id (books d)) ->
  update d p i = Done (d1, h) ->
  update (at_time later d1) p i = Done (at_time later d1, h).
Proof.
  intros Hnd. unfold update.
  destruct (filter (has_id i) (books d)) as [|r0 more] eqn:Ef.
  - intros H. injection H as <- <-. cbn [books at_time]. now rewrite Ef.
  - pose proof (found_is_unique i (books d) r0 more Hnd Ef) as ->.
    destruct (bind_columns p) as [c|e] eqn:Ec; cbn [and_then]; [|discriminate].
    destruct (check_unique_isbn _ _) as [[]|e] eqn:Eu; cbn [and_then]; [|discriminate].
    intros H. injection H as <- <-.
    unfold at_time. cbn [online books clock auto_increment].
    rewrite filter_has_id_updated, Ef. cbn [List.map].
    rewrite updated_others, Eu. cbn [and_then].
    now rewrite updated_twice.
Qed.

(** X10. With unique identifiers, an update request sent a second time, at
    whatever later time, is answered as the first time and leaves the table
    as the first request left it: the second UPDATE finds every column equal
    to the value it sets, and [updated_at] keeps the time of the first
    request. *)
Theorem update_twice_is_update_once
    (d d' : Database) (i : Z) (body : Body.t) (response : Response)
    (sent : list Statement) (later : Z) :
  NoDup (List.map id (books d)) ->
  serve (router_put i body) d = (Done response, d', sent) ->
  serve (router_put i body) (at_time later d')
  = (Done response, at_time later d', sent).
Proof.
  intros Hnd. rewrite !router_put_run.
  destruct (connected d 0 (update d (params_of body) i)) as [[d1 h]|e] eqn:E.
  - destruct (connected_done _ _ _ _ E) as [Hon E'].
    pose proof (update_twice d _ i d1 h later Hnd E') as E1.
    pose proof (update_online d _ i d1 h E') as Ho.
    destruct (affectedRows h =? 0) eqn:Eh.
    + intros H. injection H as <- <- <-.
      unfold connected at 1. cbn [online at_time]. rewrite Ho, Hon, E1.
      now rewrite Eh.
    + intros H.
      assert (Hd : d' = d1).
      { destruct (connected d1 1 (select_by_id d1 i)); now injection H. }
      subst d'.
      unfold connected at 1. cbn [online at_time]. rewrite Ho, Hon, E1, Eh.
      change (connected (at_time later d1) 1 (select_by_id (at_time later d1) i))
        with (connected d1 1 (select_by_id d1 i)).
      destruct (connected d1 1 (select_by_id d1 i)) as [rows|e];
        injection H as <- <-; reflexivity.
  - intros H. injection H as <- <- <-.
    unfold connected in *. cbn [online at_time].
    destruct (online d 0%nat); [|now injection E as <-].
    assert (Hu : update (at_time later d) (params_of body) i = Thrown e).
    { revert E. unfold update. cbn [books at_time].
      destruct (filter (has_id i) (books d)); [discriminate|].
      destruct (bind_columns (params_of body)); cbn [and_then]; [|trivial].
      destruct (check_unique_isbn _ _); cbn [and_then]; [discriminate | trivial]. }
    now rewrite Hu.
Qed.

Lemma sample_ids_unique : NoDup (List.map id (books sample_library)).
Proof.
  cbn. repeat constructor; cbn; intuition discriminate.
Qed.

Lemma update_twice_is_update_once_witness :
  exists response d' sent,
    serve (router_put 2 retitled_1984) sample_library
    = (Done response, d', sent) /\
    statusCode response = 200 /\
    List.map updated_at (books d') = [0; 1000; 0] /\
    serve (router_put 2 retitled_1984) (at_time 2000 d')
    = (Done response, at_time 2000 d', sent) /\
    List.map updated_at (books (at_time 2000 d')) = [0; 1000; 0].
Proof.
  destruct (serve (router_put 2 retitled_1984) sample_library)
    as [[[response|e] d'] sent] eqn:E; [|vm_compute in E; discriminate E].
  exists response, d', sent. split; [reflexivity|].
  pose proof (update_twice_is_update_once sample_library d' 2 retitled_1984
                response sent 2000 sample_ids_unique E) as Hs.
  vm_compute in E. injection E as <- <- <-.
  split; [reflexivity|]. split; [reflexivity|]. split; [exact Hs | reflexivity].
Defined.

(** ** Statistics *)

Lemma statuses_partition (rows : list Book) :
  List.length rows
  = (List.length (Spec.with_status Read rows)
     + List.length (Spec.with_status Reading rows)
     + List.length (Spec.with_status ToRead rows)
     + List.length (without_status rows))%nat.
Proof.
  unfold Spec.with_status, without_status.
  induction rows as [|r rows IH]; cbn [filter List.length]; [reflexivity|].
  destruct (status r) as [[]|]; cbn [Status_eqb List.length]; lia.
Qed.

Lemma select_stats_counts d :
  select_stats d =
  Done [ {| total_books := Z.of_nat (List.length (books d));
            books_read := Z.of_nat (List.length (Spec.with_status Read (books d)));
            books_reading := Z.of_nat (List.length (Spec.with_status Reading (books d)));
            books_to_read := Z.of_nat (List.length (Spec.with_status ToRead (books d)));
            average_rating := avg rating (books d) |} ].
Proof.
  unfold select_stats.
  now rewrite count_star_length, !count_status.
Qed.

Lemma select_stats_online d :
  reachable d ->
  connected d 0 (select_stats d) =
  Done [ {| total_books := Z.of_nat (List.length (books d));
            books_read := Z.of_nat (List.length (Spec.with_status Read (books d)));
            books_reading := Z.of_nat (List.length (Spec.with_status Reading (books d)));
            books_to_read := Z.of_nat (List.length (Spec.with_status ToRead (books d)));
            average_rating := avg rating (books d) |} ].
Proof.
  intros Hon. now rewrite (connected_reachable d _ _ Hon), select_stats_counts.
Qed.

(** X11. The three per-status counts of the statistics add up to
    [total_books] less the rows whose status is NULL: statuses are counted
    exclusively, and a row without a status is in the total and in none of
    the three counts. *)
Theorem statistics_counts_add_up (d : Database) :
  reachable d ->
  exists s,
    serve router_get_stats_overview d
    = (Done {| statusCode := 200; payload := Some (JsonStats s) |},
       d, [SelectStats]) /\
    total_books s
    = books_read s + books_reading s + books_to_read s
      + Z.of_nat (List.length (without_status (books d))) /\
    0 <= books_read s /\ 0 <= books_reading s /\ 0 <= books_to_read s /\
    books_read s + books_reading s + books_to_read s <= total_books s.
Proof.
  intros Hon. rewrite router_get_stats_overview_run, (select_stats_online d Hon).
  eexists. split; [reflexivity|].
  cbn [total_books books_read books_reading books_to_read].
  rewrite (statuses_partition (books d)) at 1 2. lia.
Qed.

Lemma statistics_counts_add_up_witness :
  exists s,
    serve router_get_stats_overview
      (snd (fst (serve (router_post (title_and_author "Dune" "Frank Herbert"))
                   sample_library)))
    = (Done {| statusCode := 200; payload := Some (JsonStats s) |},
       snd (fst (serve (router_post (title_and_author "Dune" "Frank Herbert"))
                   sample_library)), [SelectStats]) /\
    total_books s = 4 /\
    books_read s + books_reading s + books_to_read s = 3.
Proof.
  destruct (statistics_counts_add_up
              (snd (fst (serve (router_post (title_and_author "Dune" "Frank Herbert"))
                           sample_library))) (fun _ => eq_refl))
    as (s & Hs & Ht & _).
  exists s. split; [exact Hs|].
  vm_compute in Hs. injection Hs as <-. split; reflexivity.
Defined.

Lemma ratings_bounds (rows : list Book) :
  (forall r n, In r rows -> rating r = Some n -> 1 <= n <= 5) ->
  Z.of_nat (List.length (Spec.ratings rows)) <= Spec.sum (Spec.ratings rows)
  /\ Spec.sum (Spec.ratings rows) <= 5 * Z.of_nat (List.length (Spec.ratings rows)).
Proof.
  induction rows as [|r rows IH]; intros H; cbn [Spec.ratings flat_map].
  - cbn. lia.
  - fold (Spec.ratings rows).
    assert (IH' := IH (fun r' n Hr => H r' n (or_intror Hr))).
    destruct (rating r) as [n|] eqn:E; cbn [app]; [|exact IH'].
    assert (Hn := H r n (or_introl eq_refl) E).
    cbn [Spec.sum fold_right List.length]. fold (Spec.sum (Spec.ratings rows)). lia.
Qed.

(** X12. When every stored rating lies between 1 and 5, as the CHECK of the
    table demands, the average the statistics report lies between 1 and 5
    as well. *)
Theorem average_rating_is_between_1_and_5 (d : Database) (s : Stats) (q : Q) :
  reachable d ->
  (forall r n, In r (books d) -> rating r = Some n -> 1 <= n <= 5) ->
  serve router_get_stats_overview d
  = (Done {| statusCode := 200; payload := Some (JsonStats s) |},
     d, [SelectStats]) ->
  average_rating s = Some q ->
  (1 <= q /\ q <= 5)%Q.
Proof.
  intros Hon Hr. rewrite router_get_stats_overview_run, (select_stats_online d Hon).
  cbn [nth_error option_map]. intros H. injection H as <-.
  cbn [average_rating]. rewrite avg_rating_rounded.
  destruct (ratings_bounds (books d) Hr) as [Hlo Hhi].
  destruct (Spec.ratings (books d)) as [|n l] eqn:E; [discriminate|].
  intros Hq. injection Hq as <-.
  assert (Hn : 0 < Z.of_nat (List.length (n :: l))) by (cbn [List.length]; lia).
  pose proof (round_half_away_near (10000 * Spec.sum (n :: l)) _ Hn) as Hk.
  set (k := round_half_away _ _) in *.
  assert (Hb : 10000 <= k <= 50000) by nia.
  unfold Qle. cbn [Qnum Qden]. lia.
Qed.

Lemma average_rating_is_between_1_and_5_witness :
  exists s q,
    average_rating s = Some q /\ (1 <= q /\ q <= 5)%Q /\
    serve router_get_stats_overview rated_library
    = (Done {| statusCode := 200; payload := Some (JsonStats s) |},
       rated_library, [SelectStats]).
Proof.
  exists (mkStats 3 2 1 0 (Some (43333 # 10000))), (43333 # 10000).
  split; [reflexivity|]. split; [|reflexivity].
  apply (average_rating_is_between_1_and_5 rated_library
           (mkStats 3 2 1 0 (Some (43333 # 10000))));
    try reflexivity.
  - intros sent. reflexivity.
  - intros r n [<- | [<- | [<- | []]]] E; cbn in E; try discriminate;
      injection E as <-; lia.
Defined.

(** ** What every request keeps true of the table *)

Lemma NoDup_map_filter {A B} (f : A -> B) (g : A -> bool) (l : list A) :
  NoDup (List.map f l) -> NoDup (List.map f (filter g l)).
Proof.
  induction l as [|a l IH]; cbn [List.map filter]; [trivial|].
  intros H. inversion H as [|x l' Hnotin Hnd]; subst.
  destruct (g a); cbn [List.map]; [|now apply IH].
  constructor; [|now apply IH].
  intros Hin. apply Hnotin. apply in_map_iff in Hin.
  destruct Hin as (x & Hx & Hin). apply filter_In in Hin.
  apply in_map_iff. exists x. tauto.
Qed.

Lemma keys_with_row d c :
  keys_consistent d -> keys_consistent (with_row d (new_row d c)).
Proof.
  intros [Hnd Hids]. split.
  - cbn [books with_row]. rewrite map_app. cbn [List.map id new_row].
    apply NoDup_app; [exact Hnd | repeat constructor; intros [] |].
    intros x Hx [<- | []]. apply in_map_iff in Hx.
    destruct Hx as (r & Hr & Hin). specialize (Hids r Hin). lia.
  - intros r Hr. cbn [books auto_increment with_row] in *.
    apply in_app_or in Hr. destruct Hr as [Hr | [<- | []]].
    + specialize (Hids r Hr). lia.
    + cbn [id new_row]. lia.
Qed.

Lemma keys_with_columns d i c :
  keys_consistent d -> keys_consistent (with_columns d i c).
Proof.
  intros [Hnd Hids]. split.
  - cbn [books with_columns]. now rewrite updated_ids.
  - intros r Hr. cbn [books auto_increment with_columns] in *.
    apply in_map_iff in Hr. destruct Hr as (r0 & <- & Hin).
    specialize (Hids r0 Hin). now destruct (has_id i r0).
Qed.

Lemma keys_without_id d i :
  keys_consistent d -> keys_consistent (without_id d i).
Proof.
  intros [Hnd Hids]. split.
  - cbn [books without_id]. now apply NoDup_map_filter.
  - intros r Hr. cbn [books auto_increment without_id] in *.
    apply filter_In in Hr. now apply Hids.
Qed.

(** X13. Unique identifiers below the AUTO_INCREMENT counter are an
    invariant of the API: if the table has them before a create, update or
    delete request, it has them afterwards, whatever the request holds and
    whatever it is answered. No request reuses or changes an identifier. *)
Theorem requests_keep_identifiers_unique
    (d d' : Database) (i : Z) (body : Body.t) (response : Response)
    (sent : list Statement) :
  keys_consistent d ->
  (serve (router_post body) d = (Done response, d', sent) -> keys_consistent d') /\
  (serve (router_put i body) d = (Done response, d', sent) -> keys_consistent d') /\
  (serve (router_delete i) d = (Done response, d', sent) -> keys_consistent d').
Proof.
  intros Hk. split; [|split].
  - intros H.
    destruct (router_post_effect _ _ _ _ _ H) as [-> | (c & _ & _ & ->)];
      [exact Hk | now apply keys_with_row].
  - intros H.
    destruct (router_put_effect _ _ _ _ _ _ H)
      as [-> | (c & r0 & more & _ & _ & _ & ->)];
      [exact Hk | now apply keys_with_columns].
  - intros H.
    destruct (router_delete_outcome _ _ _ _ _ H) as [(_ & _ & -> & _) | (_ & ->)];
      [|exact Hk].
    now apply keys_without_id.
Qed.

Lemma sample_keys_consistent : keys_consistent sample_library.
Proof. split; [exact sample_ids_unique | exact sample_ids_below_counter]. Qed.

Lemma requests_keep_identifiers_unique_witness :
  exists response d' sent,
    serve (router_post (title_and_author "Dune" "Frank Herbert")) sample_library
    = (Done response, d', sent) /\
    statusCode response = 201 /\ keys_consistent d'.
Proof.
  destruct (serve (router_post (title_and_author "Dune" "Frank Herbert"))
              sample_library) as [[[response|e] d'] sent] eqn:E;
    [|vm_compute in E; discriminate E].
  exists response, d', sent. split; [reflexivity|]. split.
  - vm_compute in E. now injection E as <- _ _.
  - exact (proj1 (requests_keep_identifiers_unique sample_library d' 0
                    (title_and_author "Dune" "Frank Herbert") response sent
                    sample_keys_consistent) E).
Defined.

Lemma as_text_fits column measure maxlen v o :
  as_text column measure maxlen v = Done o -> text_fits measure maxlen o.
Proof.
  unfold as_text, text_fits. intros H s E. subst o.
  destruct v as [| |b|n|t]; cbv zeta in H; try discriminate;
    match type of H with
    | (if Z.of_nat (measure ?x) <=? _ then _ else _) = _ =>
        destruct (Z.leb_spec (Z.of_nat (measure x)) maxlen) as [Hle|Hgt];
        [injection H as <-; exact Hle | discriminate]
    end.
Qed.

Lemma as_int_fits column v o :
  as_int column v = Done o -> int_fits o.
Proof.
  unfold as_int, int_fits. intros H n ->.
  assert (G : forall m,
             (if (-2147483648 <=? m) && (m <=? 2147483647)
              then Done (Some m)
              else @Thrown (option Z)
                     ("Out of range value for column '" ++ column ++ "'"))
             = Done (Some n) -> -2147483648 <= n <= 2147483647).
  { intros m Hm.
    destruct (Z.leb_spec (-2147483648) m), (Z.leb_spec m 2147483647);
      cbn [andb] in Hm; try discriminate. injection Hm as <-. lia. }
  destruct v as [| |b|m|t]; try discriminate.
  - now apply (G (if b then 1 else 0)).
  - now apply (G m).
  - destruct (NilZero.int_of_string t) as [parsed|]; [|discriminate].
    now apply (G (Z.of_int parsed)).
Qed.

Lemma check_rating_range r n :
  check_rating r = Done tt -> r = Some n -> 1 <= n <= 5.
Proof.
  intros H ->. cbn [check_rating] in H.
  destruct (Z.leb_spec 1 n), (Z.leb_spec n 5); cbn [andb] in H;
    try discriminate. lia.
Qed.

Lemma row_valid_columns p c (r : Book) :
  bind_columns p = Done c ->
  title r = c_title c -> author r = c_author c -> isbn r = c_isbn c ->
  genre r = c_genre c -> year_published r = c_year_published c ->
  rating r = c_rating c -> notes r = c_notes c ->
  row_valid r.
Proof.
  intros Hc Et Ea Ei Eg Ey Er En.
  destruct (bind_columns_done p c Hc) as (Ht & Ha & Hi & Hg & Hy & _ & Hr & Hk & Hn).
  unfold row_valid. rewrite Et, Ea, Ei, Eg, Ey, Er, En.
  repeat apply conj;
    try (eapply as_text_fits; eassumption);
    try (eapply as_int_fits; eassumption).
  intros n E. now apply (check_rating_range (c_rating c) n).
Qed.

Lemma check_unique_isbn_done s others :
  check_unique_isbn (Some s) others = Done tt ->
  forall r, In r others -> isbn r <> Some s.
Proof.
  cbn [check_unique_isbn].
  destruct (existsb _ others) eqn:E; [discriminate|].
  intros _ r Hr Hs. rewrite <- not_true_iff_false in E. apply E.
  apply existsb_exists. exists r. split; [exact Hr|].
  rewrite Hs. cbn [option_eqb]. apply String.eqb_refl.
Qed.

Lemma constraints_with_row d p c :
  constraints_hold d ->
  bind_columns p = Done c ->
  check_unique_isbn (c_isbn c) (books d) = Done tt ->
  constraints_hold (with_row d (new_row d c)).
Proof.
  intros [Hv Hu] Hc Hchk. split.
  - intros r Hr. cbn [books with_row] in Hr.
    apply in_app_or in Hr. destruct Hr as [Hr | [<- | []]]; [now apply Hv|].
    now apply (row_valid_columns p c).
  - intros r1 r2 s H1 H2 E1 E2. cbn [books with_row] in H1, H2.
    apply in_app_or in H1, H2.
    destruct H1 as [H1 | [<- | []]], H2 as [H2 | [<- | []]].
    + now apply (Hu r1 r2 s).
    + exfalso. cbn [isbn new_row] in E2. rewrite E2 in Hchk.
      now apply (check_unique_isbn_done s (books d) Hchk r1 H1).
    + exfalso. cbn [isbn new_row] in E1. rewrite E1 in Hchk.
      now apply (check_unique_isbn_done s (books d) Hchk r2 H2).
    + reflexivity.
Qed.

Lemma constraints_with_columns d i p c more :
  constraints_hold d ->
  bind_columns p = Done c ->
  check_unique_isbn (c_isbn c)
    (filter (fun r => negb (has_id i r)) (books d) ++ more) = Done tt ->
  constraints_hold (with_columns d i c).
Proof.
  intros [Hv Hu] Hc Hchk.
  assert (Hother : forall s r, c_isbn c = Some s -> In r (books d) ->
                               has_id i r = false -> isbn r <> Some s).
  { intros s r Es Hr Hid. rewrite Es in Hchk.
    apply (check_unique_isbn_done s _ Hchk). apply in_or_app. left.
    apply filter_In. split; [exact Hr | now rewrite Hid]. }
  split.
  - intros r Hr. cbn [books with_columns] in Hr.
    apply in_map_iff in Hr. destruct Hr as (r0 & <- & Hin).
    destruct (has_id i r0); [|now apply Hv].
    now apply (row_valid_columns p c).
  - intros r1 r2 s H1 H2 E1 E2. cbn [books with_columns] in H1, H2.
    apply in_map_iff in H1, H2.
    destruct H1 as (a & <- & Ha), H2 as (b & <- & Hb).
    destruct (has_id i a) eqn:Ia, (has_id i b) eqn:Ib.
    + cbn [id set_columns]. unfold has_id in Ia, Ib.
      apply Z.eqb_eq in Ia, Ib. congruence.
    + exfalso. cbn [isbn set_columns] in E1.
      now apply (Hother s b E1 Hb Ib).
    + exfalso. cbn [isbn set_columns] in E2.
      now apply (Hother s a E2 Ha Ia).
    + now apply (Hu a b s).
Qed.

Lemma constraints_without_id d i :
  constraints_hold d -> constraints_hold (without_id d i).
Proof.
  intros [Hv Hu]. split.
  - intros r Hr. cbn [books without_id] in Hr. apply filter_In in Hr. now apply Hv.
  - intros r1 r2 s H1 H2. cbn [books without_id] in H1, H2.
    apply filter_In in H1, H2. now apply Hu.
Qed.

(** X14. The constraints of the table are an invariant of the API: if every
    row fits its column types, has a rating between 1 and 5 or none, and no
    two records share an ISBN, then the same holds after a create, update
    or delete request, whatever the request holds and whatever it is
    answered. A request that would break a constraint stores nothing. *)
Theorem requests_keep_table_constraints
    (d d' : Database) (i : Z) (body : Body.t) (response : Response)
    (sent : list Statement) :
  constraints_hold d ->
  (serve (router_post body) d = (Done response, d', sent) -> constraints_hold d') /\
  (serve (router_put i body) d = (Done response, d', sent) -> constraints_hold d') /\
  (serve (router_delete i) d = (Done response, d', sent) -> constraints_hold d').
Proof.
  intros Hk. split; [|split].
  - intros H.
    destruct (router_post_effect _ _ _ _ _ H) as [-> | (c & Hc & Hu & ->)];
      [exact Hk | now apply (constraints_with_row d (params_of body) c)].
  - intros H.
    destruct (router_put_effect _ _ _ _ _ _ H)
      as [-> | (c & r0 & more & _ & Hc & Hu & ->)];
      [exact Hk | now apply (constraints_with_columns d i (params_of body) c more)].
  - intros H.
    destruct (router_delete_outcome _ _ _ _ _ H) as [(_ & _ & -> & _) | (_ & ->)];
      [|exact Hk].
    now apply constraints_without_id.
Qed.

Lemma sample_constraints_hold : constraints_hold sample_library.
Proof.
  split.
  - intros r [<- | [<- | [<- | []]]];
      unfold row_valid, text_fits, int_fits; repeat apply conj;
      intros x E; try discriminate E; injection E as <-;
      first [lia | apply Z.leb_le; vm_compute; reflexivity].
  - intros r1 r2 s [<- | [<- | [<- | []]]] [<- | [<- | [<- | []]]] E1 E2;
      try reflexivity; cbn in E1, E2; congruence.
Qed.

Lemma requests_keep_table_constraints_witness :
  exists response d' sent,
    serve (router_put 2 retitled_1984) sample_library
    = (Done response, d', sent) /\
    statusCode response = 200 /\ constraints_hold d'.
Proof.
  destruct (serve (router_put 2 retitled_1984) sample_library)
    as [[[response|e] d'] sent] eqn:E; [|vm_compute in E; discriminate E].
  exists response, d', sent. split; [reflexivity|]. split.
  - vm_compute in E. now injection E as <- _ _.
  - exact (proj1 (proj2 (requests_keep_table_constraints sample_library d' 2
                           retitled_1984 response sent sample_constraints_hold)) E).
Defined.

End RouteCoverage.

(* ================================================================== *)
(** * Further properties of the page script *)
(* ================================================================== *)

Section PageCoverage.
Import Js Schema Http Script.

(** ** Stars *)

Lemma stars_filled_cases (r : Z) :
  (r < 1 /\ stars_filled r = 0%nat) \/ (r = 1 /\ stars_filled r = 1%nat) \/
  (r = 2 /\ stars_filled r = 2%nat) \/ (r = 3 /\ stars_filled r = 3%nat) \/
  (r = 4 /\ stars_filled r = 4%nat) \/ (5 <= r /\ stars_filled r = 5%nat).
Proof. unfold stars_filled. lia. Qed.

(** X15. [generateStars] always draws five stars: the first
    min(max(rating, 0), 5) of them filled, the others empty. A rating below
    1 gives five empty stars and a rating above 5 five filled ones. *)
Theorem generateStars_fills_the_first_stars (rating : Z) :
  generateStars rating
  = times (stars_filled rating) filled_star
    ++ times (5 - stars_filled rating) empty_star.
Proof.
  destruct (stars_filled_cases rating)
    as [[H ->] | [[-> ->] | [[-> ->] | [[-> ->] | [[-> ->] | [H ->]]]]]];
    try reflexivity;
    unfold generateStars; cbn [fold_left];
    destruct (Z.leb_spec 1 rating), (Z.leb_spec 2 rating),
      (Z.leb_spec 3 rating), (Z.leb_spec 4 rating), (Z.leb_spec 5 rating);
    try lia; reflexivity.
Qed.

(** ** Escaping *)

Lemma map_cases (c : ascii) :
  (map c = None /\ ~ Spec.significant c) \/
  (c = "&"%char /\ map c = Some "&amp;") \/
  (c = "<"%char /\ map c = Some "&lt;") \/
  (c = ">"%char /\ map c = Some "&gt;") \/
  (c = ascii_of_nat 34 /\ map c = Some "&quot;") \/
  (c = "'"%char /\ map c = Some "&#039;").
Proof.
  unfold map, Spec.significant.
  destruct (Ascii.eqb_spec c "&") as [->|N1]; [tauto|].
  destruct (Ascii.eqb_spec c "<") as [->|N2]; [tauto|].
  destruct (Ascii.eqb_spec c ">") as [->|N3]; [tauto|].
  destruct (Ascii.eqb_spec c (ascii_of_nat 34)) as [->|N4]; [tauto|].
  destruct (Ascii.eqb_spec c "'") as [->|N5]; [tauto|].
  left. tauto.
Qed.

Lemma replace_length (s : string) :
  (String.length s <= String.length (replace s))%nat.
Proof.
  induction s as [|c s IH]; cbn [replace String.length]; [lia|].
  destruct (map_cases c)
    as [[-> _] | [[_ ->] | [[_ ->] | [[_ ->] | [[_ ->] | [_ ->]]]]]];
    cbn [append String.length]; lia.
Qed.

Lemma in_string_cons c a s :
  In c (list_ascii_of_string (String a s)) <-> a = c \/ In c (list_ascii_of_string s).
Proof. reflexivity. Qed.

Lemma replace_plain (s : string) : replace s = s <-> plain s.
Proof.
  unfold plain. induction s as [|a s IH]; cbn [replace].
  - split; [intros _ c [] | reflexivity].
  - destruct (map_cases a)
      as [[E Hn] | [[-> E] | [[-> E] | [[-> E] | [[-> E] | [-> E]]]]]];
      rewrite E.
    + split.
      * intros H. injection H as H. intros c [<- | Hc]; [exact Hn|].
        now apply (proj1 IH H).
      * intros H. f_equal. apply IH. intros c Hc. apply H. now right.
    + split.
      * intros H. cbn in H. injection H as H.
        pose proof (replace_length s) as L. rewrite <- H in L at 1.
        cbn [String.length] in L. lia.
      * intros H. exfalso. apply (H "&"%char); [now left|]. now left.
    + split; [discriminate|].
      intros H. exfalso. apply (H "<"%char); [now left|]. right. now left.
    + split; [discriminate|].
      intros H. exfalso. apply (H ">"%char); [now left|]. right. right. now left.
    + split; [discriminate|].
      intros H. exfalso. apply (H (ascii_of_nat 34)); [now left|].
      right. right. right. now left.
    + split; [discriminate|].
      intros H. exfalso. apply (H "'"%char); [now left|].
      right. right. right. now right.
Qed.

(** X16. [escapeHtml] returns a text unchanged exactly when none of the five
    characters occurs in it: ordinary titles, names and notes are shown as
    they were typed, and the result is never shorter than the text. *)
Theorem escapeHtml_keeps_plain_text (s : string) :
  (escapeHtml (Some s) = s <-> plain s) /\
  (String.length s <= String.length (escapeHtml (Some s)))%nat.
Proof.
  rewrite escapeHtml_Some. split; [apply replace_plain | apply replace_length].
Qed.

Lemma escapeHtml_keeps_plain_text_witness :
  escapeHtml (Some "To Kill a Mockingbird") = "To Kill a Mockingbird" /\
  escapeHtml (Some "Q & A") <> "Q & A".
Proof.
  split.
  - apply (proj1 (escapeHtml_keeps_plain_text "To Kill a Mockingbird")).
    intros c Hc. cbn in Hc.
    repeat (destruct Hc as [<- | Hc];
            [unfold Spec.significant; cbn; intuition discriminate|]).
    destruct Hc.
  - intros H.
    apply (proj1 (proj1 (escapeHtml_keeps_plain_text "Q & A")) H "&"%char).
    + cbn. tauto.
    + now left.
Defined.

Lemma replace_nonempty a s : replace (String a s) <> "".
Proof.
  cbn [replace].
  destruct (map_cases a)
    as [[-> _] | [[_ ->] | [[_ ->] | [[_ ->] | [[_ ->] | [_ ->]]]]]];
    discriminate.
Qed.

Lemma replace_injective (a b : string) : replace a = replace b -> a = b.
Proof.
  revert b. induction a as [|x a IH]; intros [|y b] H.
  - reflexivity.
  - symmetry in H. now apply replace_nonempty in H.
  - now apply replace_nonempty in H.
  - cbn [replace] in H.
    destruct (map_cases x)
      as [[Ex Nx] | [[-> Ex] | [[-> Ex] | [[-> Ex] | [[-> Ex] | [-> Ex]]]]]];
    destruct (map_cases y)
      as [[Ey Ny] | [[-> Ey] | [[-> Ey] | [[-> Ey] | [[-> Ey] | [-> Ey]]]]]];
    rewrite ?Ex, ?Ey in H; cbn [append] in H;
    try discriminate H;
    try (injection H as H; f_equal; now apply IH);
    try (injection H as -> H; f_equal; now apply IH);
    try (injection H as -> _; exfalso;
         first [apply Nx | apply Ny]; unfold Spec.significant; tauto);
    try (injection H as <- _; exfalso;
         first [apply Nx | apply Ny]; unfold Spec.significant; tauto).
Qed.

(** X17. [escapeHtml] loses nothing: two different texts are never escaped
    to the same markup. *)
Theorem escapeHtml_is_injective (a b : string) :
  escapeHtml (Some a) = escapeHtml (Some b) -> a = b.
Proof. rewrite !escapeHtml_Some. apply replace_injective. Qed.

Lemma escapeHtml_is_injective_witness :
  escapeHtml (Some "a<b") = "a&lt;b" /\ "a<b" = "a<b".
Proof.
  split; [reflexivity|].
  apply (escapeHtml_is_injective "a<b" "a<b"). reflexivity.
Defined.

(** ** Search and filter, composed *)

Lemma includes_empty (s : string) : includes s "" = true.
Proof. now destruct s. Qed.

Lemma search_test_empty toLowerCase (b : Book) :
  lower_cases_ascii toLowerCase -> search_test toLowerCase "" b = true.
Proof.
  intros Hl. unfold search_test. rewrite (Hl "" eq_refl). cbn [ascii_lower].
  now rewrite includes_empty.
Qed.

Lemma filter_all {A} (f : A -> bool) (l : list A) :
  (forall x, f x = true) -> filter f l = l.
Proof.
  intros H. induction l as [|x l IH]; cbn [filter]; [reflexivity|].
  now rewrite H, IH.
Qed.

(** X18. With an empty search field every book passes the search: the
    search handler shows the whole fetched list when all statuses are
    selected, and otherwise exactly the fetched books of the selected
    status. Clearing the field undoes an earlier search. *)
Theorem empty_search_shows_every_book
    (toLowerCase : string -> string) (p : Page) (rows : list Book) :
  lower_cases_ascii toLowerCase ->
  books p = JsonBooks rows ->
  (filterStatus p = "" ->
   filteredBooks (on_search_input toLowerCase "" p) = rows) /\
  (forall b, In b (filteredBooks (on_search_input toLowerCase "" p)) <->
             In b rows /\ Spec.has_selected_status (filterStatus p) b).
Proof.
  intros Hl Hb. destruct (on_search_input_array toLowerCase "" p rows Hb) as [-> _].
  rewrite (filter_all (search_test toLowerCase "") rows
             (fun b => search_test_empty toLowerCase b Hl)). split.
  - now intros ->.
  - intros b. destruct (String.eqb_spec (filterStatus p) "") as [E|E].
    + split; [intros H; split; [exact H | now left] | tauto].
    + now rewrite filter_In, (status_test_selected _ b E).
Qed.

Lemma empty_search_shows_every_book_witness :
  filteredBooks (on_search_input ascii_lower "orwell" sample_page)
  = [nineteen_eighty_four] /\
  filteredBooks (on_search_input ascii_lower ""
                   (on_search_input ascii_lower "orwell" sample_page))
  = [gatsby; nineteen_eighty_four; mockingbird].
Proof.
  split; [reflexivity|].
  apply (proj1 (empty_search_shows_every_book ascii_lower
                  (on_search_input ascii_lower "orwell" sample_page)
                  [gatsby; nineteen_eighty_four; mockingbird]
                  (fun s _ => eq_refl) eq_refl)).
  reflexivity.
Defined.

Lemma includes_longer (s before q after : string) :
  includes s (before ++ q ++ after) = true -> includes s q = true.
Proof.
  rewrite !includes_occurs. intros (x & y & ->).
  exists (x ++ before), (after ++ y). now rewrite !append_assoc.
Qed.

Lemma search_test_longer toLowerCase before typed after b :
  lower_cases_ascii toLowerCase ->
  ascii_text (before ++ typed ++ after) = true ->
  search_test toLowerCase (before ++ typed ++ after) b = true ->
  search_test toLowerCase typed b = true.
Proof.
  intros Hl Hq.
  assert (Ht : ascii_text typed = true).
  { rewrite !ascii_text_append, !andb_true_iff in Hq. tauto. }
  unfold search_test. rewrite (Hl _ Hq), (Hl _ Ht).
  rewrite !ascii_lower_append, !orb_true_iff.
  intros [H | H]; [left | right]; now apply includes_longer in H.
Qed.

(** X19. Typing more narrows the search: when the text in the search field
    is extended, at either end, and the longer text is within ASCII, every
    book shown for the longer text was shown for the shorter one, whatever
    the titles and authors are. [toLowerCase] is any function that
    lower-cases ASCII text as ECMAScript's does. *)
Theorem longer_search_shows_fewer_books
    (toLowerCase : string -> string) (p : Page) (rows : list Book)
    (before typed after : string) :
  lower_cases_ascii toLowerCase ->
  ascii_text (before ++ typed ++ after) = true ->
  books p = JsonBooks rows ->
  incl (filteredBooks (on_search_input toLowerCase (before ++ typed ++ after) p))
       (filteredBooks (on_search_input toLowerCase typed p)).
Proof.
  intros Hl Hq Hb.
  destruct (on_search_input_array toLowerCase (before ++ typed ++ after) p rows Hb)
    as [-> _].
  destruct (on_search_input_array toLowerCase typed p rows Hb) as [-> _].
  intros b. destruct (filterStatus p =? "")%string; rewrite !filter_In.
  - intros [Hr Hs]. split; [exact Hr|].
    now apply (search_test_longer toLowerCase before typed after b Hl Hq).
  - intros [[Hr Hs] Ht]. repeat split; try assumption.
    now apply (search_test_longer toLowerCase before typed after b Hl Hq).
Qed.

Lemma longer_search_shows_fewer_books_witness :
  incl (filteredBooks (on_search_input ascii_lower "george orwell" sample_page))
       (filteredBooks (on_search_input ascii_lower "or" sample_page)) /\
  filteredBooks (on_search_input ascii_lower "george orwell" sample_page)
  = [nineteen_eighty_four] /\
  filteredBooks (on_search_input ascii_lower "or" sample_page)
  = [nineteen_eighty_four].
Proof.
  split; [|split; reflexivity].
  exact (longer_search_shows_fewer_books ascii_lower sample_page
           [gatsby; nineteen_eighty_four; mockingbird] "george " "or" "well"
           (fun s _ => eq_refl) eq_refl eq_refl).
Defined.

Lemma applyStatusFilter_filterStatus p :
  filterStatus (applyStatusFilter p) = filterStatus p.
Proof. unfold applyStatusFilter. now destruct (truthy (str (filterStatus p))). Qed.

Lemma on_filter_change_filterStatus selected p :
  filterStatus (on_filter_change selected p) = selected.
Proof.
  unfold on_filter_change, handleFilter.
  destruct (renderBooks_state (applyStatusFilter (set_filterStatus selected p)))
    as (_ & _ & ->).
  now rewrite applyStatusFilter_filterStatus.
Qed.

(** X20. Starting with all statuses selected, searching and then selecting
    a status shows the same books as selecting the status and then
    searching, whatever [toLowerCase] does: the two controls commute as long
    as the status filter is set once. With a [toLowerCase] that lower-cases
    ASCII text as ECMAScript's does and a typed text within ASCII, a book
    whose title and author are within ASCII is among them exactly when it is
    a fetched book that matches the search and has the selected status. *)
Theorem search_and_first_filter_commute
    (toLowerCase : string -> string) (p : Page) (rows : list Book)
    (typed selected : string) :
  books p = JsonBooks rows ->
  filterStatus p = "" ->
  filteredBooks (on_filter_change selected (on_search_input toLowerCase typed p))
  = filteredBooks (on_search_input toLowerCase typed (on_filter_change selected p)) /\
  (lower_cases_ascii toLowerCase -> ascii_text typed = true ->
   forall b,
     ascii_text (title b) = true -> ascii_text (author b) = true ->
     (In b (filteredBooks
              (on_filter_change selected (on_search_input toLowerCase typed p)))
      <-> In b rows /\ Spec.matches_search typed b /\
          Spec.has_selected_status selected b)).
Proof.
  intros Hb Hall.
  destruct (on_filter_change_state selected (on_search_input toLowerCase typed p))
    as [-> _].
  destruct (on_search_input_array toLowerCase typed p rows Hb) as [-> _].
  rewrite Hall. cbn [String.eqb].
  assert (Hb' : books (on_filter_change selected p) = JsonBooks rows).
  { destruct (on_filter_change_state selected p) as [_ ->]. exact Hb. }
  destruct (on_search_input_array toLowerCase typed _ rows Hb') as [-> _].
  rewrite on_filter_change_filterStatus. split; [reflexivity|].
  intros Hl Hq b Ht Ha.
  pose proof (search_test_matches toLowerCase typed b Hl Hq Ht Ha) as Hm.
  destruct (String.eqb_spec selected "") as [E|E].
  - rewrite filter_In, Hm. split; [|tauto].
    intros [H1 H2]. repeat split; try assumption. now left.
  - now rewrite !filter_In, Hm, (status_test_selected _ b E).
Qed.

Lemma search_and_first_filter_commute_witness :
  filteredBooks (on_filter_change "read"
                   (on_search_input ascii_lower "the" sample_page))
  = filteredBooks (on_search_input ascii_lower "the"
                     (on_filter_change "read" sample_page)) /\
  filteredBooks (on_filter_change "read"
                   (on_search_input ascii_lower "the" sample_page))
  = [gatsby] /\
  (In gatsby (filteredBooks
                (on_filter_change "read"
                   (on_search_input ascii_lower "the" sample_page)))
   <-> In gatsby [gatsby; nineteen_eighty_four; mockingbird] /\
       Spec.matches_search "the" gatsby /\
       Spec.has_selected_status "read" gatsby).
Proof.
  split; [|split; [reflexivity|]].
  - exact (proj1 (search_and_first_filter_commute ascii_lower sample_page
                    [gatsby; nineteen_eighty_four; mockingbird] "the" "read"
                    eq_refl eq_refl)).
  - exact (proj2 (search_and_first_filter_commute ascii_lower sample_page
                    [gatsby; nineteen_eighty_four; mockingbird] "the" "read"
                    eq_refl eq_refl)
             (fun s _ => eq_refl) eq_refl gatsby eq_refl eq_refl).
Defined.

Lemma status_tests_exclude a b (book : Book) :
  a <> b -> status_test a book = true -> status_test b book = false.
Proof.
  unfold status_test. destruct (status_value (status book)); try discriminate.
  rewrite String.eqb_eq. intros Hab ->. now apply String.eqb_neq.
Qed.

Lemma filter_filter_same {A} (f : A -> bool) (l : list A) :
  filter f (filter f l) = filter f l.
Proof.
  rewrite filter_both. apply filter_ext. intros x. now destruct (f x).
Qed.

Lemma filter_excluded {A} (f g : A -> bool) (l : list A) :
  (forall x, f x = true -> g x = false) -> filter g (filter f l) = [].
Proof.
  intros H. induction l as [|x l IH]; cbn [filter]; [reflexivity|].
  destruct (f x) eqn:E; [|exact IH]. cbn [filter]. now rewrite (H x E).
Qed.

(** X21. A change of the status filter never adds a book to the displayed
    list and never changes [books]. Selecting the same status again changes
    nothing more, and selecting a different status right after one was
    selected leaves the list empty, since a book has one status. *)
Theorem filter_change_only_narrows (p : Page) (first second : string) :
  incl (filteredBooks (on_filter_change first p)) (filteredBooks p) /\
  (List.length (filteredBooks (on_filter_change first p))
   <= List.length (filteredBooks p))%nat /\
  books (on_filter_change first p) = books p /\
  filteredBooks (on_filter_change first (on_filter_change first p))
  = filteredBooks (on_filter_change first p) /\
  (first <> "" -> second <> "" -> first <> second ->
   filteredBooks (on_filter_change second (on_filter_change first p)) = []).
Proof.
  destruct (on_filter_change_state first p) as [Hf Hb].
  split; [|split; [|split; [exact Hb|split]]].
  - rewrite Hf. destruct (first =? "")%string; [apply incl_refl|].
    apply incl_filter.
  - rewrite Hf. destruct (first =? "")%string; [lia|]. apply filter_length_le.
  - destruct (on_filter_change_state first (on_filter_change first p)) as [-> _].
    rewrite Hf. destruct (first =? "")%string; [reflexivity|].
    apply filter_filter_same.
  - intros H1 H2 H12.
    destruct (on_filter_change_state second (on_filter_change first p)) as [-> _].
    rewrite Hf.
    apply String.eqb_neq in H1, H2. rewrite H1, H2.
    apply filter_excluded. intros b. now apply status_tests_exclude.
Qed.

Lemma filter_change_only_narrows_witness :
  filteredBooks (on_filter_change "reading" (on_filter_change "read" sample_page))
  = [].
Proof.
  apply (filter_change_only_narrows sample_page "read" "reading"); discriminate.
Defined.

(** ** The page against the API *)

Lemma loadBooks_array_rest status rows p :
  alerts (loadBooks (Resolved status (Some (JsonBooks rows))) p) = alerts p /\
  searchInput (loadBooks (Resolved status (Some (JsonBooks rows))) p) = searchInput p /\
  filterStatus (loadBooks (Resolved status (Some (JsonBooks rows))) p) = filterStatus p /\
  editModal (loadBooks (Resolved status (Some (JsonBooks rows))) p) = editModal p.
Proof.
  unfold loadBooks, renderBooks. cbn [books set_books].
  now destruct (List.length _ =? 0)%nat.
Qed.

(** X22. With the database reachable, a page load against [GET /] puts
    every row of the table into [books], newest first, and displays all of
    them: [filteredBooks] is the same list, whatever text is in the search
    field and whichever status is selected, and both stay in their
    controls. No notice is shown. *)
Theorem page_load_shows_the_whole_table (d : Db.Database) (p : Page) :
  reachable d ->
  exists response rows,
    Routes.serve Routes.router_get d
    = (Db.Done response, d, [Routes.SelectAll]) /\
    books (loadBooks (delivered response) p) = JsonBooks rows /\
    filteredBooks (loadBooks (delivered response) p) = rows /\
    Permutation rows (Db.books d) /\
    newest_to_oldest rows /\
    alerts (loadBooks (delivered response) p) = alerts p /\
    searchInput (loadBooks (delivered response) p) = searchInput p /\
    filterStatus (loadBooks (delivered response) p) = filterStatus p.
Proof.
  intros Hon. rewrite router_get_run, (connected_reachable d _ _ Hon).
  unfold Db.select_all. eexists _, _. split; [reflexivity|].
  unfold delivered. cbn [statusCode payload].
  destruct (loadBooks_array 200 (fold_right Db.newest_first [] (Db.books d)) p)
    as [-> ->].
  destruct (loadBooks_array_rest 200 (fold_right Db.newest_first [] (Db.books d)) p)
    as (-> & -> & -> & _).
  destruct (select_all_rows (Db.books d)) as [Hp Hs].
  now repeat split.
Qed.

Lemma page_load_shows_the_whole_table_witness :
  exists response rows,
    Routes.serve Routes.router_get sample_library
    = (Db.Done response, sample_library, [Routes.SelectAll]) /\
    filteredBooks
      (loadBooks (delivered response)
         (on_search_input ascii_lower "orwell" sample_page)) = rows /\
    List.length rows = 3%nat.
Proof.
  destruct (page_load_shows_the_whole_table sample_library
              (on_search_input ascii_lower "orwell" sample_page)
              (fun _ => eq_refl))
    as (response & rows & Hs & _ & Hf & Hp & _).
  exists response, rows. split; [exact Hs|]. split; [exact Hf|].
  now rewrite (Permutation_length Hp).
Defined.

Lemma loadStatistics_frame response p :
  alerts (loadStatistics response p) = alerts p /\
  books (loadStatistics response p) = books p /\
  filteredBooks (loadStatistics response p) = filteredBooks p /\
  booksList (loadStatistics response p) = booksList p /\
  editModal (loadStatistics response p) = editModal p.
Proof.
  destruct response as [reason | status [[rows|row|stats|message|error]|]];
    now repeat split.
Qed.

(** X23. Loading the statistics never shows a notice and never touches the
    book lists or the rendered cards, whatever the fetch brings. With the
    database reachable the four cards show the number of rows and the
    numbers of rows per status; an error object as body shows four
    zeros. *)
Theorem statistics_cards_show_the_counts (d : Db.Database) (p : Page) :
  (forall response,
     alerts (loadStatistics response p) = alerts p /\
     books (loadStatistics response p) = books p /\
     filteredBooks (loadStatistics response p) = filteredBooks p /\
     booksList (loadStatistics response p) = booksList p) /\
  (forall status error,
     let p' := loadStatistics (Resolved status (Some (JsonError error))) p in
     totalBooks p' = 0 /\ booksRead p' = 0 /\ booksReading p' = 0 /\
     booksToRead p' = 0) /\
  (reachable d ->
   exists response,
     Routes.serve Routes.router_get_stats_overview d
     = (Db.Done response, d, [Routes.SelectStats]) /\
     let p' := loadStatistics (delivered response) p in
     totalBooks p' = Z.of_nat (List.length (Db.books d)) /\
     booksRead p' = Z.of_nat (List.length (Spec.with_status Read (Db.books d))) /\
     booksReading p'
     = Z.of_nat (List.length (Spec.with_status Reading (Db.books d))) /\
     booksToRead p'
     = Z.of_nat (List.length (Spec.with_status ToRead (Db.books d)))).
Proof.
  split; [|split].
  - intros response. destruct (loadStatistics_frame response p) as (? & ? & ? & ? & _).
    now repeat split.
  - intros status error. now repeat split.
  - intros Hon. rewrite router_get_stats_overview_run, (select_stats_online d Hon).
    eexists. split; [reflexivity|].
    unfold delivered. cbn [statusCode payload nth_error option_map].
    unfold loadStatistics.
    cbn [total_books books_read books_reading books_to_read
         totalBooks booksRead booksReading booksToRead set_statistics truthy].
    assert (G : forall n, (if negb (n =? 0) then n else 0) = n).
    { intros n. destruct (Z.eqb_spec n 0); cbn [negb]; congruence. }
    now rewrite !G.
Qed.

Lemma statistics_cards_show_the_counts_witness :
  exists response,
    Routes.serve Routes.router_get_stats_overview sample_library
    = (Db.Done response, sample_library, [Routes.SelectStats]) /\
    totalBooks (loadStatistics (delivered response) initial) = 3 /\
    booksRead (loadStatistics (delivered response) initial) = 2.
Proof.
  destruct (proj2 (proj2 (statistics_cards_show_the_counts sample_library initial))
              (fun _ => eq_refl)) as (response & Hs & Ht & Hr & _).
  exists response. split; [exact Hs|]. split.
  - rewrite Ht. reflexivity.
  - rewrite Hr. reflexivity.
Defined.

Lemma router_get_online d :
  reachable d ->
  Routes.serve Routes.router_get d
  = (Db.Done {| statusCode := 200;
                payload := Some (JsonBooks (fold_right Db.newest_first [] (Db.books d))) |},
     d, [Routes.SelectAll]).
Proof.
  intros Hon. now rewrite router_get_run, (connected_reachable d _ _ Hon).
Qed.

Lemma router_get_stats_overview_online d :
  reachable d ->
  exists s,
    Routes.serve Routes.router_get_stats_overview d
    = (Db.Done {| statusCode := 200; payload := Some (JsonStats s) |},
       d, [Routes.SelectStats]) /\
    total_books s = Z.of_nat (List.length (Db.books d)).
Proof.
  intros Hon. rewrite router_get_stats_overview_run, (select_stats_online d Hon).
  eexists. split; reflexivity.
Qed.

Lemma handleAddBook_failed status body reload stats p :
  ok status = false ->
  handleAddBook (Resolved status body) reload stats p
  = showError "Failed to add book" p.
Proof. unfold handleAddBook. now intros ->. Qed.

Lemma handleAddBook_reloaded status body rows s p :
  ok status = true ->
  let p' := handleAddBook (Resolved status body)
              (Resolved 200 (Some (JsonBooks rows)))
              (Resolved 200 (Some (JsonStats s))) p in
  books p' = JsonBooks rows /\ filteredBooks p' = rows /\
  alerts p' = (alerts p ++ ["Book added successfully!"])%list /\
  totalBooks p' = total_books s.
Proof.
  intros Hok. unfold handleAddBook. rewrite Hok. cbn [negb].
  unfold showSuccess, alert.
  cbn [books filteredBooks alerts totalBooks].
  destruct (loadStatistics_frame (Resolved 200 (Some (JsonStats s)))
              (loadBooks (Resolved 200 (Some (JsonBooks rows))) p))
    as (-> & -> & -> & _).
  destruct (loadBooks_array 200 rows p) as [-> ->].
  destruct (loadBooks_array_rest 200 rows p) as (-> & _).
  repeat split.
  unfold loadStatistics. cbn [totalBooks set_statistics truthy].
  now destruct (Z.eqb_spec (total_books s) 0) as [->|].
Qed.

(** X24. The add flow against a reachable database has two outcomes. When
    the POST is answered 201, the new record is the last row of the table,
    the page holds and displays every row of the new table, the total on
    the statistics card is one more than the rows before, and the last
    notice is the success message. Otherwise the table, [books] and
    [filteredBooks] are as before and the only new notice is the failure
    message. *)
Theorem add_flow_reloads_or_reports (body : Body.t) (d : Db.Database) (p : Page) :
  reachable d ->
  ids_below_counter d ->
  exists response,
    fst (fst (Routes.serve (Routes.router_post body) d)) = Db.Done response /\
    ((statusCode response = 201 /\
      exists row rows,
        payload response = Some (JsonBook row) /\
        Db.books (snd (add_flow body d p)) = (Db.books d ++ [row])%list /\
        books (fst (add_flow body d p)) = JsonBooks rows /\
        filteredBooks (fst (add_flow body d p)) = rows /\
        Permutation rows (Db.books d ++ [row]) /\
        totalBooks (fst (add_flow body d p))
        = Z.of_nat (List.length (Db.books d)) + 1 /\
        alerts (fst (add_flow body d p))
        = (alerts p ++ ["Book added successfully!"])%list) \/
     (statusCode response <> 201 /\
      snd (add_flow body d p) = d /\
      books (fst (add_flow body d p)) = books p /\
      filteredBooks (fst (add_flow body d p)) = filteredBooks p /\
      alerts (fst (add_flow body d p))
      = (alerts p ++ ["Failed to add book"])%list)).
Proof.
  intros Hon Hids. unfold add_flow. rewrite router_post_run.
  destruct (negb (truthy (Body.title body)) || negb (truthy (Body.author body))).
  { exists validation_error. split; [reflexivity|]. right.
    split; [discriminate|].
    rewrite (router_get_online d Hon).
    destruct (router_get_stats_overview_online d Hon) as (s & -> & _).
    unfold delivered, validation_error. cbn [statusCode payload fst snd].
    now rewrite handleAddBook_failed. }
  rewrite (connected_reachable d _ _ Hon).
  destruct (Db.insert d (params_of body)) as [[d1 h]|e] eqn:E.
  2:{ exists (error_response e). split; [reflexivity|]. right.
      split; [discriminate|].
      rewrite (router_get_online d Hon).
      destruct (router_get_stats_overview_online d Hon) as (s & -> & _).
      unfold delivered, error_response. cbn [statusCode payload fst snd].
      now rewrite handleAddBook_failed. }
  destruct (insert_done d _ d1 h E) as (c & _ & _ & -> & ->).
  assert (Hon1 : reachable (with_row d (new_row d c))) by exact Hon.
  rewrite (select_by_id_online _ _ _ (Hon1 _)), (router_get_online _ Hon1).
  destruct (router_get_stats_overview_online _ Hon1) as (s & -> & Hs).
  cbn [Db.insertId Db.books with_row].
  rewrite (filter_has_id_last (Db.auto_increment d) (Db.books d) (new_row d c)
             Hids eq_refl).
  cbn [nth_error option_map].
  eexists. split; [reflexivity|]. left. split; [reflexivity|].
  unfold delivered. cbn [statusCode payload fst snd].
  destruct (handleAddBook_reloaded 201 (Some (JsonBook (new_row d c)))
              (fold_right Db.newest_first [] (Db.books d ++ [new_row d c])) s p
              eq_refl)
    as (Hb & Hf & Ha & Ht).
  exists (new_row d c), (fold_right Db.newest_first [] (Db.books d ++ [new_row d c])).
  split; [reflexivity|]. split; [reflexivity|].
  split; [exact Hb|]. split; [exact Hf|].
  split; [apply select_all_rows|]. split; [|exact Ha].
  rewrite Ht, Hs. cbn [Db.books with_row]. rewrite length_app. cbn [List.length]. lia.
Qed.

Lemma add_flow_reloads_or_reports_witness :
  exists row,
    Db.books (snd (add_flow (title_and_author "Dune" "Frank Herbert")
                     sample_library sample_page))
    = [gatsby; nineteen_eighty_four; mockingbird; row] /\
    totalBooks (fst (add_flow (title_and_author "Dune" "Frank Herbert")
                       sample_library sample_page)) = 4.
Proof.
  destruct (add_flow_reloads_or_reports (title_and_author "Dune" "Frank Herbert")
              sample_library sample_page (fun _ => eq_refl)
              sample_ids_below_counter)
    as (response & _ & [(_ & row & rows & _ & Hd & _ & _ & _ & Ht & _) | (_ & Hd & _)]).
  - exists row. split; [exact Hd | exact Ht].
  - vm_compute in Hd. discriminate Hd.
Defined.

Lemma deleteBook_failed status body reload stats p :
  ok status = false ->
  deleteBook true (Resolved status body) reload stats p
  = showError "Failed to delete book" p.
Proof. unfold deleteBook. cbn [negb]. now intros ->. Qed.

Lemma deleteBook_reloaded status body rows s p :
  ok status = true ->
  let p' := deleteBook true (Resolved status body)
              (Resolved 200 (Some (JsonBooks rows)))
              (Resolved 200 (Some (JsonStats s))) p in
  books p' = JsonBooks rows /\ filteredBooks p' = rows /\
  alerts p' = (alerts p ++ ["Book deleted successfully!"])%list.
Proof.
  intros Hok. unfold deleteBook. rewrite Hok. cbn [negb].
  unfold showSuccess, alert.
  cbn [books filteredBooks alerts].
  destruct (loadStatistics_frame (Resolved 200 (Some (JsonStats s)))
              (loadBooks (Resolved 200 (Some (JsonBooks rows))) p))
    as (-> & -> & -> & _).
  destruct (loadBooks_array 200 rows p) as [-> ->].
  destruct (loadBooks_array_rest 200 rows p) as (-> & _).
  now repeat split.
Qed.

(** X25. The delete flow, once confirmed, against a reachable database:
    when a row has the identifier, the table loses the rows with it, the
    page holds and displays the remaining rows, none of which has the
    identifier, and the last notice is the success message; when no row has
    it, the table and both lists are as before and the only new notice is
    the failure message. A declined confirmation changes nothing. *)
Theorem delete_flow_removes_or_reports (bookId : Z) (d : Db.Database) (p : Page) :
  reachable d ->
  ((exists r, In r (Db.books d) /\ id r = bookId) ->
   exists rows,
     Db.books (snd (delete_flow bookId d p))
     = filter (fun x => negb (id x =? bookId)) (Db.books d) /\
     books (fst (delete_flow bookId d p)) = JsonBooks rows /\
     filteredBooks (fst (delete_flow bookId d p)) = rows /\
     Permutation rows (filter (fun x => negb (id x =? bookId)) (Db.books d)) /\
     (forall b, In b rows -> id b <> bookId) /\
     alerts (fst (delete_flow bookId d p))
     = (alerts p ++ ["Book deleted successfully!"])%list) /\
  ((forall r, In r (Db.books d) -> id r <> bookId) ->
   snd (delete_flow bookId d p) = d /\
   books (fst (delete_flow bookId d p)) = books p /\
   filteredBooks (fst (delete_flow bookId d p)) = filteredBooks p /\
   alerts (fst (delete_flow bookId d p))
   = (alerts p ++ ["Failed to delete book"])%list) /\
  (forall response reload stats,
     deleteBook false response reload stats p = p).
Proof.
  intros Hon. split; [|split; [|reflexivity]].
  - intros (r & Hr & Hid).
    destruct (proj2 (delete_removes_rows d bookId Hon) r Hr Hid) as (d' & Hs & Hb & Hon').
    unfold delete_flow. rewrite Hs, (router_get_online d' Hon').
    destruct (router_get_stats_overview_online d' Hon') as (s & -> & _).
    unfold delivered. cbn [statusCode payload fst snd].
    destruct (deleteBook_reloaded 200 (Some (JsonMessage "Book deleted successfully"))
                (fold_right Db.newest_first [] (Db.books d')) s p eq_refl)
      as (Hbk & Hf & Ha).
    exists (fold_right Db.newest_first [] (Db.books d')).
    split; [exact Hb|]. split; [exact Hbk|]. split; [exact Hf|].
    destruct (select_all_rows (Db.books d')) as [Hp _].
    split; [now rewrite <- Hb|]. split; [|exact Ha].
    intros b Hin. apply (Permutation_in _ Hp) in Hin. rewrite Hb in Hin.
    apply filter_In in Hin. destruct Hin as [_ Hin].
    apply negb_true_iff in Hin. now apply Z.eqb_neq.
  - intros Hnone. unfold delete_flow.
    rewrite (proj1 (delete_removes_rows d bookId Hon) Hnone),
      (router_get_online d Hon).
    destruct (router_get_stats_overview_online d Hon) as (s & -> & _).
    unfold delivered, not_found. cbn [statusCode payload fst snd].
    now rewrite deleteBook_failed.
Qed.

Lemma delete_flow_removes_or_reports_witness :
  Db.books (snd (delete_flow 2 sample_library sample_page))
  = [gatsby; mockingbird] /\
  alerts (fst (delete_flow 9 sample_library sample_page))
  = ["Failed to delete book"].
Proof.
  destruct (delete_flow_removes_or_reports 2 sample_library sample_page
              (fun _ => eq_refl))
    as (Hfound & _).
  destruct (delete_flow_removes_or_reports 9 sample_library sample_page
              (fun _ => eq_refl))
    as (_ & Hnone & _).
  split.
  - destruct Hfound as (rows & Hd & _).
    + exists nineteen_eighty_four. split; [cbn; tauto | reflexivity].
    + rewrite Hd. reflexivity.
  - destruct Hnone as (_ & _ & _ & Ha).
    + intros r [<- | [<- | [<- | []]]]; discriminate.
    + rewrite Ha. reflexivity.
Defined.

End PageCoverage.

(* ================================================================== *)
(** * Properties of the forms *)
(* ================================================================== *)

Section FormsCoverage.
Import Js Schema Http Script Forms.

(** ** Numbers as the text of a field *)

Lemma decimal_parses (n : Z) :
  NilZero.int_of_string (decimal n) = Some (Z.to_int n).
Proof.
  unfold decimal. apply NilZero.isi.
  - destruct n; cbn; try discriminate.
    intros H. injection H as H. now apply Unsigned.to_uint_nonnil in H.
  - destruct n; cbn; try discriminate.
    intros H. injection H as H. now apply Unsigned.to_uint_nonnil in H.
Qed.

Lemma decimal_nonempty (n : Z) : (decimal n =? "")%string = false.
Proof.
  apply String.eqb_neq. intros H.
  pose proof (decimal_parses n) as P. rewrite H in P. discriminate P.
Qed.

Lemma or_empty_text (s : string) : interpolate (or (str s) (str "")) = s.
Proof.
  unfold or. cbn [truthy]. destruct (String.eqb_spec s "") as [->|]; reflexivity.
Qed.

(** ** Opening the edit form *)

(** X26. [openEditModal] leaves the page and the form alone when no fetched
    book has the identifier. Otherwise it opens the modal without touching
    the book lists, and fills the form from the first fetched book with that
    identifier: the hidden field holds the identifier in decimal, which
    reads back as the same number, and the title and author fields hold the
    stored title and author. *)
Theorem openEditModal_fills_the_form
    (bookId : Z) (p : Page) (f : EditForm) :
  ((forall r, In r (Spec.fetched (books p)) -> id r <> bookId) ->
   openEditModal bookId p f = (p, f)) /\
  (forall r, In r (Spec.fetched (books p)) -> id r = bookId ->
   exists book,
     In book (Spec.fetched (books p)) /\ id book = bookId /\
     editModal (fst (openEditModal bookId p f)) = true /\
     books (fst (openEditModal bookId p f)) = books p /\
     filteredBooks (fst (openEditModal bookId p f)) = filteredBooks p /\
     edit_bookId (snd (openEditModal bookId p f)) = Some bookId /\
     editTitle (snd (openEditModal bookId p f)) = title book /\
     editAuthor (snd (openEditModal bookId p f)) = author book).
Proof.
  unfold openEditModal. split.
  - intros Hnone. destruct (books p) as [rows| | | |]; try reflexivity.
    destruct (find (fun b => id b =? bookId) rows) as [book|] eqn:E; [|reflexivity].
    apply find_some in E. destruct E as [Hin Hid].
    exfalso. apply (Hnone book Hin). now apply Z.eqb_eq.
  - intros r Hr Hid. destruct (books p) as [rows| | | |] eqn:Eb; try contradiction.
    cbn [Spec.fetched] in Hr.
    destruct (find (fun b => id b =? bookId) rows) as [book|] eqn:E.
    + pose proof (find_some _ _ E) as [Hin Hb]. apply Z.eqb_eq in Hb.
      exists book. cbn [fst snd Spec.fetched]. repeat split; try assumption.
      * unfold edit_bookId. cbn [editBookId interpolate].
        rewrite decimal_parses. cbn [option_map].
        now rewrite DecimalZ.of_to, Hb.
      * cbn [editTitle]. apply or_empty_text.
      * cbn [editAuthor]. apply or_empty_text.
    + exfalso. apply (find_none _ _ E) in Hr. now apply Z.eqb_neq in Hr.
Qed.

Lemma openEditModal_fills_the_form_witness :
  openEditModal 9 sample_page blank_form = (sample_page, blank_form) /\
  exists book,
    id book = 2 /\
    edit_bookId (snd (openEditModal 2 sample_page blank_form)) = Some 2 /\
    editTitle (snd (openEditModal 2 sample_page blank_form)) = title book.
Proof.
  destruct (openEditModal_fills_the_form 9 sample_page blank_form) as [Hnone _].
  destruct (openEditModal_fills_the_form 2 sample_page blank_form) as [_ Hfound].
  split.
  - apply Hnone. intros r [<- | [<- | [<- | []]]]; discriminate.
  - destruct (Hfound nineteen_eighty_four) as (book & _ & Hid & _ & _ & _ & Hb & Ht & _).
    + cbn. tauto.
    + reflexivity.
    + now exists book.
Defined.

(** ** Saving the edit form *)

Lemma as_text_str column measure maxlen t :
  Z.of_nat (measure t) <= maxlen ->
  Db.as_text column measure maxlen (str t) = Db.Done (Some t).
Proof.
  intros H. cbn [Db.as_text].
  now destruct (Z.leb_spec (Z.of_nat (measure t)) maxlen); [|lia].
Qed.

Lemma optional_text_field column measure maxlen o :
  text_fits measure maxlen o ->
  Db.as_text column measure maxlen
    (or (str (interpolate (or (text o) (str "")))) null)
  = Db.Done (nonempty o).
Proof.
  intros H. destruct o as [[|c t]|]; try reflexivity.
  unfold or. cbn [text truthy String.eqb negb interpolate nonempty].
  apply as_text_str. now apply H.
Qed.

Lemma optional_int_field column o :
  int_fits o ->
  Db.as_int column (or (str (interpolate (or (int o) (str "")))) null)
  = Db.Done (nonzero o).
Proof.
  intros H. destruct o as [n|]; [|reflexivity].
  unfold or. cbn [int truthy].
  destruct (Z.eqb_spec n 0) as [->|Hn]; [reflexivity|].
  cbn [negb interpolate truthy]. rewrite decimal_nonempty. cbn [negb Db.as_int].
  rewrite decimal_parses, DecimalZ.of_to.
  specialize (H n eq_refl).
  destruct (Z.leb_spec (-2147483648) n), (Z.leb_spec n 2147483647); try lia.
  cbn [andb]. now destruct n.
Qed.

Lemma status_field (o : option Status) :
  Db.as_status "status"
    (str (interpolate (or (status_value o) (str "to-read"))))
  = Db.Done (Some (match o with
                   | Some st => st
                   | None => ToRead
                   end)).
Proof. now destruct o as [[]|]. Qed.

Lemma rating_field_checked o :
  (forall n, o = Some n -> 1 <= n <= 5) ->
  Db.check_rating (nonzero o) = Db.Done tt.
Proof.
  intros H. destruct o as [n|]; [|reflexivity].
  specialize (H n eq_refl).
  destruct n; cbn [nonzero Db.check_rating]; try lia.
  now destruct (Z.leb_spec 1 (Z.pos p)), (Z.leb_spec (Z.pos p) 5); try lia.
Qed.

Lemma openEditModal_found bookId p f rows book :
  books p = JsonBooks rows ->
  find (fun b => id b =? bookId) rows = Some book ->
  snd (openEditModal bookId p f)
  = {| editBookId := interpolate (number (id book));
       editTitle := interpolate (or (str (title book)) (str ""));
       editAuthor := interpolate (or (str (author book)) (str ""));
       editIsbn := interpolate (or (text (isbn book)) (str ""));
       editGenre := interpolate (or (text (genre book)) (str ""));
       editYear := interpolate (or (int (year_published book)) (str ""));
       editStatus :=
         interpolate (or (status_value (status book)) (str "to-read"));
       editRating := interpolate (or (int (rating book)) (str ""));
       editNotes := interpolate (or (text (notes book)) (str "")) |}.
Proof. intros Hb Hf. unfold openEditModal. now rewrite Hb, Hf. Qed.

Lemma edit_form_columns bookId p f rows book :
  books p = JsonBooks rows ->
  find (fun b => id b =? bookId) rows = Some book ->
  row_valid book ->
  Db.bind_columns (params_of (edit_bookData (snd (openEditModal bookId p f))))
  = Db.Done (as_edited book).
Proof.
  intros Hb Hf (Ht & Ha & Hi & Hg & Hy & Hr & Hk & Hn).
  rewrite (openEditModal_found bookId p f rows book Hb Hf).
  apply bind_columns_intro;
    cbn [params_of edit_bookData Body.title Body.author Body.isbn Body.genre
         Body.year_published Body.status Body.rating Body.notes
         Db.p_title Db.p_author Db.p_isbn Db.p_genre Db.p_year_published
         Db.p_status Db.p_rating Db.p_notes
         editTitle editAuthor editIsbn editGenre editYear editStatus
         editRating editNotes
         as_edited Db.c_title Db.c_author Db.c_isbn Db.c_genre
         Db.c_year_published Db.c_status Db.c_rating Db.c_notes].
  - rewrite or_empty_text. apply as_text_str. now apply Ht.
  - rewrite or_empty_text. apply as_text_str. now apply Ha.
  - now apply optional_text_field.
  - now apply optional_text_field.
  - now apply optional_int_field.
  - apply status_field.
  - now apply optional_int_field.
  - now apply rating_field_checked.
  - now apply optional_text_field.
Qed.

Lemma set_columns_as_edited now book :
  shown_in_full book -> Db.set_columns now (as_edited book) book = book.
Proof.
  intros (Hs & Hi & Hg & Hn & Hy & Hr).
  assert (E : Db.same_columns (as_edited book) book = true).
  { unfold Db.same_columns, as_edited.
    cbn [Db.c_title Db.c_author Db.c_isbn Db.c_genre Db.c_year_published
         Db.c_status Db.c_rating Db.c_notes].
    destruct book as [i t a isbn0 genre0 year0 status0 rating0 notes0 ca ua].
    cbn [title author isbn genre year_published status rating notes] in *.
    rewrite !String.eqb_refl.
    destruct isbn0 as [[|]|], genre0 as [[|]|], notes0 as [[|]|];
      try congruence;
      destruct year0 as [[| |]|], rating0 as [[| |]|], status0 as [[]|];
      try congruence;
      cbn [nonempty nonzero Db.option_eqb andb];
      rewrite ?String.eqb_refl, ?Z.eqb_refl, ?Ascii.eqb_refl; reflexivity. }
  unfold Db.set_columns. rewrite E. unfold as_edited.
  destruct book as [i t a isbn0 genre0 year0 status0 rating0 notes0 ca ua].
  cbn [title author isbn genre year_published status rating notes
       id created_at updated_at
       Db.c_title Db.c_author Db.c_isbn Db.c_genre Db.c_year_published
       Db.c_status Db.c_rating Db.c_notes] in *.
  destruct isbn0 as [[|]|], genre0 as [[|]|], notes0 as [[|]|];
    try congruence;
    destruct year0 as [[| |]|], rating0 as [[| |]|], status0 as [[]|];
    try congruence; reflexivity.
Qed.

(** X27. When the edit form is opened on a fetched book that fits the
    column types and is saved as it was filled, the values the server binds
    for the eight columns are the book's own, except that an empty text and
    a zero in an optional column are sent as NULL and a missing status as
    'to-read'. Year and rating travel as decimal text and are read back as
    the same numbers. For a book with a status and no empty or zero
    optional value the bound columns are exactly the stored ones. *)
Theorem unchanged_edit_sends_the_stored_values
    (bookId : Z) (p : Page) (f : EditForm) (rows : list Book) (book : Book) :
  books p = JsonBooks rows ->
  find (fun b => id b =? bookId) rows = Some book ->
  row_valid book ->
  Db.bind_columns (params_of (edit_bookData (snd (openEditModal bookId p f))))
  = Db.Done (as_edited book) /\
  (shown_in_full book ->
   forall now, Db.set_columns now (as_edited book) book = book).
Proof.
  intros Hb Hf Hv. split.
  - now apply (edit_form_columns bookId p f rows book).
  - intros Hfull now. now apply set_columns_as_edited.
Qed.

Lemma sample_rows_valid :
  forall r, In r [gatsby; nineteen_eighty_four; mockingbird] -> row_valid r.
Proof. exact (proj1 sample_constraints_hold). Qed.

Lemma unchanged_edit_sends_the_stored_values_witness :
  Db.bind_columns
    (params_of (edit_bookData (snd (openEditModal 3 sample_page blank_form))))
  = Db.Done (Db.mkColumns "To Kill a Mockingbird" "Harper Lee"
               (Some "9780061120084") (Some "Fiction") (Some 1960)
               (Some Reading) None (Some "Currently reading")).
Proof.
  apply (proj1 (unchanged_edit_sends_the_stored_values 3 sample_page blank_form
                  [gatsby; nineteen_eighty_four; mockingbird] mockingbird
                  eq_refl eq_refl
                  (sample_rows_valid mockingbird
                     (or_intror (or_intror (or_introl eq_refl)))))).
Defined.

Lemma same_id_same_row rows a b :
  NoDup (List.map id rows) -> In a rows -> In b rows -> id a = id b -> a = b.
Proof.
  intros Hnd Ha Hb E.
  pose proof (filter_has_id_unique rows a Hnd Ha) as Fa.
  pose proof (filter_has_id_unique rows b Hnd Hb) as Fb.
  rewrite E, Fb in Fa. now injection Fa.
Qed.

Lemma check_unique_isbn_free o others :
  (forall r s, In r others -> o = Some s -> isbn r <> Some s) ->
  Db.check_unique_isbn o others = Db.Done tt.
Proof.
  intros H. destruct o as [s|]; [|reflexivity]. cbn [Db.check_unique_isbn].
  destruct (existsb _ others) eqn:E; [|reflexivity].
  apply existsb_exists in E. destruct E as (r & Hr & Hs). exfalso.
  apply (H r s Hr eq_refl).
  destruct (isbn r) as [t|]; cbn [Db.option_eqb] in Hs; [|discriminate].
  apply String.eqb_eq in Hs. now subst.
Qed.

Lemma update_with_own_columns (d : Db.Database) (book : Book) :
  NoDup (List.map id (Db.books d)) -> In book (Db.books d) ->
  (forall now, Db.set_columns now (as_edited book) book = book) ->
  List.map (fun r => if Db.has_id (id book) r
                     then Db.set_columns (Db.clock d) (as_edited book) r
                     else r) (Db.books d) = Db.books d.
Proof.
  intros Hnd Hin Hset. rewrite <- (map_id (Db.books d)) at 2.
  apply map_ext_in. intros r Hr.
  destruct (Db.has_id (id book) r) eqn:E; [|reflexivity].
  unfold Db.has_id in E. apply Z.eqb_eq in E.
  rewrite (same_id_same_row (Db.books d) r book Hnd Hr Hin E). apply Hset.
Qed.

(** X28. Opening the edit form on a stored book and saving it untouched is
    a no-op on a consistent table: for a book shown in full, fetched as it
    is stored, the PUT is answered 200 with that same book, and the
    database afterwards is the database before, [updated_at] included. *)
Theorem saving_an_untouched_edit_changes_nothing
    (d : Db.Database) (p : Page) (f : EditForm) (rows : list Book)
    (book : Book) :
  reachable d ->
  keys_consistent d -> constraints_hold d ->
  In book (Db.books d) ->
  books p = JsonBooks rows ->
  find (fun b => id b =? id book) rows = Some book ->
  shown_in_full book ->
  Routes.serve
    (Routes.router_put (id book)
       (edit_bookData (snd (openEditModal (id book) p f)))) d
  = (Db.Done {| statusCode := 200; payload := Some (JsonBook book) |}, d,
     [Routes.Update
        (params_of (edit_bookData (snd (openEditModal (id book) p f))))
        (id book);
      Routes.SelectById (id book)]).
Proof.
  intros Hon [Hnd _] [Hv Hu] Hin Hb Hf Hfull.
  pose proof (edit_form_columns (id book) p f rows book Hb Hf (Hv book Hin)) as Hc.
  pose proof (fun now => set_columns_as_edited now book Hfull) as Hset.
  assert (Hisbn : Db.c_isbn (as_edited book) = isbn book).
  { destruct Hfull as (_ & Hi & _). cbn [as_edited Db.c_isbn].
    now destruct (isbn book) as [[|]|]. }
  rewrite router_put_run, (connected_reachable d _ _ Hon). unfold Db.update.
  rewrite (filter_has_id_unique (Db.books d) book Hnd Hin), Hc.
  cbn [Db.and_then].
  rewrite check_unique_isbn_free.
  - cbn [Db.and_then Db.affectedRows List.length Z.of_nat Z.eqb].
    rewrite (update_with_own_columns d book Hnd Hin Hset).
    rewrite database_eta. cbn [Pos.of_succ_nat Z.eqb].
    rewrite (select_by_id_online d (id book) _ (Hon _)),
      (filter_has_id_unique (Db.books d) book Hnd Hin).
    reflexivity.
  - intros r s Hr Es Hs. rewrite app_nil_r in Hr. apply filter_In in Hr.
    destruct Hr as [Hr Hid]. rewrite Hisbn in Es.
    pose proof (Hu r book s Hr Hin Hs Es) as E.
    unfold Db.has_id in Hid. rewrite E, Z.eqb_refl in Hid. discriminate.
Qed.

Lemma saving_an_untouched_edit_changes_nothing_witness :
  Routes.serve
    (Routes.router_put 2 (edit_bookData (snd (openEditModal 2 sample_page blank_form))))
    sample_library
  = (Db.Done {| statusCode := 200;
                payload := Some (JsonBook nineteen_eighty_four) |},
     sample_library,
     [Routes.Update
        (params_of (edit_bookData (snd (openEditModal 2 sample_page blank_form))))
        2;
      Routes.SelectById 2]).
Proof.
  apply (saving_an_untouched_edit_changes_nothing sample_library sample_page
           blank_form [gatsby; nineteen_eighty_four; mockingbird]
           nineteen_eighty_four (fun _ => eq_refl) sample_keys_consistent
           sample_constraints_hold).
  - cbn. tauto.
  - reflexivity.
  - reflexivity.
  - repeat split; discriminate.
Defined.

(** ** The add form *)

Lemma get_set_same k v o : get k (set k v o) = v.
Proof.
  induction o as [|[k' v'] o IH]; cbn [set get].
  - now rewrite String.eqb_refl.
  - destruct (String.eqb_spec k' k) as [->|N]; cbn [get].
    + now rewrite String.eqb_refl.
    + apply String.eqb_neq in N. now rewrite N.
Qed.

Lemma get_set_other k k' v o : k' <> k -> get k (set k' v o) = get k o.
Proof.
  intros N. induction o as [|[k0 v0] o IH]; cbn [set get].
  - apply String.eqb_neq in N. now rewrite N.
  - destruct (String.eqb_spec k0 k') as [->|N0]; cbn [get].
    + apply String.eqb_neq in N. now rewrite N.
    + now rewrite IH.
Qed.

Lemma find_app_single {A} (f : A -> bool) (l : list A) (x : A) :
  find f (l ++ [x])
  = match find f l with
    | Some y => Some y
    | None => if f x then Some x else None
    end.
Proof.
  induction l as [|a l IH]; cbn [app find]; [reflexivity|].
  now destruct (f a).
Qed.

Lemma get_fromEntries k entries o0 :
  get k (fold_left (fun o e => set (fst e) (str (snd e)) o) entries o0)
  = match last_entry k entries with
    | Some e => str (snd e)
    | None => get k o0
    end.
Proof.
  unfold last_entry. revert o0.
  induction entries as [|e entries IH]; intros o0; cbn [fold_left rev];
    [reflexivity|].
  rewrite IH, find_app_single.
  destruct (find _ (rev entries)); [reflexivity|].
  destruct (String.eqb_spec (fst e) k) as [->|N].
  - apply get_set_same.
  - now apply get_set_other.
Qed.

Lemma get_clean k o :
  get k (clean o)
  = match get k o with
    | str EmptyString => null
    | v => v
    end.
Proof.
  unfold clean. induction o as [|[k' v] o IH]; cbn [List.map get]; [reflexivity|].
  destruct v as [| | | |[|c t]]; cbn [fst snd get];
    destruct (k' =? k)%string; try reflexivity; exact IH.
Qed.

Lemma add_bookData_field k entries :
  get k (add_bookData entries)
  = match last_entry k entries with
    | Some (_, EmptyString) => null
    | Some (_, v) => str v
    | None => undefined
    end.
Proof.
  unfold add_bookData, fromEntries. rewrite get_clean, get_fromEntries.
  cbn [get]. now destruct (last_entry k entries) as [[k' [|c t]]|].
Qed.

Lemma last_entry_in k entries e :
  last_entry k entries = Some e -> In e entries /\ fst e = k.
Proof.
  unfold last_entry. intros H. apply find_some in H. destruct H as [Hin Hk].
  split; [now apply in_rev | now apply String.eqb_eq].
Qed.

Lemma empty_field_is_blank k entries :
  (forall v, In (k, v) entries -> v = "") ->
  truthy (get k (add_bookData entries)) = false.
Proof.
  intros H. rewrite add_bookData_field.
  destruct (last_entry k entries) as [[k' v]|] eqn:E; [|reflexivity].
  destruct (last_entry_in k entries _ E) as [Hin Hk]. cbn [fst] in Hk. subst k'.
  now rewrite (H v Hin).
Qed.

(** X29. The body [handleAddBook] sends holds, for every field name, the
    value of the last form entry with that name: as a string when it is not
    empty, as [null] when it is empty, and nothing when the form has no such
    entry; no field is ever sent as an empty string. When the title or the
    author entry is empty or absent, the create route answers 400 without
    asking the database. *)
Theorem add_form_is_cleaned_then_validated
    (entries : list (string * string)) (d : Db.Database) :
  (forall k,
     get k (add_bookData entries)
     = match last_entry k entries with
       | Some (_, EmptyString) => null
       | Some (_, v) => str v
       | None => undefined
       end) /\
  (forall k, get k (add_bookData entries) <> str "") /\
  ((forall v, In ("title", v) entries -> v = "") \/
   (forall v, In ("author", v) entries -> v = "") ->
   Routes.serve (Routes.router_post (body_of (add_bookData entries))) d
   = (Db.Done validation_error, d, [])).
Proof.
  split; [exact (fun k => add_bookData_field k entries)|]. split.
  - intros k. rewrite add_bookData_field.
    now destruct (last_entry k entries) as [[k' [|c t]]|].
  - intros H. rewrite router_post_run. cbn [body_of Body.title Body.author].
    destruct H as [H | H]; rewrite (empty_field_is_blank _ entries H);
      [reflexivity|].
    now rewrite orb_true_r.
Qed.

Lemma add_form_is_cleaned_then_validated_witness :
  Routes.serve
    (Routes.router_post
       (body_of (add_bookData [("title", ""); ("author", "Frank Herbert");
                               ("isbn", "")])))
    sample_library
  = (Db.Done validation_error, sample_library, []) /\
  get "isbn" (add_bookData [("title", "Dune"); ("author", "Frank Herbert");
                            ("isbn", "")]) = null.
Proof.
  split.
  - apply (add_form_is_cleaned_then_validated
             [("title", ""); ("author", "Frank Herbert"); ("isbn", "")]
             sample_library).
    left. intros v [E | [E | [E | []]]]; now injection E.
  - now rewrite (proj1 (add_form_is_cleaned_then_validated
                          [("title", "Dune"); ("author", "Frank Herbert");
                           ("isbn", "")] sample_library) "isbn").
Defined.

End FormsCoverage.
